(** * Content-generation pipeline: normalizer, comparison engine, envelope
      parser, FAQ question selection, safety rules and the stage sequencer.

    A shallow embedding of the Python sources

      - [agents/product_parser.py]    (module [ProductParserAgent])
      - [logic_blocks/comparison.py]  (module [comparison])
      - [logic_blocks/safety.py]      (module [safety])
      - [agents/faq_agent.py]         (module [FAQPageAgent])
      - [agents/question_generator.py] (module [QuestionGeneratorAgent])
      - [orchestrator.py]             (module [Orchestrator])

    Python values are modelled as the code has them: [str] as the list of
    its Unicode code points, [float] as IEEE-754 binary64 (Rocq's primitive
    floats), [int] as [Z], [dict] objects read through fixed keys as records
    with optional fields or as [gmap]s, [set] as [gset].  Exceptions are an
    explicit error result. *)

From Stdlib Require Import ZArith NArith List Bool Lia.
From Stdlib Require Import Strings.String Strings.Ascii.
From Stdlib Require Import PrimFloat SpecFloat FloatOps FloatAxioms.
From stdpp Require Import gmap strings list.

Local Open Scope Z_scope.

(** Decimal literals such as [14.3] stand for the nearest binary64, as
    they do in Python. *)
#[local] Set Warnings "-inexact-float".

(** ** Python strings *)

(** A Python [str] is a sequence of Unicode code points. *)
Abbreviation pystr := (list N).

Module Py.

(** UTF-8 decoding of a source literal (a Rocq [string] is a byte string),
    so that the literals of the Python sources can be written as they are. *)
Fixpoint utf8_decode (bs : list N) : pystr :=
  match bs with
  | [] => []
  | b0 :: r0 =>
    if (b0 <? 128)%N then b0 :: utf8_decode r0
    else match r0 with
    | [] => []
    | b1 :: r1 =>
      if (b0 <? 224)%N then ((b0 - 192) * 64 + (b1 - 128))%N :: utf8_decode r1
      else match r1 with
      | [] => []
      | b2 :: r2 =>
        if (b0 <? 240)%N
        then ((b0 - 224) * 4096 + (b1 - 128) * 64 + (b2 - 128))%N :: utf8_decode r2
        else match r2 with
        | [] => []
        | b3 :: r3 =>
          ((b0 - 240) * 262144 + (b1 - 128) * 4096 + (b2 - 128) * 64 + (b3 - 128))%N
            :: utf8_decode r3
        end
      end
    end
  end.

Definition str (s : string) : pystr :=
  utf8_decode (map N_of_ascii (list_ascii_of_string s)).

(** [str.isspace] for one character ([Py_UNICODE_ISSPACE]); it is also the
    class [\s] of [re] on [str] patterns and what [str.strip()] removes. *)
Definition isspace (c : N) : bool :=
  ((9 <=? c) && (c <=? 13) || (28 <=? c) && (c <=? 32)
   || (c =? 133) || (c =? 160) || (c =? 5760)
   || (8192 <=? c) && (c <=? 8202)
   || (c =? 8232) || (c =? 8233) || (c =? 8239) || (c =? 8287) || (c =? 12288))%N.

(** Code points of the digit zero of every decimal-digit block (general
    category Nd, Unicode 14.0 as shipped with CPython 3.11); the ten digits
    of a block are contiguous. *)
Definition decimal_zeros : list N :=
  [ 48; 1632; 1776; 1984; 2406; 2534; 2662; 2790; 2918; 3046; 3174; 3302;
    3430; 3558; 3664; 3792; 3872; 4160; 4240; 6112; 6160; 6470; 6608; 6784;
    6800; 6992; 7088; 7232; 7248; 42528; 43216; 43264; 43472; 43504; 43600;
    44016; 65296; 66720; 68912; 69734; 69872; 69942; 70096; 70384; 70736;
    70864; 71248; 71360; 71472; 71904; 72016; 72784; 73040; 73120; 92768;
    92864; 93008; 120782; 120792; 120802; 120812; 120822; 123200; 123632;
    125264; 130032 ]%N.

Fixpoint decimal_in (zeros : list N) (c : N) : option N :=
  match zeros with
  | [] => None
  | z :: zs => if ((z <=? c) && (c <? z + 10))%N then Some (c - z)%N
               else decimal_in zs c
  end.

(** The decimal value of a character of class [\d] ([str.isdecimal]),
    [None] for every other character. *)
Definition decimal (c : N) : option N := decimal_in decimal_zeros c.

Definition isdecimal (c : N) : bool :=
  match decimal c with Some _ => true | None => false end.

(** [s.lower()] on ASCII text: the letters [A]-[Z] become [a]-[z]. *)
Definition ascii_lower (s : pystr) : pystr :=
  map (fun c => if ((65 <=? c) && (c <=? 90))%N then (c + 32)%N else c) s.

(** [s.strip()]: leading and trailing whitespace removed. *)
Fixpoint lstrip (s : pystr) : pystr :=
  match s with
  | c :: r => if isspace c then lstrip r else s
  | [] => []
  end.

Definition rstrip (s : pystr) : pystr := rev (lstrip (rev s)).

Definition strip (s : pystr) : pystr := rstrip (lstrip s).

(** A text of whitespace only. *)
Definition blank (s : pystr) : Prop := Forall (fun c => isspace c = true) s.

(** A text that does not begin with whitespace. *)
Definition head_ok (x : pystr) : Prop :=
  forall c r, x = c :: r -> isspace c = false.

(** A text that neither begins nor ends with whitespace. *)
Definition trimmed (x : pystr) : Prop := head_ok x /\ head_ok (rev x).

(** [s.strip(chars)] for a one-character [chars]. *)
Fixpoint lstrip_char (ch : N) (s : pystr) : pystr :=
  match s with
  | c :: r => if (c =? ch)%N then lstrip_char ch r else s
  | [] => []
  end.

Definition strip_char (ch : N) (s : pystr) : pystr :=
  rev (lstrip_char ch (rev (lstrip_char ch s))).

(** [s.startswith(p)], [s.endswith(p)] and [p in s]. *)
Fixpoint startswith (s p : pystr) : bool :=
  match p, s with
  | [], _ => true
  | a :: p', b :: s' => (a =? b)%N && startswith s' p'
  | _ :: _, [] => false
  end.

Definition endswith (s p : pystr) : bool := startswith (rev s) (rev p).

Fixpoint contains (s p : pystr) : bool :=
  startswith s p || match s with [] => false | _ :: r => contains r p end.

(** [sep.join(items)]. *)
Fixpoint join (sep : pystr) (items : list pystr) : pystr :=
  match items with
  | [] => []
  | [x] => x
  | x :: r => x ++ sep ++ join sep r
  end.

(** [s.split(',')]: the fields between separators, at least one. *)
Fixpoint split_on (ch : N) (s : pystr) : list pystr :=
  match s with
  | [] => [[]]
  | c :: r =>
    if (c =? ch)%N then [] :: split_on ch r
    else match split_on ch r with
         | f :: fs => (c :: f) :: fs
         | [] => [[c]]
         end
  end.

End Py.

(** ** Python exceptions and numbers *)

Inductive exn_class :=
| ValueError | RuntimeError | OverflowError | AttributeError | TypeError
| FileNotFoundError | OSError.

(** An exception instance: its class and [str(e)]. *)
Record exn := Exn { exn_kind : exn_class; exn_msg : pystr }.

(** The outcome of a call that may raise. *)
Inductive result (A : Type) :=
| Ok (a : A)
| Raise (e : exn).
Arguments Ok {A} a.
Arguments Raise {A} e.

(** [result] is the error monad; stdpp's [x ← r; k] is its bind. *)
#[global] Instance result_ret : MRet result := fun A a => Ok a.
#[global] Instance result_bind : MBind result := fun A B k r =>
  match r with
  | Ok a => k a
  | Raise e => Raise e
  end.

(** A Python number: [int] or [float]. *)
Inductive pynum :=
| NInt (z : Z)
| NFloat (f : float).

Module PyFloat.

(** The binary64 nearest to the integer [z], ties to even. *)
Definition of_Z (z : Z) : float := SF2Prim (binary_normalize prec emax z 0 false).

(** [float(z)] for an [int]: [OverflowError] when [z] is out of range. *)
Definition float_of_int (z : Z) : result float :=
  let f := of_Z z in
  if is_infinity f
  then Raise (Exn OverflowError (Py.str "int too large to convert to float"))
  else Ok f.

(** The binary64 nearest to the quotient [n / d], ties to even (a correctly
    rounded decimal-to-binary conversion when [d] is a power of ten): the
    quotient is computed to at least 64 bits and rounded with the position
    of the remainder. *)
Definition of_ratio (n : Z) (d : positive) : float :=
  match n with
  | Z0 => zero
  | _ =>
    let a := Z.abs n in
    let s := Z.max 0 (Z.log2 (Zpos d) + 64 - Z.log2 a) in
    let '(q, r) := Z.div_eucl (Z.shiftl a s) (Zpos d) in
    SF2Prim (binary_round_aux prec emax (n <? 0) q (- s) (new_location (Zpos d) r))
  end.

(** The integer nearest to [n / d] for [0 <= n], ties to even. *)
Definition round_half_even (n : Z) (d : positive) : Z :=
  let '(q, r) := Z.div_eucl n (Zpos d) in
  match Z.compare (2 * r) (Zpos d) with
  | Lt => q
  | Gt => q + 1
  | Eq => if Z.even q then q else q + 1
  end.

(** [round(x, 1)] on a [float]: the exact binary value is rounded to one
    decimal place (ties to even) and the decimal result converted back to
    the nearest binary64; NaN, infinities and zeros are returned as they
    are. *)
Definition round1 (x : float) : float :=
  match Prim2SF x with
  | S754_finite s m e =>
    let n := match e with
             | Zneg k => round_half_even (Zpos m * 10) (2 ^ k)%positive
             | _ => Zpos m * 10 * 2 ^ e
             end in
    let r := of_ratio n 10 in
    if s then (- r)%float else r
  | _ => x
  end.

(** [max(a, b)] on floats: the builtin keeps its first argument unless the
    second compares greater. *)
Definition max (a b : float) : float := if PrimFloat.ltb a b then b else a.

End PyFloat.

(** [round(v, 1)] on a number: an [int] rounds to itself. *)
Definition py_round1 (v : pynum) : pynum :=
  match v with
  | NInt z => NInt z
  | NFloat f => NFloat (PyFloat.round1 f)
  end.

#[local] Set Warnings "-register-all".

(** A Python value as it can stand under a key of a product [dict]. *)
Inductive pyval :=
| VNone
| VBool (b : bool)
| VInt (z : Z)
| VFloat (f : float)
| VStr (s : pystr)
| VList (l : list pyval)
| VDict (d : list (pystr * pyval)).

(** [str(n)] for a non-negative [int]. *)
Fixpoint uint_codes (u : Decimal.uint) : pystr :=
  match u with
  | Decimal.Nil => []
  | Decimal.D0 r => 48%N :: uint_codes r
  | Decimal.D1 r => 49%N :: uint_codes r
  | Decimal.D2 r => 50%N :: uint_codes r
  | Decimal.D3 r => 51%N :: uint_codes r
  | Decimal.D4 r => 52%N :: uint_codes r
  | Decimal.D5 r => 53%N :: uint_codes r
  | Decimal.D6 r => 54%N :: uint_codes r
  | Decimal.D7 r => 55%N :: uint_codes r
  | Decimal.D8 r => 56%N :: uint_codes r
  | Decimal.D9 r => 57%N :: uint_codes r
  end.

Definition str_of_nat (n : nat) : pystr := uint_codes (Nat.to_uint n).

(** ** The two regular expressions of the numeric extraction *)

Module Re.

(** The class [[₹$€£,\s]]. *)
Definition currency_or_space (c : N) : bool :=
  ((c =? 8377) || (c =? 36) || (c =? 8364) || (c =? 163) || (c =? 44))%N
  || Py.isspace c.

(** [re.sub(r'[₹$€£,\s]', '', s)]: every character of the class removed. *)
Definition sub_currency (s : pystr) : pystr :=
  filter (fun c => currency_or_space c = false) s.

(** The longest prefix matching [\d*], as digit values, and the rest. *)
Fixpoint take_digits (s : pystr) : list N * pystr :=
  match s with
  | c :: r =>
    match Py.decimal c with
    | Some d => let '(ds, rest) := take_digits r in (d :: ds, rest)
    | None => ([], s)
    end
  | [] => ([], [])
  end.

(** A match of [(\d+(?:\.\d+)?)] at the start of [s]: the digits of the
    integral part and of the fractional part (none when the optional group
    does not match). Both quantifiers are greedy. *)
Definition match_number (s : pystr) : option (list N * list N) :=
  match take_digits s with
  | ([], _) => None
  | (ip, c :: r) =>
    if (c =? 46)%N then Some (ip, fst (take_digits r)) else Some (ip, [])
  | (ip, []) => Some (ip, [])
  end.

(** [re.search(r'(\d+(?:\.\d+)?)', s)]: the leftmost match. *)
Fixpoint search_number (s : pystr) : option (list N * list N) :=
  match match_number s with
  | Some m => Some m
  | None => match s with [] => None | _ :: r => search_number r end
  end.

(** A text without a decimal digit. *)
Definition digitless (s : pystr) : Prop := Forall (fun c => Py.decimal c = None) s.

(** The characters [ds] are decimal digits of values [vs]. *)
Definition digits_of (ds : pystr) (vs : list N) : Prop :=
  Forall2 (fun c v => Py.decimal c = Some v) ds vs.

(** The text does not begin with a decimal digit. *)
Definition no_digit_ahead (rest : pystr) : Prop :=
  match rest with
  | c :: _ => Py.decimal c = None
  | [] => True
  end.

Definition digits_value (ds : list N) : Z :=
  fold_left (fun acc d => acc * 10 + Z.of_N d) ds 0.

(** [float(match.group(1))]: the decimal numeral is converted to the
    nearest binary64. *)
Definition float_of_match (m : list N * list N) : float :=
  let '(ip, fp) := m in
  PyFloat.of_ratio (digits_value (ip ++ fp)) (Z.to_pos (10 ^ Z.of_nat (length fp))).

End Re.

(** ** logic_blocks/comparison.py *)

Module comparison.

(** The tags ["product_a"] and ["product_b"]. *)
Inductive side := product_a | product_b.

(** The value of ["winner"]: a side's tag or ["tie"]. *)
Inductive verdict := winner_is (s : side) | tie.

(** A product [dict] through the keys the comparison reads; [None] is an
    absent key. *)
Record product := {
  name : option pystr;
  ingredients : option (list pystr);
  benefits : option (list pystr);
  price : option pyval;
  skin_type : option (list pystr);
  concentration : option pyval;
}.

Record ingredients_side := {
  is_ingredients : list pystr;
  is_count : Z;
  is_concentration : pyval;
}.

(** Lists made from a [set] have no specified order; they stay sets. *)
Record ingredients_dim := {
  i_product_a : ingredients_side;
  i_product_b : ingredients_side;
  common_ingredients : gset pystr;
  i_unique_to_a : gset pystr;
  i_unique_to_b : gset pystr;
  i_analysis : pystr;
}.

Record benefits_side := {
  bs_benefits : list pystr;
  bs_count : Z;
}.

Record benefits_dim := {
  b_product_a : benefits_side;
  b_product_b : benefits_side;
  common_benefits : gset pystr;
  b_unique_to_a : gset pystr;
  b_unique_to_b : gset pystr;
  b_analysis : pystr;
}.

Record price_side := {
  ps_price : float;
  ps_formatted : pystr;
}.

Record price_dim := {
  p_product_a : price_side;
  p_product_b : price_side;
  difference : float;
  percentage_difference : pynum;
  cheaper_option : option side;
  p_analysis : pystr;
}.

Record skin_type_dim := {
  s_product_a : list pystr;
  s_product_b : list pystr;
  common_skin_types : gset pystr;
  s_analysis : pystr;
}.

Record scores := {
  product_a_score : Z;
  product_b_score : Z;
  winner : verdict;
}.

Record dimensions := {
  d_ingredients : ingredients_dim;
  d_benefits : benefits_dim;
  d_price : price_dim;
  d_skin_type : skin_type_dim;
}.

Record comparison := {
  c_products : pystr * pystr;
  c_dimensions : dimensions;
  c_scores : scores;
  c_summary : pystr;
}.

Definition _extract_price (price_value : pyval) : result float :=
  match price_value with
  | VBool b => Ok (if b then 1 else 0)%float
  | VInt z => PyFloat.float_of_int z
  | VFloat f => Ok f
  | VStr s =>
    let cleaned := Re.sub_currency s in
    match Re.search_number cleaned with
    | Some m => Ok (Re.float_of_match m)
    | None => Ok 0%float
    end
  | _ => Ok 0%float
  end.

Definition _calculate_scores
    (ingredients : ingredients_dim) (benefits : benefits_dim) (price : price_dim)
    : scores :=
  let score_a := 0 in
  let score_b := 0 in
  let '(score_a, score_b) :=
    if is_count (i_product_a ingredients) >? is_count (i_product_b ingredients)
    then (score_a + 1, score_b)
    else if is_count (i_product_b ingredients) >? is_count (i_product_a ingredients)
    then (score_a, score_b + 1)
    else (score_a, score_b) in
  let '(score_a, score_b) :=
    if bs_count (b_product_a benefits) >? bs_count (b_product_b benefits)
    then (score_a + 1, score_b)
    else if bs_count (b_product_b benefits) >? bs_count (b_product_a benefits)
    then (score_a, score_b + 1)
    else (score_a, score_b) in
  let '(score_a, score_b) :=
    match cheaper_option price with
    | Some product_a => (score_a + 1, score_b)
    | Some product_b => (score_a, score_b + 1)
    | None => (score_a, score_b)
    end in
  {| product_a_score := score_a;
     product_b_score := score_b;
     winner := if score_a >? score_b then winner_is product_a
               else if score_b >? score_a then winner_is product_b
               else tie |}.

Definition _analyze_ingredients (common unique_a unique_b : gset pystr) : pystr :=
  if bool_decide (common ≠ ∅)
  then Py.str "Products share " ++ str_of_nat (size common)
       ++ Py.str " common ingredient(s), suggesting similar formulation approaches."
  else if bool_decide (unique_a ≠ ∅) && bool_decide (unique_b ≠ ∅)
  then Py.str "Products have completely different ingredient profiles, catering to different skincare needs."
  else Py.str "Limited ingredient overlap between products.".

Definition _analyze_benefits (common unique_a unique_b : gset pystr) : pystr :=
  if bool_decide (common ≠ ∅)
  then Py.str "Both products offer " ++ str_of_nat (size common)
       ++ Py.str " similar benefit(s), making them comparable choices."
  else Py.str "Products offer different benefits and may serve different skincare goals.".

Definition _analyze_price (price_a price_b : float) (cheaper : option side) : pystr :=
  if PrimFloat.eqb price_a price_b
  then Py.str "Both products are priced equally, so choice can be based on other factors."
  else match cheaper with
       | Some product_a => Py.str "Product A offers a more budget-friendly option."
       | _ => Py.str "Product B offers a more budget-friendly option."
       end.

Definition _generate_comparison_summary (name_a name_b : pystr) (s : scores) : pystr :=
  match winner s with
  | tie => name_a ++ Py.str " and " ++ name_b
           ++ Py.str " are closely matched products. Your choice may depend on specific preferences and skin needs."
  | winner_is product_a =>
    name_a ++ Py.str " edges ahead in this comparison based on ingredients, benefits, and price factors."
  | winner_is product_b =>
    name_b ++ Py.str " edges ahead in this comparison based on ingredients, benefits, and price factors."
  end.

Section WithRuntime.

(** [str.lower] (the Unicode lower-casing of the runtime) and the [str] of a
    [float] inside an f-string are taken from the runtime as they are. *)
Variable lower : pystr -> pystr.
Variable repr_float : float -> pystr.

Definition lowered (items : list pystr) : gset pystr :=
  list_to_set (map lower items).

Definition _compare_ingredients (a b : product) : ingredients_dim :=
  let ing_a := lowered (default [] (ingredients a)) in
  let ing_b := lowered (default [] (ingredients b)) in
  let common := ing_a ∩ ing_b in
  let unique_a := ing_a ∖ ing_b in
  let unique_b := ing_b ∖ ing_a in
  {| i_product_a :=
       {| is_ingredients := default [] (ingredients a);
          is_count := Z.of_nat (length (default [] (ingredients a)));
          is_concentration := default (VStr (Py.str "N/A")) (concentration a) |};
     i_product_b :=
       {| is_ingredients := default [] (ingredients b);
          is_count := Z.of_nat (length (default [] (ingredients b)));
          is_concentration := default (VStr (Py.str "N/A")) (concentration b) |};
     common_ingredients := common;
     i_unique_to_a := unique_a;
     i_unique_to_b := unique_b;
     i_analysis := _analyze_ingredients common unique_a unique_b |}.

Definition _compare_benefits (a b : product) : benefits_dim :=
  let ben_a := lowered (default [] (benefits a)) in
  let ben_b := lowered (default [] (benefits b)) in
  let common := ben_a ∩ ben_b in
  let unique_a := ben_a ∖ ben_b in
  let unique_b := ben_b ∖ ben_a in
  {| b_product_a :=
       {| bs_benefits := default [] (benefits a);
          bs_count := Z.of_nat (length (default [] (benefits a))) |};
     b_product_b :=
       {| bs_benefits := default [] (benefits b);
          bs_count := Z.of_nat (length (default [] (benefits b))) |};
     common_benefits := common;
     b_unique_to_a := unique_a;
     b_unique_to_b := unique_b;
     b_analysis := _analyze_benefits common unique_a unique_b |}.

Definition _compare_price (a b : product) : result price_dim :=
  price_a ← _extract_price (default (VInt 0) (price a));
  price_b ← _extract_price (default (VInt 0) (price b));
  let difference := abs (price_a - price_b) in
  let percentage_diff :=
    if PrimFloat.ltb 0 (PyFloat.max price_a price_b)
    then NFloat (difference / PyFloat.max price_a price_b * 100)
    else NInt 0 in
  let cheaper :=
    if PrimFloat.ltb price_a price_b then Some product_a
    else if PrimFloat.ltb price_b price_a then Some product_b
    else None in
  mret {| p_product_a :=
            {| ps_price := price_a;
               ps_formatted := 8377%N :: repr_float price_a |};
          p_product_b :=
            {| ps_price := price_b;
               ps_formatted := 8377%N :: repr_float price_b |};
          difference := difference;
          percentage_difference := py_round1 percentage_diff;
          cheaper_option := cheaper;
          p_analysis := _analyze_price price_a price_b cheaper |}.

Definition _compare_skin_types (a b : product) : skin_type_dim :=
  let types_a := lowered (default [] (skin_type a)) in
  let types_b := lowered (default [] (skin_type b)) in
  let common := types_a ∩ types_b in
  {| s_product_a := default [] (skin_type a);
     s_product_b := default [] (skin_type b);
     common_skin_types := common;
     s_analysis :=
       if bool_decide (common ≠ ∅)
       then Py.str "Both products target " ++ str_of_nat (size common)
            ++ Py.str " common skin type(s)."
       else Py.str "Products target different skin types." |}.

Definition compare_products (a b : product) : result comparison :=
  let name_a := default (Py.str "Product A") (name a) in
  let name_b := default (Py.str "Product B") (name b) in
  let ingredients_comparison := _compare_ingredients a b in
  let benefits_comparison := _compare_benefits a b in
  price_comparison ← _compare_price a b;
  let skin_type_comparison := _compare_skin_types a b in
  let scores :=
    _calculate_scores ingredients_comparison benefits_comparison price_comparison in
  mret {| c_products := (name_a, name_b);
          c_dimensions :=
            {| d_ingredients := ingredients_comparison;
               d_benefits := benefits_comparison;
               d_price := price_comparison;
               d_skin_type := skin_type_comparison |};
          c_scores := scores;
          c_summary := _generate_comparison_summary name_a name_b scores |}.

End WithRuntime.

End comparison.

(** ** agents/product_parser.py *)

(** [bool(v)]. *)
Definition truthy (v : pyval) : bool :=
  match v with
  | VNone => false
  | VBool b => b
  | VInt z => negb (z =? 0)
  | VFloat f => negb (PrimFloat.eqb f 0)
  | VStr s => negb (bool_decide (s = []))
  | VList l => negb (bool_decide (length l = 0%nat))
  | VDict d => negb (bool_decide (length d = 0%nat))
  end.

(** [type(v).__name__]. *)
Definition type_name (v : pyval) : pystr :=
  match v with
  | VNone => Py.str "NoneType"
  | VBool _ => Py.str "bool"
  | VInt _ => Py.str "int"
  | VFloat _ => Py.str "float"
  | VStr _ => Py.str "str"
  | VList _ => Py.str "list"
  | VDict _ => Py.str "dict"
  end.

(** The [AttributeError] of a method call on a value that lacks it. *)
Definition no_attribute (v : pyval) (attr : string) : exn :=
  Exn AttributeError
    (Py.str "'" ++ type_name v ++ Py.str "' object has no attribute '"
     ++ Py.str attr ++ Py.str "'").

Module ProductParserAgent.

(** The raw product [dict] through the keys of [PRODUCT_INPUT_SCHEMA], each
    with the type the schema gives it; [None] is an absent key. *)
Record raw_product := {
  product_name : option pystr;
  raw_concentration : option pystr;
  raw_skin_type : option (list pystr);
  key_ingredients : option (list pystr);
  raw_benefits : option (list pystr);
  how_to_use : option pystr;
  raw_side_effects : option pystr;
  raw_price : option pystr;
}.

(** The normalized product, typed as [PARSED_PRODUCT_SCHEMA] requires. *)
Record parsed_product := {
  id : pystr;
  name : pystr;
  concentration : float;
  skin_type : list pystr;
  ingredients : list pystr;
  benefits : list pystr;
  usage : pystr;
  side_effects : pystr;
  price : float;
}.

(** The class [[a-z0-9]]. *)
Definition slug_char (c : N) : bool :=
  ((97 <=? c) && (c <=? 122) || (48 <=? c) && (c <=? 57))%N.

(** [re.sub(r'[^a-z0-9]+', '-', s)]: every maximal run of characters
    outside the class becomes one hyphen ([in_run]: the previous character
    was outside the class). *)
Fixpoint sub_non_slug (in_run : bool) (s : pystr) : pystr :=
  match s with
  | [] => []
  | c :: r =>
    if slug_char c then c :: sub_non_slug false r
    else if in_run then sub_non_slug true r
    else 45%N :: sub_non_slug true r
  end.

Section WithRuntime.

(** [str.lower], [str(v)] of a value that is no [str], and the message of a
    [jsonschema] validation error are taken from the runtime as they are. *)
Variable lower : pystr -> pystr.
Variable str_other : pyval -> pystr.
Variable schema_message : raw_product -> pystr.

Definition str_of (v : pyval) : pystr :=
  match v with
  | VStr s => s
  | _ => str_other v
  end.

(** [_generate_id]; [uuid4] is the text of the [uuid.uuid4()] drawn by the
    call. *)
Definition _generate_id (uuid4 : pystr) (name : pystr) : pystr :=
  let slug := Py.strip_char 45 (sub_non_slug false (lower name)) in
  let short_uuid := take 8 uuid4 in
  slug ++ Py.str "-" ++ short_uuid.

Definition _extract_concentration (value : pyval) : result float :=
  match value with
  | VBool b => Ok (if b then 1 else 0)%float
  | VInt z => PyFloat.float_of_int z
  | VFloat f => Ok f
  | _ =>
    match Re.search_number (str_of value) with
    | Some m => Ok (Re.float_of_match m)
    | None => Ok 0%float
    end
  end.

Definition _extract_price (value : pyval) : result float :=
  match value with
  | VBool b => Ok (if b then 1 else 0)%float
  | VInt z => PyFloat.float_of_int z
  | VFloat f => Ok f
  | _ =>
    let cleaned := Re.sub_currency (str_of value) in
    match Re.search_number cleaned with
    | Some m => Ok (Re.float_of_match m)
    | None => Ok 0%float
    end
  end.

(** The comprehension [[item.strip() for item in value if item and
    str(item).strip()]]. *)
Fixpoint strip_items (items : list pyval) : result (list pystr) :=
  match items with
  | [] => Ok []
  | item :: rest =>
    if truthy item && negb (bool_decide (Py.strip (str_of item) = []))
    then match item with
         | VStr s => r ← strip_items rest; mret (Py.strip s :: r)
         | _ => Raise (no_attribute item "strip")
         end
    else strip_items rest
  end.

Definition _normalize_array (value : pyval) : result (list pystr) :=
  match value with
  | VList items => strip_items items
  | VStr s =>
    let items := Py.split_on 44 s in
    Ok (map Py.strip (filter (fun item => Py.strip item ≠ []) items))
  | _ => Ok []
  end.

Definition _normalize (uuid4 : pystr) (raw : raw_product) : result parsed_product :=
  let id := _generate_id uuid4 (default [] (product_name raw)) in
  let name := Py.strip (default [] (product_name raw)) in
  concentration ← _extract_concentration (VStr (default [] (raw_concentration raw)));
  skin_type ← _normalize_array (VList (map VStr (default [] (raw_skin_type raw))));
  ingredients ← _normalize_array (VList (map VStr (default [] (key_ingredients raw))));
  benefits ← _normalize_array (VList (map VStr (default [] (raw_benefits raw))));
  let usage := Py.strip (default [] (how_to_use raw)) in
  let side_effects := Py.strip (default [] (raw_side_effects raw)) in
  price ← _extract_price (VStr (default [] (raw_price raw)));
  mret {| id := id; name := name; concentration := concentration;
          skin_type := skin_type; ingredients := ingredients;
          benefits := benefits; usage := usage;
          side_effects := side_effects; price := price |}.

(** [PRODUCT_INPUT_SCHEMA]: the eight required keys are present (their
    types are those of [raw_product]). *)
Definition satisfies_input_schema (raw : raw_product) : bool :=
  bool_decide (is_Some (product_name raw))
  && bool_decide (is_Some (raw_concentration raw))
  && bool_decide (is_Some (raw_skin_type raw))
  && bool_decide (is_Some (key_ingredients raw))
  && bool_decide (is_Some (raw_benefits raw))
  && bool_decide (is_Some (how_to_use raw))
  && bool_decide (is_Some (raw_side_effects raw))
  && bool_decide (is_Some (raw_price raw)).

Definition _validate_input (data : raw_product) : result unit :=
  if satisfies_input_schema data then Ok tt
  else Raise (Exn ValueError (Py.str "Invalid input data: " ++ schema_message data)).

(** [PARSED_PRODUCT_SCHEMA] asks for the nine keys with the types of
    [parsed_product]; every record satisfies it. *)
Definition _validate_output (data : parsed_product) : result unit := Ok tt.

(** [parse] on a [dict] argument ([_load_data] returns it as it is). *)
Definition parse (uuid4 : pystr) (input_data : raw_product) : result parsed_product :=
  let raw_data := input_data in
  _ ← _validate_input raw_data;
  normalized ← _normalize uuid4 raw_data;
  _ ← _validate_output normalized;
  mret normalized.

End WithRuntime.

End ProductParserAgent.

(** ** config.py *)

Module config.

Definition QUESTION_CATEGORIES : list pystr :=
  [Py.str "informational"; Py.str "usage"; Py.str "safety";
   Py.str "purchase"; Py.str "comparison"].

Definition MIN_QUESTIONS_PER_CATEGORY : Z := 3.
Definition TOTAL_MIN_QUESTIONS : Z := 15.
Definition MIN_FAQ_ITEMS : Z := 5.

Definition OUTPUT_FILES_faq : pystr := Py.str "faq.json".
Definition OUTPUT_FILES_product_page : pystr := Py.str "product_page.json".
Definition OUTPUT_FILES_comparison_page : pystr := Py.str "comparison_page.json".

End config.

(** ** The response envelope of the LLM-backed agents *)

(** [d.get(key, default)] on a decoded JSON object (keys are unique). *)
Fixpoint dict_get (key : pystr) (d : list (pystr * pyval)) (default : pyval) : pyval :=
  match d with
  | [] => default
  | (k, v) :: r => if bool_decide (k = key) then v else dict_get key r default
  end.

(** [len(v)]: a number, a truth value and [None] have no length. *)
Definition py_len (v : pyval) : result Z :=
  match v with
  | VStr s => Ok (Z.of_nat (length s))
  | VList l => Ok (Z.of_nat (length l))
  | VDict d => Ok (Z.of_nat (length d))
  | _ => Raise (Exn TypeError (Py.str "object of type '" ++ type_name v
                               ++ Py.str "' has no len()"))
  end.

(** [sum(len(q) for q in values)]. *)
Fixpoint sum_len (values : list pyval) : result Z :=
  match values with
  | [] => Ok 0
  | q :: rest =>
    n ← py_len q;
    total ← sum_len rest;
    mret (n + total)
  end.

Module Envelope.

(** The fence stripping both [_parse_response] methods start with:
    [cleaned = response.strip()], then the three [if]s on the markers. *)
Definition strip_code_fences (response : pystr) : pystr :=
  let cleaned := Py.strip response in
  let cleaned :=
    if Py.startswith cleaned (Py.str "```json") then drop 7 cleaned else cleaned in
  let cleaned :=
    if Py.startswith cleaned (Py.str "```") then drop 3 cleaned else cleaned in
  let cleaned :=
    if Py.endswith cleaned (Py.str "```")
    then take (length cleaned - 3) cleaned else cleaned in
  cleaned.

(** A response wrapped in a [json]-tagged fenced block, with optional
    whitespace around the block. *)
Definition fenced (before t after : pystr) : pystr :=
  before ++ Py.str "```json" ++ t ++ Py.str "```" ++ after.

(** The shape of every JSON text: stripped, it is not empty and neither
    begins nor ends with a backquote (a JSON value begins with one of
    [{ [ " - 0-9 t f n] and ends with one of [} ] " 0-9 e l]). *)
Definition json_shaped (t : pystr) : bool :=
  match Py.strip t with
  | [] => false
  | c :: body =>
    negb (c =? 96)%N
    && match last (c :: body) with
       | Some z => negb (z =? 96)%N
       | None => false
       end
  end.

End Envelope.

(** ** agents/question_generator.py *)

Module QuestionGeneratorAgent.

Section WithJson.

(** [json.loads]: the decoded value, or the text of the [JSONDecodeError]. *)
Variable json_loads : pystr -> pyval + pystr.

(** The [for] loop filling [result] over [self.categories]; on a decoded
    value that is no [dict] its first [data.get] raises. *)
Fixpoint fill_categories (categories : list pystr) (d : list (pystr * pyval))
    (result : gmap pystr pyval) : gmap pystr pyval :=
  match categories with
  | [] => result
  | category :: rest =>
    fill_categories rest d (<[category := dict_get category d (VList [])]> result)
  end.

Definition _parse_response (response : pystr) : result (gmap pystr pyval) :=
  let cleaned := Envelope.strip_code_fences response in
  match json_loads (Py.strip cleaned) with
  | inl data =>
    match data with
    | VDict d => Ok (fill_categories config.QUESTION_CATEGORIES d ∅)
    | _ => Raise (no_attribute data "get")
    end
  | inr e =>
    Raise (Exn ValueError (Py.str "Failed to parse LLM response as JSON: " ++ e))
  end.

End WithJson.

(** [questions.values()] of a [dict] given by its entries in the order of
    their insertion. *)
Definition values (questions : list (pystr * pyval)) : list pyval :=
  map snd questions.

(** The [dict] that [_parse_response] returns as its entries in the order
    of their insertion: its keys are the categories, inserted in their
    order. *)
Definition entries (questions : gmap pystr pyval) : list (pystr * pyval) :=
  omap (fun category => pair category <$> questions !! category)
       config.QUESTION_CATEGORIES.

(** [total] is a sum of lengths; [str] renders it in decimal. *)
Definition _validate_questions (questions : list (pystr * pyval)) : result unit :=
  total ← sum_len (values questions);
  if total <? config.TOTAL_MIN_QUESTIONS
  then Raise (Exn ValueError
                (Py.str "Insufficient questions generated: "
                 ++ str_of_nat (Z.to_nat total)
                 ++ Py.str " (minimum: "
                 ++ str_of_nat (Z.to_nat config.TOTAL_MIN_QUESTIONS)
                 ++ Py.str ")"))
  else Ok tt.

Definition get_total_count (questions : list (pystr * pyval)) : result Z :=
  sum_len (values questions).

Section WithModel.

(** The product as the agent receives it. The prompt is an f-string over
    the product that only the model reads: [_build_prompt] is taken as it
    is, with [self.model.generate_content(prompt).text] (the text, or the
    exception of the call) and [json.loads]. *)
Context {Product : Type}.
Variable _build_prompt : Product -> result pystr.
Variable generate_content : pystr -> result pystr.
Variable json_loads : pystr -> pyval + pystr.

Definition _call_llm (prompt : pystr) : result pystr :=
  match generate_content prompt with
  | Ok text => Ok text
  | Raise e => Raise (Exn RuntimeError (Py.str "LLM call failed: " ++ exn_msg e))
  end.

Definition generate (product : Product) : result (gmap pystr pyval) :=
  prompt ← _build_prompt product;
  response ← _call_llm prompt;
  questions ← _parse_response json_loads response;
  _ ← _validate_questions (entries questions);
  mret questions.

End WithModel.

End QuestionGeneratorAgent.

(** ** agents/faq_agent.py *)

Module FAQPageAgent.

(** An entry of [selected]: [{"question": ..., "category": ...}]. *)
Record selected_question := {
  question : pystr;
  category : pystr;
}.

Definition category_priority : list pystr :=
  [Py.str "informational"; Py.str "usage"; Py.str "safety";
   Py.str "purchase"; Py.str "comparison"].

(** First pass: the first question of every category that has one. *)
Fixpoint first_pass (categories : list pystr) (questions : gmap pystr (list pystr))
    (selected : list selected_question) : list selected_question :=
  match categories with
  | [] => selected
  | category :: rest =>
    match questions !! category with
    | Some (q :: _) =>
      first_pass rest questions
        (selected ++ [ {| question := q; category := category |} ])
    | _ => first_pass rest questions selected
    end
  end.

(** The inner loop of the second pass over [questions[category][1:]]; it
    breaks once [min_faqs + 2] questions are selected. *)
Fixpoint fill_from (min_faqs : Z) (category : pystr) (later : list pystr)
    (selected : list selected_question) : list selected_question :=
  match later with
  | [] => selected
  | q :: rest =>
    if Z.of_nat (length selected) >=? min_faqs + 2 then selected
    else fill_from min_faqs category rest
           (selected ++ [ {| question := q; category := category |} ])
  end.

(** Second pass; it breaks once [min_faqs] questions are selected. *)
Fixpoint second_pass (min_faqs : Z) (categories : list pystr)
    (questions : gmap pystr (list pystr))
    (selected : list selected_question) : list selected_question :=
  match categories with
  | [] => selected
  | category :: rest =>
    if Z.of_nat (length selected) >=? min_faqs then selected
    else
      match questions !! category with
      | Some qs =>
        second_pass min_faqs rest questions
          (fill_from min_faqs category (drop 1 qs) selected)
      | None => second_pass min_faqs rest questions selected
      end
  end.

(** [_select_questions]; [min_faqs] is [self.min_faqs]. *)
Definition _select_questions (min_faqs : Z) (questions : gmap pystr (list pystr))
    : list selected_question :=
  let selected := [] in
  let selected := first_pass category_priority questions selected in
  let selected := second_pass min_faqs category_priority questions selected in
  selected.

(** The later questions of the categories (the first of each left out),
    in the order in which the second pass visits them. *)
Definition later_questions (categories : list pystr)
    (questions : gmap pystr (list pystr)) : list selected_question :=
  flat_map (fun c => map (fun q => {| question := q; category := c |})
                         (drop 1 (default [] (questions !! c)))) categories.

(** The first question of every category that has one, in the order of
    the categories. *)
Definition first_questions (categories : list pystr)
    (questions : gmap pystr (list pystr)) : list selected_question :=
  flat_map (fun c => match questions !! c with
                     | Some (q :: _) => [ {| question := q; category := c |} ]
                     | _ => []
                     end) categories.

Section WithJson.

Variable json_loads : pystr -> pyval + pystr.

Definition _parse_response (response : pystr) : result pyval :=
  let cleaned := Envelope.strip_code_fences response in
  match json_loads (Py.strip cleaned) with
  | inl data =>
    match data with
    | VDict d => Ok (dict_get (Py.str "faqs") d (VList []))
    | _ => Raise (no_attribute data "get")
    end
  | inr e =>
    Raise (Exn ValueError (Py.str "Failed to parse LLM response: " ++ e))
  end.

End WithJson.

End FAQPageAgent.

(** ** agents/comparison_agent.py *)

Module ComparisonAgent.

Section WithJson.

Variable json_loads : pystr -> pyval + pystr.

Definition _parse_response (response : pystr) : result pyval :=
  let cleaned := Envelope.strip_code_fences response in
  match json_loads (Py.strip cleaned) with
  | inl data => Ok data
  | inr e =>
    Raise (Exn ValueError (Py.str "Failed to parse LLM response: " ++ e))
  end.

End WithJson.

End ComparisonAgent.

(** ** agents/product_page_agent.py *)

Module ProductPageAgent.

(** The product [dict] through the keys [generate] reads, typed as in
    [PARSED_PRODUCT_SCHEMA]; [None] is an absent key. *)
Record product := {
  id : option pystr;
  name : option pystr;
  concentration : option float;
  skin_type : option (list pystr);
  ingredients : option (list pystr);
  benefits : option (list pystr);
  usage : option pystr;
  side_effects : option pystr;
  price : option float;
}.

(** The page [dict]; the keys of its nested [dict]s carry the name of the
    outer key. What comes from the decoded response is a JSON value. *)
Record product_page := {
  page_type : pystr;
  product_id : pystr;
  product_name : pystr;
  generated_at : pystr;
  headline : pyval;
  description : pyval;
  concentration_text : pystr;
  page_skin_type : list pystr;
  ingredients_list : list pystr;
  ingredients_description : pyval;
  benefits_list : list pystr;
  benefits_description : pyval;
  usage_instructions : pystr;
  usage_tips : pyval;
  safety_side_effects : pystr;
  safety_precautions : pyval;
  pricing_amount : pynum;
  pricing_currency : pystr;
  pricing_formatted : pystr;
}.

(** The page as the [dict] it is. *)
Definition as_dict (page : product_page) : list (pystr * pyval) :=
  let texts (l : list pystr) := VList (map VStr l) in
  [ (Py.str "page_type", VStr (page_type page));
    (Py.str "product_id", VStr (product_id page));
    (Py.str "product_name", VStr (product_name page));
    (Py.str "generated_at", VStr (generated_at page));
    (Py.str "headline", headline page);
    (Py.str "description", description page);
    (Py.str "concentration", VStr (concentration_text page));
    (Py.str "skin_type", texts (page_skin_type page));
    (Py.str "ingredients",
     VDict [ (Py.str "list", texts (ingredients_list page));
             (Py.str "description", ingredients_description page) ]);
    (Py.str "benefits",
     VDict [ (Py.str "list", texts (benefits_list page));
             (Py.str "description", benefits_description page) ]);
    (Py.str "usage",
     VDict [ (Py.str "instructions", VStr (usage_instructions page));
             (Py.str "tips", usage_tips page) ]);
    (Py.str "safety",
     VDict [ (Py.str "side_effects", VStr (safety_side_effects page));
             (Py.str "precautions", safety_precautions page) ]);
    (Py.str "pricing",
     VDict [ (Py.str "amount",
              match pricing_amount page with
              | NInt z => VInt z
              | NFloat f => VFloat f
              end);
             (Py.str "currency", VStr (pricing_currency page));
             (Py.str "formatted", VStr (pricing_formatted page)) ]) ].

(** The minimal structure [_parse_response] returns when decoding fails. *)
Definition minimal_content : pyval :=
  VDict [ (Py.str "headline", VStr []);
          (Py.str "description", VStr []);
          (Py.str "ingredients_description", VStr []);
          (Py.str "benefits_description", VStr []);
          (Py.str "usage_tips", VList []);
          (Py.str "precautions", VList []) ].

Section WithModel.

(** The prompt (an f-string over the product that only the model reads),
    the model's answer to it, [json.loads], the [str] of a [float] in an
    f-string and [datetime.now(timezone.utc).isoformat()] are taken as they
    are. *)
Variable _build_prompt : product -> result pystr.
Variable generate_content : pystr -> result pystr.
Variable json_loads : pystr -> pyval + pystr.
Variable repr_float : float -> pystr.
Variable now_isoformat : pystr.

Definition _call_llm (prompt : pystr) : result pystr :=
  match generate_content prompt with
  | Ok text => Ok text
  | Raise e => Raise (Exn RuntimeError (Py.str "LLM call failed: " ++ exn_msg e))
  end.

Definition _parse_response (response : pystr) : pyval :=
  let cleaned := Envelope.strip_code_fences response in
  match json_loads (Py.strip cleaned) with
  | inl data => data
  | inr e => minimal_content
  end.

Definition _generate_enhanced_content (p : product) : result pyval :=
  prompt ← _build_prompt p;
  response ← _call_llm prompt;
  mret (_parse_response response).

(** [enhanced_content.get(key, default)]; only a [dict] has [get]. *)
Definition content_get (enhanced_content : pyval) (key : string) (default : pyval)
    : result pyval :=
  match enhanced_content with
  | VDict d => Ok (dict_get (Py.str key) d default)
  | _ => Raise (no_attribute enhanced_content "get")
  end.

Definition generate (p : product) : result product_page :=
  enhanced_content ← _generate_enhanced_content p;
  headline ← content_get enhanced_content "headline" (VStr (default [] (name p)));
  description ← content_get enhanced_content "description" (VStr []);
  ingredients_description ←
    content_get enhanced_content "ingredients_description" (VStr []);
  benefits_description ←
    content_get enhanced_content "benefits_description" (VStr []);
  usage_tips ← content_get enhanced_content "usage_tips" (VList []);
  precautions ← content_get enhanced_content "precautions" (VList []);
  mret {| page_type := Py.str "product";
          product_id := default [] (id p);
          product_name := default [] (name p);
          generated_at := now_isoformat;
          headline := headline;
          description := description;
          concentration_text :=
            from_option repr_float [] (concentration p) ++ Py.str "%";
          page_skin_type := default [] (skin_type p);
          ingredients_list := default [] (ingredients p);
          ingredients_description := ingredients_description;
          benefits_list := default [] (benefits p);
          benefits_description := benefits_description;
          usage_instructions := default [] (usage p);
          usage_tips := usage_tips;
          safety_side_effects := default [] (side_effects p);
          safety_precautions := precautions;
          pricing_amount := from_option NFloat (NInt 0) (price p);
          pricing_currency := Py.str "INR";
          pricing_formatted :=
            8377%N :: from_option repr_float [] (price p) |}.

End WithModel.

End ProductPageAgent.

(** ** agents/template_engine_agent.py *)

Module TemplateEngineAgent.

(** A text value and an entry of a [dict] literal. *)
Definition text (s : string) : pyval := VStr (Py.str s).
Definition entry (key : string) (v : pyval) : pystr * pyval := (Py.str key, v).

(** [{"type": type}] with further entries. *)
Definition field_def (type : string) (more : list (pystr * pyval)) : pyval :=
  VDict (entry "type" (text type) :: more).

(** The ["fields"] of the three default templates. *)
Definition faq_fields : list (pystr * pyval) :=
  [ entry "page_type" (field_def "string" [entry "default" (text "faq")]);
    entry "product_name" (field_def "string" [entry "source" (text "product.name")]);
    entry "generated_at"
      (field_def "datetime" [entry "source" (text "system.timestamp")]);
    entry "faqs" (field_def "array"
      [ entry "item_fields" (VDict
          [ entry "question" (field_def "string" []);
            entry "answer" (field_def "string" []);
            entry "category" (field_def "string" []) ]) ]) ].

Definition product_fields : list (pystr * pyval) :=
  [ entry "page_type" (field_def "string" [entry "default" (text "product")]);
    entry "product_name" (field_def "string" [entry "source" (text "product.name")]);
    entry "ingredients"
      (field_def "array" [entry "source" (text "blocks.ingredients")]);
    entry "benefits" (field_def "array" [entry "source" (text "blocks.benefits")]);
    entry "usage" (field_def "string" [entry "source" (text "blocks.usage")]);
    entry "side_effects"
      (field_def "string" [entry "source" (text "blocks.safety")]);
    entry "price" (field_def "string" [entry "source" (text "product.price")]) ].

Definition comparison_fields : list (pystr * pyval) :=
  [ entry "page_type" (field_def "string" [entry "default" (text "comparison")]);
    entry "product_a" (field_def "object" [entry "source" (text "product_a")]);
    entry "product_b" (field_def "object" [entry "source" (text "product_b")]);
    entry "comparison" (field_def "object"
      [ entry "fields" (VDict
          [ entry "ingredients" (field_def "string" []);
            entry "benefits" (field_def "string" []);
            entry "price" (field_def "string" []) ]);
        entry "source" (text "blocks.comparison") ]) ].

(** The [defaults] of [_get_default_template]. *)
Definition defaults : list (pystr * pyval) :=
  [ entry "faq" (VDict
      [ entry "template_name" (text "faq");
        entry "description" (text "FAQ page template");
        entry "fields" (VDict faq_fields);
        entry "required_blocks"
          (VList [text "safety"; text "usage"; text "benefits"; text "ingredients"]) ]);
    entry "product" (VDict
      [ entry "template_name" (text "product");
        entry "description" (text "Product page template");
        entry "fields" (VDict product_fields);
        entry "required_blocks"
          (VList [text "ingredients"; text "benefits"; text "usage"; text "safety"]) ]);
    entry "comparison" (VDict
      [ entry "template_name" (text "comparison");
        entry "description" (text "Comparison page template");
        entry "fields" (VDict comparison_fields);
        entry "required_blocks" (VList [text "comparison"]) ]) ].

Definition _get_default_template (template_name : pystr) : pyval :=
  dict_get template_name defaults (VDict []).

(** [template_files], in the order of the [dict]. *)
Definition template_files : list (pystr * pystr) :=
  [ (Py.str "faq", Py.str "faq_template.json");
    (Py.str "product", Py.str "product_template.json");
    (Py.str "comparison", Py.str "comparison_template.json") ].

(** [key in d] on the entries of a [dict]. *)
Definition has_key (key : pystr) (d : list (pystr * pyval)) : bool :=
  existsb (fun kv => bool_decide (fst kv = key)) d.

(** [d.get(key)]: [None] is no entry. *)
Fixpoint dict_lookup (key : pystr) (d : list (pystr * pyval)) : option pyval :=
  match d with
  | [] => None
  | (k, v) :: r => if bool_decide (k = key) then Some v else dict_lookup key r
  end.

Section WithFiles.

(** The templates directory: for a file name, [None] when the file does
    not exist, and else what opening and decoding it gives. *)
Variable read_template : pystr -> option (result pyval).

(** The loop of [_load_templates] over the rest of [template_files];
    [templates] is [self.templates] (the three names are distinct, so
    every assignment adds an entry). *)
Fixpoint load (files : list (pystr * pystr)) (templates : list (pystr * pyval))
    : result (list (pystr * pyval)) :=
  match files with
  | [] => Ok templates
  | (name, filename) :: rest =>
    match read_template filename with
    | Some loaded =>
      template ← loaded;
      load rest (templates ++ [(name, template)])
    | None => load rest (templates ++ [(name, _get_default_template name)])
    end
  end.

(** [__init__]: [self.templates] after [_load_templates], or the
    exception of reading a file. *)
Definition _load_templates : result (list (pystr * pyval)) :=
  load template_files [].

(** What a template name stands for after loading: the decoded file when
    there is one, the default when there is none. *)
Definition loaded_or_default (name filename : string) : pyval :=
  match read_template (Py.str filename) with
  | Some (Ok template) => template
  | _ => _get_default_template (Py.str name)
  end.

End WithFiles.

(** The first of [names] that is no key of [data], as the outcome of a
    validation. *)
Definition first_missing (names : list string) (data : list (pystr * pyval))
    : result bool :=
  match filter (fun name => has_key (Py.str name) data = false) names with
  | [] => Ok true
  | name :: _ =>
    Raise (Exn ValueError (Py.str "Missing required field: " ++ Py.str name))
  end.

Section Methods.

(** [self.templates]. *)
Variable templates : list (pystr * pyval).

Definition get_template (template_name : pystr) : option pyval :=
  dict_lookup template_name templates.

Definition get_required_blocks (template_name : pystr) : result pyval :=
  match get_template template_name with
  | Some template =>
    if truthy template
    then match template with
         | VDict t => Ok (dict_get (Py.str "required_blocks") t (VList []))
         | _ => Raise (no_attribute template "get")
         end
    else Ok (VList [])
  | None => Ok (VList [])
  end.

Definition list_templates : list pystr := map fst templates.

(** The loop of [validate_template_data] over [required_fields.items()]. *)
Fixpoint check_fields (fields : list (pystr * pyval)) (data : list (pystr * pyval))
    : result bool :=
  match fields with
  | [] => Ok true
  | (field_name, field_def) :: rest =>
    match field_def with
    | VDict fd =>
      if truthy (dict_get (Py.str "required") fd (VBool true))
         && negb (has_key field_name data)
      then if negb (has_key (Py.str "default") fd)
           then Raise (Exn ValueError (Py.str "Missing required field: " ++ field_name))
           else check_fields rest data
      else check_fields rest data
    | _ => Raise (no_attribute field_def "get")
    end
  end.

Definition validate_template_data (template_name : pystr)
    (data : list (pystr * pyval)) : result bool :=
  let not_found :=
    Raise (Exn ValueError (Py.str "Template not found: " ++ template_name)) in
  match get_template template_name with
  | Some template =>
    if truthy template
    then match template with
         | VDict t =>
           let required_fields := dict_get (Py.str "fields") t (VDict []) in
           match required_fields with
           | VDict fields => check_fields fields data
           | _ => Raise (no_attribute required_fields "items")
           end
         | _ => Raise (no_attribute template "get")
         end
    else not_found
  | None => not_found
  end.

End Methods.

End TemplateEngineAgent.

(** ** logic_blocks/safety.py *)

Module safety.

(** The product [dict] through the keys [generate_safety] reads, typed as
    in [PARSED_PRODUCT_SCHEMA]; [None] is an absent key. *)
Record product := {
  side_effects : option pystr;
  name : option pystr;
  ingredients : option (list pystr);
  concentration : option pynum;
}.

Record effect := {
  effect_name : pystr;
  likelihood : pystr;
}.

Record side_effects_block := {
  description : pystr;
  severity : pystr;
  details : list effect;
}.

Record safety_block := {
  product_name : pystr;
  sb_side_effects : side_effects_block;
  warnings : list pystr;
  precautions : list pystr;
  patch_test_recommended : bool;
  consultation_advised : bool;
}.

Definition effect_keywords : list (pystr * pystr) :=
  [ (Py.str "tingling", Py.str "Tingling sensation");
    (Py.str "redness", Py.str "Skin redness");
    (Py.str "irritation", Py.str "Skin irritation");
    (Py.str "dryness", Py.str "Dryness");
    (Py.str "peeling", Py.str "Skin peeling");
    (Py.str "sensitivity", Py.str "Increased sensitivity");
    (Py.str "burning", Py.str "Burning sensation");
    (Py.str "itching", Py.str "Itching") ].

(** [concentration > n] for an [int] literal [n]. *)
Definition num_gt (v : pynum) (n : Z) : bool :=
  match v with
  | NInt z => z >? n
  | NFloat f => PrimFloat.ltb (PyFloat.of_Z n) f
  end.

Section WithRuntime.

Variable lower : pystr -> pystr.

(** [any(word in text for word in words)]. *)
Definition any_in (words : list pystr) (text : pystr) : bool :=
  existsb (fun word => Py.contains text word) words.

Definition _parse_side_effects (side_effects : pystr) : list effect :=
  match side_effects with
  | [] => []
  | _ :: _ =>
    let side_effects_lower := lower side_effects in
    let effects :=
      flat_map (fun kn : pystr * pystr =>
        if Py.contains side_effects_lower (fst kn)
        then [ {| effect_name := snd kn;
                  likelihood :=
                    if Py.contains side_effects_lower (Py.str "mild")
                    then Py.str "possible" else Py.str "common" |} ]
        else []) effect_keywords in
    match effects with
    | [] => [ {| effect_name := side_effects; likelihood := Py.str "as described" |} ]
    | _ :: _ => effects
    end
  end.

Definition _generate_warnings (ingredients : list pystr) (concentration : pynum)
    : list pystr :=
  let warnings := [] in
  let warnings :=
    if existsb (fun ing => Py.contains (lower ing) (Py.str "vitamin c")) ingredients
    then
      let warnings :=
        warnings ++ [Py.str "Avoid using with other Vitamin C products to prevent irritation."] in
      if num_gt concentration 15
      then warnings ++ [Py.str "High concentration formula - start with less frequent application."]
      else warnings
    else warnings in
  let acid_ingredients :=
    [Py.str "glycolic"; Py.str "salicylic"; Py.str "lactic"; Py.str "hyaluronic"] in
  let warnings :=
    if any_in acid_ingredients (lower (Py.join (Py.str " ") ingredients))
    then warnings ++ [Py.str "May increase sun sensitivity - use sunscreen during the day."]
    else warnings in
  let warnings :=
    if existsb (fun ing => Py.contains (lower ing) (Py.str "retinol")
                           || Py.contains (lower ing) (Py.str "retinoid")) ingredients
    then warnings ++ [Py.str "Not recommended for use during pregnancy.";
                      Py.str "Avoid combining with other retinoids or exfoliating acids."]
    else warnings in
  match warnings with
  | [] => [Py.str "Discontinue use if irritation occurs."]
  | _ :: _ => warnings
  end.

Definition _generate_precautions (product_name side_effects : pystr)
    (ingredients : list pystr) : list pystr :=
  let precautions := [] in
  let precautions :=
    if Py.contains (lower side_effects) (Py.str "sensitive")
    then precautions ++ [Py.str "Those with sensitive skin should perform a patch test first."]
    else precautions in
  precautions ++
    [Py.str "For external use only.";
     Py.str "Avoid contact with eyes.";
     Py.str "Keep out of reach of children.";
     Py.str "Store in a cool, dry place away from direct sunlight."].

Definition _assess_severity (side_effects : pystr) : pystr :=
  match side_effects with
  | [] => Py.str "none_reported"
  | _ :: _ =>
    let side_effects_lower := lower side_effects in
    if any_in [Py.str "severe"; Py.str "serious"; Py.str "dangerous"] side_effects_lower
    then Py.str "high"
    else if any_in [Py.str "moderate"; Py.str "significant"] side_effects_lower
    then Py.str "moderate"
    else if any_in [Py.str "mild"; Py.str "slight"; Py.str "minor"] side_effects_lower
    then Py.str "mild"
    else Py.str "low"
  end.

Definition _should_recommend_patch_test (side_effects : pystr)
    (ingredients : list pystr) : bool :=
  if Py.contains (lower side_effects) (Py.str "sensitive") then true
  else
    let active_ingredients :=
      [Py.str "vitamin c"; Py.str "retinol"; Py.str "glycolic";
       Py.str "salicylic"; Py.str "aha"; Py.str "bha"] in
    if any_in active_ingredients (lower (Py.join (Py.str " ") ingredients)) then true
    else true.

Definition _should_consult_dermatologist (side_effects : pystr)
    (ingredients : list pystr) : bool :=
  let concerning_terms :=
    [Py.str "severe"; Py.str "allergic"; Py.str "reaction";
     Py.str "medical"; Py.str "condition"] in
  any_in concerning_terms (lower side_effects).

Definition generate_safety (p : product) : safety_block :=
  let side_effects := default [] (side_effects p) in
  let product_name := default (Py.str "This product") (name p) in
  let ingredients := default [] (ingredients p) in
  let concentration := default (NInt 0) (concentration p) in
  let parsed_effects := _parse_side_effects side_effects in
  let warnings := _generate_warnings ingredients concentration in
  let precautions := _generate_precautions product_name side_effects ingredients in
  let patch_test := _should_recommend_patch_test side_effects ingredients in
  {| product_name := product_name;
     sb_side_effects :=
       {| description := side_effects;
          severity := _assess_severity side_effects;
          details := parsed_effects |};
     warnings := warnings;
     precautions := precautions;
     patch_test_recommended := patch_test;
     consultation_advised := _should_consult_dermatologist side_effects ingredients |}.

End WithRuntime.

End safety.

(** ** orchestrator.py *)

Module Orchestrator.

Section Pipeline.

(** What the agents hand over: the parsed product, the categorized
    questions, the content blocks and a page document. *)
Variables Product Questions Blocks Page : Type.

(** The collaborators of a run: the seven agents as the stages call them
    (each call returns or raises; an argument is the field of [self.state]
    as it stands, [None] while no stage has written it), the file system
    under [_write_outputs] (the exception, if any, of [mkdir] and of writing
    a named file), the path library ([str(directory / filename)] for a
    directory and a file name, which depends on the directory and on the
    platform) and the clock (the seconds between the two
    [datetime.now()]). *)
Record collaborators := {
  parser_parse : pystr -> result Product;
  question_generator_generate : option Product -> result Questions;
  content_logic_get_all_blocks : option Product -> result Blocks;
  template_engine_list_templates : result (list pystr);
  faq_generate : option Product -> option Questions -> result Page;
  product_page_generate : option Product -> result Page;
  comparison_generate : option Product -> result Page;
  mkdir_error : option exn;
  write_error : pystr -> option exn;
  path_str : pystr -> pystr -> pystr;
  elapsed_seconds : float;
}.

(** [self.state]. *)
Record pipeline_state := {
  raw_product : option pyval;
  parsed_product : option Product;
  questions : option Questions;
  content_blocks : option Blocks;
  faq_page : option Page;
  product_page : option Page;
  comparison_page : option Page;
}.

Definition initial_state : pipeline_state :=
  {| raw_product := None; parsed_product := None; questions := None;
     content_blocks := None; faq_page := None; product_page := None;
     comparison_page := None |}.

(** What the console helpers print; the text of a success message is
    computed from the stage's result and is not kept. *)
Inductive line :=
| HeaderLines
| StageLine (num : Z) (agent desc : pystr)
| SuccessLine (num : Z)
| ErrorLine (message : pystr)
| SummaryLines (elapsed : float).

(** The orchestrator object together with what the run has done so far:
    the console, the files written ([None] is the JSON of a state field
    still [None]) and the numbers of the stages whose function was
    called. *)
Record orchestrator := {
  verbose : bool;
  output_dir : pystr;
  state : pipeline_state;
  console : list line;
  files : list (pystr * option Page);
  called : list Z;
}.

(** [Orchestrator(verbose)] with [output_dir] set. *)
Definition new (verbose : bool) (output_dir : pystr) : orchestrator :=
  {| verbose := verbose; output_dir := output_dir; state := initial_state;
     console := []; files := []; called := [] |}.

(** A method body: it changes the orchestrator and returns or raises. *)
Definition act (A : Type) : Type := orchestrator -> orchestrator * result A.

#[local] Instance act_ret : MRet act := fun A a o => (o, Ok a).
#[local] Instance act_bind : MBind act := fun A B k m o =>
  match m o with
  | (o', Ok a) => k a o'
  | (o', Raise e) => (o', Raise e)
  end.

Definition call {A} (r : result A) : act A := fun o => (o, r).

Definition read {A} (f : orchestrator -> A) : act A := fun o => (o, Ok (f o)).

Definition update (f : orchestrator -> orchestrator) : act unit :=
  fun o => (f o, Ok tt).

(** [try: body except Exception as e: handler(e)]. *)
Definition try_except {A} (body : act A) (handler : exn -> act A) : act A :=
  fun o =>
    match body o with
    | (o', Ok a) => (o', Ok a)
    | (o', Raise e) => handler e o'
    end.

Definition print (l : line) : act unit :=
  update (fun o =>
    {| verbose := verbose o; output_dir := output_dir o; state := state o;
       console := console o ++ [l]; files := files o; called := called o |}).

Definition set_state (f : pipeline_state -> pipeline_state) : act unit :=
  update (fun o =>
    {| verbose := verbose o; output_dir := output_dir o; state := f (state o);
       console := console o; files := files o; called := called o |}).

Definition record_call (num : Z) : act unit :=
  update (fun o =>
    {| verbose := verbose o; output_dir := output_dir o; state := state o;
       console := console o; files := files o; called := called o ++ [num] |}).

Definition write_file (filename : pystr) (data : option Page) : act unit :=
  update (fun o =>
    {| verbose := verbose o; output_dir := output_dir o; state := state o;
       console := console o; files := files o ++ [(filename, data)];
       called := called o |}).

(** The helpers that start with [if not self.verbose: return]. *)
Definition when_verbose (l : line) : act unit :=
  fun o => if verbose o then print l o else (o, Ok tt).

Definition _print_header : act unit := when_verbose HeaderLines.

Definition _print_stage (num : Z) (agent desc : pystr) : act unit :=
  when_verbose (StageLine num agent desc).

Definition _print_success (num : Z) : act unit := when_verbose (SuccessLine num).

Definition _print_error (message : pystr) : act unit := print (ErrorLine message).

Definition _print_summary (elapsed : float) : act unit :=
  when_verbose (SummaryLines elapsed).

(** The result [dict] of [run]. *)
Inductive run_result :=
| Success (faq product_page comparison_page : pystr) (elapsed_time : float)
| Failure (error : pystr).

Variable env : collaborators.

Definition _execute_stage (stage_num : Z) (agent_name description : string)
    (stage_func : act unit) : act unit :=
  _ ← _print_stage stage_num (Py.str agent_name) (Py.str description);
  _ ← record_call stage_num;
  result ← stage_func;
  mret result.

Definition _stage_parse_product (input_path : pystr) : act unit :=
  p ← call (parser_parse env input_path);
  _ ← set_state (fun s =>
    {| raw_product := raw_product s; parsed_product := Some p;
       questions := questions s; content_blocks := content_blocks s;
       faq_page := faq_page s; product_page := product_page s;
       comparison_page := comparison_page s |});
  _print_success 1.

Definition _stage_generate_questions : act unit :=
  p ← read (fun o => parsed_product (state o));
  q ← call (question_generator_generate env p);
  _ ← set_state (fun s =>
    {| raw_product := raw_product s; parsed_product := parsed_product s;
       questions := Some q; content_blocks := content_blocks s;
       faq_page := faq_page s; product_page := product_page s;
       comparison_page := comparison_page s |});
  _print_success 2.

Definition _stage_prepare_content_blocks : act unit :=
  p ← read (fun o => parsed_product (state o));
  b ← call (content_logic_get_all_blocks env p);
  _ ← set_state (fun s =>
    {| raw_product := raw_product s; parsed_product := parsed_product s;
       questions := questions s; content_blocks := Some b;
       faq_page := faq_page s; product_page := product_page s;
       comparison_page := comparison_page s |});
  _print_success 3.

Definition _stage_load_templates : act unit :=
  templates ← call (template_engine_list_templates env);
  _print_success 4.

Definition _stage_generate_faq : act unit :=
  p ← read (fun o => parsed_product (state o));
  q ← read (fun o => questions (state o));
  page ← call (faq_generate env p q);
  _ ← set_state (fun s =>
    {| raw_product := raw_product s; parsed_product := parsed_product s;
       questions := questions s; content_blocks := content_blocks s;
       faq_page := Some page; product_page := product_page s;
       comparison_page := comparison_page s |});
  _print_success 5.

Definition _stage_generate_product_page : act unit :=
  p ← read (fun o => parsed_product (state o));
  page ← call (product_page_generate env p);
  _ ← set_state (fun s =>
    {| raw_product := raw_product s; parsed_product := parsed_product s;
       questions := questions s; content_blocks := content_blocks s;
       faq_page := faq_page s; product_page := Some page;
       comparison_page := comparison_page s |});
  _print_success 6.

Definition _stage_generate_comparison : act unit :=
  p ← read (fun o => parsed_product (state o));
  page ← call (comparison_generate env p);
  _ ← set_state (fun s =>
    {| raw_product := raw_product s; parsed_product := parsed_product s;
       questions := questions s; content_blocks := content_blocks s;
       faq_page := faq_page s; product_page := product_page s;
       comparison_page := Some page |});
  _print_success 7.

(** One turn of the loop of [_write_outputs]. *)
Definition write_output (filename : pystr) (data : option Page) : act unit :=
  match write_error env filename with
  | Some e => call (Raise e)
  | None => write_file filename data
  end.

Definition _write_outputs : act unit :=
  _ ← match mkdir_error env with
      | Some e => call (Raise e)
      | None => mret tt
      end;
  faq ← read (fun o => faq_page (state o));
  pp ← read (fun o => product_page (state o));
  cp ← read (fun o => comparison_page (state o));
  _ ← write_output config.OUTPUT_FILES_faq faq;
  _ ← write_output config.OUTPUT_FILES_product_page pp;
  write_output config.OUTPUT_FILES_comparison_page cp.

(** [str(self.output_dir / filename)]. *)
Definition output_path (o : orchestrator) (filename : pystr) : pystr :=
  path_str env (output_dir o) filename.

Definition run (input_path : pystr) : act run_result :=
  _ ← _print_header;
  try_except
    (_ ← _execute_stage 1 "ProductParserAgent" "Parsing product data..."
           (_stage_parse_product input_path);
     _ ← _execute_stage 2 "QuestionGeneratorAgent" "Generating categorized questions..."
           _stage_generate_questions;
     _ ← _execute_stage 3 "ContentLogicAgent" "Preparing content logic blocks..."
           _stage_prepare_content_blocks;
     _ ← _execute_stage 4 "TemplateEngineAgent" "Loading templates..."
           _stage_load_templates;
     _ ← _execute_stage 5 "FAQPageAgent" "Generating FAQ page..."
           _stage_generate_faq;
     _ ← _execute_stage 6 "ProductPageAgent" "Generating product page..."
           _stage_generate_product_page;
     _ ← _execute_stage 7 "ComparisonAgent" "Creating comparison page..."
           _stage_generate_comparison;
     _ ← _write_outputs;
     let elapsed := elapsed_seconds env in
     _ ← _print_summary elapsed;
     o ← read (fun o => o);
     mret (Success (output_path o config.OUTPUT_FILES_faq)
                   (output_path o config.OUTPUT_FILES_product_page)
                   (output_path o config.OUTPUT_FILES_comparison_page)
                   elapsed))
    (fun e =>
       _ ← _print_error (exn_msg e);
       mret (Failure (exn_msg e))).

(** The first stage of a run that raises, with its exception; every agent
    is called on what the stages before it have stored. *)
Definition first_failure (input_path : pystr) : option (Z * exn) :=
  match parser_parse env input_path with
  | Raise e => Some (1, e)
  | Ok p =>
  match question_generator_generate env (Some p) with
  | Raise e => Some (2, e)
  | Ok q =>
  match content_logic_get_all_blocks env (Some p) with
  | Raise e => Some (3, e)
  | Ok _ =>
  match template_engine_list_templates env with
  | Raise e => Some (4, e)
  | Ok _ =>
  match faq_generate env (Some p) (Some q) with
  | Raise e => Some (5, e)
  | Ok _ =>
  match product_page_generate env (Some p) with
  | Raise e => Some (6, e)
  | Ok _ =>
  match comparison_generate env (Some p) with
  | Raise e => Some (7, e)
  | Ok _ => None
  end end end end end end end.

(** The first exception of [_write_outputs]: of [mkdir], else of the first
    of the three files that cannot be written. *)
Definition write_failure : option exn :=
  match mkdir_error env with
  | Some e => Some e
  | None =>
  match write_error env config.OUTPUT_FILES_faq with
  | Some e => Some e
  | None =>
  match write_error env config.OUTPUT_FILES_product_page with
  | Some e => Some e
  | None => write_error env config.OUTPUT_FILES_comparison_page
  end end end.

(** The exception that ends a run, if any: of the first stage that raises,
    else of [_write_outputs]. *)
Definition run_error (input_path : pystr) : option exn :=
  match first_failure input_path with
  | Some (_, e) => Some e
  | None => write_failure
  end.

(** The error lines of a console. *)
Definition error_lines (c : list line) : list pystr :=
  flat_map (fun l => match l with ErrorLine m => [m] | _ => [] end) c.

(** The stage numbers a console announces. *)
Definition announced (c : list line) : list Z :=
  flat_map (fun l => match l with StageLine n _ _ => [n] | _ => [] end) c.

End Pipeline.

Arguments parser_parse {_ _ _ _} _ _.
Arguments question_generator_generate {_ _ _ _} _ _.
Arguments content_logic_get_all_blocks {_ _ _ _} _ _.
Arguments template_engine_list_templates {_ _ _ _} _.
Arguments faq_generate {_ _ _ _} _ _ _.
Arguments product_page_generate {_ _ _ _} _ _.
Arguments comparison_generate {_ _ _ _} _ _.
Arguments mkdir_error {_ _ _ _} _.
Arguments write_error {_ _ _ _} _ _.
Arguments path_str {_ _ _ _} _ _ _.
Arguments elapsed_seconds {_ _ _ _} _.
Arguments parsed_product {_ _ _ _} _.
Arguments questions {_ _ _ _} _.
Arguments content_blocks {_ _ _ _} _.
Arguments faq_page {_ _ _ _} _.
Arguments product_page {_ _ _ _} _.
Arguments comparison_page {_ _ _ _} _.
Arguments verbose {_ _ _ _} _.
Arguments output_dir {_ _ _ _} _.
Arguments state {_ _ _ _} _.
Arguments console {_ _ _ _} _.
Arguments files {_ _ _ _} _.
Arguments called {_ _ _ _} _.
Arguments new {_ _ _ _} _ _.
Arguments run {_ _ _ _} _ _ _.
Arguments first_failure {_ _ _ _} _ _.
Arguments write_failure {_ _ _ _} _.
Arguments run_error {_ _ _ _} _ _.

End Orchestrator.

(** ** Sample data: the test records at the end of the Python modules *)

Module Samples.

(** The f-string rendering of a float plays no part in what is proved
    below; the samples leave the rendered number out. *)
Definition repr_left_out : float -> pystr := fun _ => [].

(** [str(v)] of a value that is no text is not needed by the samples. *)
Definition str_left_out : pyval -> pystr := fun _ => [].

Definition schema_message : ProductParserAgent.raw_product -> pystr :=
  fun _ => Py.str "'price' is a required property".

(** [product_a] and [product_b] of [logic_blocks/comparison.py]. *)
Definition glowboost : comparison.product :=
  {| comparison.name := Some (Py.str "GlowBoost Vitamin C Serum");
     comparison.ingredients := Some [Py.str "Vitamin C"; Py.str "Hyaluronic Acid"];
     comparison.benefits := Some [Py.str "Brightening"; Py.str "Fades dark spots"];
     comparison.price := Some (VInt 699);
     comparison.skin_type := Some [Py.str "Oily"; Py.str "Combination"];
     comparison.concentration := None |}.

Definition radiantglow : comparison.product :=
  {| comparison.name := Some (Py.str "RadiantGlow Serum");
     comparison.ingredients :=
       Some [Py.str "Niacinamide"; Py.str "Hyaluronic Acid"; Py.str "Zinc"];
     comparison.benefits :=
       Some [Py.str "Pore minimizing"; Py.str "Oil control"; Py.str "Brightening"];
     comparison.price := Some (VInt 599);
     comparison.skin_type := Some [Py.str "Oily"; Py.str "Acne-prone"];
     comparison.concentration := None |}.

(** [sample_data] of [agents/product_parser.py]. *)
Definition sample_data : ProductParserAgent.raw_product :=
  {| ProductParserAgent.product_name := Some (Py.str "GlowBoost Vitamin C Serum");
     ProductParserAgent.raw_concentration := Some (Py.str "10% Vitamin C");
     ProductParserAgent.raw_skin_type := Some [Py.str "Oily"; Py.str "Combination"];
     ProductParserAgent.key_ingredients :=
       Some [Py.str "Vitamin C"; Py.str "Hyaluronic Acid"];
     ProductParserAgent.raw_benefits :=
       Some [Py.str "Brightening"; Py.str "Fades dark spots"];
     ProductParserAgent.how_to_use :=
       Some (Py.str "Apply 2–3 drops in the morning before sunscreen");
     ProductParserAgent.raw_side_effects :=
       Some (Py.str "Mild tingling for sensitive skin");
     ProductParserAgent.raw_price := Some (Py.str "₹699") |}.

(** Two UUIDs that differ and begin with the same eight characters. *)
Definition uuid_a : pystr := Py.str "1b9d6bcd-bbfd-4b2d-9b5d-ab8dfbbd4bed".
Definition uuid_b : pystr := Py.str "1b9d6bcd-3c1a-4f6e-8a2b-0e5d7c9f1a23".
Definition uuid_c : pystr := Py.str "7f3e2a10-3c1a-4f6e-8a2b-0e5d7c9f1a23".

(** [sample_questions] of [agents/faq_agent.py]. *)
Definition sample_questions : gmap pystr (list pystr) :=
  list_to_map
    [ (Py.str "informational",
       [Py.str "What is GlowBoost Vitamin C Serum?"; Py.str "What ingredients are in it?"]);
      (Py.str "usage",
       [Py.str "How do I apply the serum?"; Py.str "When should I use it?"]);
      (Py.str "safety",
       [Py.str "Are there any side effects?"; Py.str "Is it safe for sensitive skin?"]);
      (Py.str "purchase", [Py.str "How much does it cost?"]);
      (Py.str "comparison", [Py.str "How does it compare to other serums?"]) ].

(** A decoder that knows the empty object only. *)
Definition json_loads_empty_object (s : pystr) : pyval + pystr :=
  if bool_decide (s = Py.str "{}") then inl (VDict [])
  else inr (Py.str "Expecting value: line 1 column 1 (char 0)").

(** [str(directory / filename)] on a POSIX system, for a directory given
    by the text of its path and a plain file name. *)
Definition posix_path (directory filename : pystr) : pystr :=
  if bool_decide (directory = Py.str ".") then filename
  else if Py.endswith directory (Py.str "/") then directory ++ filename
  else directory ++ Py.str "/" ++ filename.

(** Collaborators whose documents are decoded JSON values; every agent
    returns, but for the one that [fails] names, which raises [e]. *)
Definition agents_failing_at (fails : Z) (e : exn)
    : Orchestrator.collaborators pyval pyval pyval pyval :=
  let answer (stage : Z) (v : pyval) : result pyval :=
    if stage =? fails then Raise e else Ok v in
  {| Orchestrator.parser_parse := fun _ => answer 1 (VDict []);
     Orchestrator.question_generator_generate := fun _ => answer 2 (VDict []);
     Orchestrator.content_logic_get_all_blocks := fun _ => answer 3 (VDict []);
     Orchestrator.template_engine_list_templates :=
       if 4 =? fails then Raise e else Ok [Py.str "faq"];
     Orchestrator.faq_generate := fun _ _ => answer 5 (VDict []);
     Orchestrator.product_page_generate := fun _ => answer 6 (VDict []);
     Orchestrator.comparison_generate := fun _ => answer 7 (VDict []);
     Orchestrator.mkdir_error := None;
     Orchestrator.write_error := fun _ => None;
     Orchestrator.path_str := posix_path;
     Orchestrator.elapsed_seconds := 2.5%float |}.

Definition quota_error : exn :=
  Exn RuntimeError (Py.str "LLM call failed: quota exceeded").

Definition decode_error : exn :=
  Exn ValueError
    (Py.str "Failed to parse LLM response: Expecting value: line 1 column 1 (char 0)").

Definition input_path : pystr := Py.str "input/product.json".
Definition outputs : pystr := Py.str "outputs".

End Samples.

(** ** Further sample data *)

Module Scenarios.

(** [str(v)] of a value that is no text, for the [int]s that are not
    negative. *)
Definition str_of_int (v : pyval) : pystr :=
  match v with
  | VInt z => str_of_nat (Z.to_nat z)
  | _ => []
  end.

(** A product whose side effects read as severe. *)
Definition severe_product : safety.product :=
  {| safety.side_effects := Some (Py.str "Severe redness in rare cases");
     safety.name := Some (Py.str "GlowBoost Vitamin C Serum");
     safety.ingredients := Some [Py.str "Vitamin C"; Py.str "Hyaluronic Acid"];
     safety.concentration := Some (NFloat 10) |}.

(** [sample_product] of [agents/product_page_agent.py]. *)
Definition sample_product : ProductPageAgent.product :=
  {| ProductPageAgent.id := Some (Py.str "glowboost-vitamin-c-serum-abc123");
     ProductPageAgent.name := Some (Py.str "GlowBoost Vitamin C Serum");
     ProductPageAgent.concentration := Some 10%float;
     ProductPageAgent.skin_type := Some [Py.str "Oily"; Py.str "Combination"];
     ProductPageAgent.ingredients := Some [Py.str "Vitamin C"; Py.str "Hyaluronic Acid"];
     ProductPageAgent.benefits := Some [Py.str "Brightening"; Py.str "Fades dark spots"];
     ProductPageAgent.usage :=
       Some (Py.str "Apply 2–3 drops in the morning before sunscreen");
     ProductPageAgent.side_effects := Some (Py.str "Mild tingling for sensitive skin");
     ProductPageAgent.price := Some 699%float |}.

(** A prompt builder that returns; the text of the prompt plays no part. *)
Definition prompt_left_out {A : Type} : A -> result pystr := fun _ => Ok [].

(** A model that answers every prompt with [text], and one whose call
    raises [e]. *)
Definition model_answers (text : pystr) : pystr -> result pystr := fun _ => Ok text.
Definition model_fails (e : exn) : pystr -> result pystr := fun _ => Raise e.

Definition quota_exceeded : exn := Exn RuntimeError (Py.str "429 quota exceeded").

(** A text in double quotes. *)
Definition quoted (s : string) : pystr := 34%N :: Py.str s ++ [34%N].

(** An answer with fifteen questions, all informational, and the value it
    decodes to; the decoder knows this text only. *)
Definition questions_text : pystr :=
  Py.str "{" ++ quoted "informational" ++ Py.str ": ["
  ++ Py.join (Py.str ", ") (repeat (quoted "Is it safe?") 15) ++ Py.str "]}".

Definition questions_value : pyval :=
  VDict [ (Py.str "informational", VList (repeat (VStr (Py.str "Is it safe?")) 15)) ].

Definition json_loads_questions (s : pystr) : pyval + pystr :=
  if bool_decide (s = questions_text) then inl questions_value
  else inr (Py.str "Expecting value: line 1 column 1 (char 0)").



(** Collaborators whose second stage is the question generator itself,
    over the given model and decoder. *)
Definition agents_with_generator (generate_content : pystr -> result pystr)
    (json_loads : pystr -> pyval + pystr)
    : Orchestrator.collaborators pyval (gmap pystr pyval) pyval pyval :=
  {| Orchestrator.parser_parse := fun _ => Ok (VDict []);
     Orchestrator.question_generator_generate := fun product =>
       match product with
       | Some p =>
         QuestionGeneratorAgent.generate prompt_left_out generate_content json_loads p
       | None => Raise (no_attribute VNone "get")
       end;
     Orchestrator.content_logic_get_all_blocks := fun _ => Ok (VDict []);
     Orchestrator.template_engine_list_templates := Ok [Py.str "faq"];
     Orchestrator.faq_generate := fun _ _ => Ok (VDict []);
     Orchestrator.product_page_generate := fun _ => Ok (VDict []);
     Orchestrator.comparison_generate := fun _ => Ok (VDict []);
     Orchestrator.mkdir_error := None;
     Orchestrator.write_error := fun _ => None;
     Orchestrator.path_str := Samples.posix_path;
     Orchestrator.elapsed_seconds := 2.5%float |}.

End Scenarios.

(** * Properties *)

(** ** Order of binary64 values *)

Section FloatOrder.

Lemma compare_cont_swap (p q : positive) :
  Pos.compare_cont Eq q p = CompOpp (Pos.compare_cont Eq p q).
Proof. now rewrite Pos.compare_cont_antisym. Qed.

Lemma SFcompare_lt_gt (x y : spec_float) :
  SFcompare x y = Some Lt -> SFcompare y x = Some Gt.
Proof.
  destruct x as [sx|sx| |sx mx ex], y as [sy|sy| |sy my ey]; simpl;
    try discriminate; try (destruct sx; discriminate);
    try (destruct sy; discriminate);
    try (destruct sx, sy; (discriminate || reflexivity)).
  destruct sx, sy; try discriminate; try reflexivity;
    rewrite (Z.compare_antisym ex ey);
    destruct (ex ?= ey) eqn:He; simpl; try discriminate; try reflexivity;
    rewrite (compare_cont_swap mx my);
    destruct (Pos.compare_cont Eq mx my); simpl; try discriminate; reflexivity.
Qed.

Lemma SFcompare_eq_sym (x y : spec_float) :
  SFcompare x y = Some Eq -> SFcompare y x = Some Eq.
Proof.
  destruct x as [sx|sx| |sx mx ex], y as [sy|sy| |sy my ey]; simpl;
    try discriminate; try (destruct sx; discriminate);
    try (destruct sy; discriminate);
    try (destruct sx, sy; (discriminate || reflexivity)).
  destruct sx, sy; try discriminate;
    rewrite (Z.compare_antisym ex ey);
    destruct (ex ?= ey) eqn:He; simpl; try discriminate;
    rewrite (compare_cont_swap mx my);
    destruct (Pos.compare_cont Eq mx my); simpl; try discriminate; reflexivity.
Qed.

(** [a < b] excludes [b < a]. *)
Lemma float_ltb_asym (a b : float) :
  PrimFloat.ltb a b = true -> PrimFloat.ltb b a = false.
Proof.
  rewrite !ltb_spec. unfold SFltb.
  destruct (SFcompare (Prim2SF a) (Prim2SF b)) as [[]|] eqn:Hc; try discriminate.
  intros _. now rewrite (SFcompare_lt_gt _ _ Hc).
Qed.

(** [a == b] excludes [a < b] and [b < a]. *)
Lemma float_eqb_not_ltb (a b : float) :
  PrimFloat.eqb a b = true ->
  PrimFloat.ltb a b = false /\ PrimFloat.ltb b a = false.
Proof.
  rewrite FloatAxioms.eqb_spec, !ltb_spec. unfold SFeqb, SFltb.
  destruct (SFcompare (Prim2SF a) (Prim2SF b)) as [[]|] eqn:Hc; try discriminate.
  intros _. now rewrite (SFcompare_eq_sym _ _ Hc).
Qed.

End FloatOrder.

(** ** The comparison engine *)

Section ComparisonEngine.

Import comparison.

Variable lower : pystr -> pystr.
Variable repr_float : float -> pystr.

(** [_compare_price] unfolded at the two extracted prices. *)
Lemma compare_price_at (a b : product) (pa pb : float) :
  _extract_price (default (VInt 0) (price a)) = Ok pa ->
  _extract_price (default (VInt 0) (price b)) = Ok pb ->
  exists r, _compare_price repr_float a b = Ok r
    /\ ps_price (p_product_a r) = pa
    /\ ps_price (p_product_b r) = pb
    /\ difference r = abs (pa - pb)
    /\ percentage_difference r =
         py_round1 (if PrimFloat.ltb 0 (PyFloat.max pa pb)
                    then NFloat (abs (pa - pb) / PyFloat.max pa pb * 100)
                    else NInt 0)
    /\ cheaper_option r =
         (if PrimFloat.ltb pa pb then Some product_a
          else if PrimFloat.ltb pb pa then Some product_b
          else None).
Proof.
  intros Ha Hb. unfold _compare_price. rewrite Ha, Hb. simpl.
  eexists. split; [reflexivity|]. simpl. repeat split; reflexivity.
Qed.

(** The extraction returns on every value but an [int] beyond the range of
    [float]. *)
Lemma extract_price_returns (v : pyval) :
  (forall z, v = VInt z -> is_infinity (PyFloat.of_Z z) = false) ->
  exists f, _extract_price v = Ok f.
Proof.
  intros Hz. destruct v as [ |b|z|f|s|l|d]; simpl; eauto.
  - unfold PyFloat.float_of_int. rewrite (Hz z eq_refl). eauto.
  - destruct (Re.search_number (Re.sub_currency s)); eauto.
Qed.

(** The points of the price dimension: [_calculate_scores] adds one point
    for the side named by [cheaper_option] to what the two count
    dimensions give. *)
Lemma calculate_scores_price_point ing ben (pr pr0 : price_dim) :
  cheaper_option pr0 = None ->
  let s := _calculate_scores ing ben pr in
  let s0 := _calculate_scores ing ben pr0 in
  match cheaper_option pr with
  | Some product_a =>
    product_a_score s = product_a_score s0 + 1 /\ product_b_score s = product_b_score s0
  | Some product_b =>
    product_a_score s = product_a_score s0 /\ product_b_score s = product_b_score s0 + 1
  | None =>
    product_a_score s = product_a_score s0 /\ product_b_score s = product_b_score s0
  end.
Proof.
  intros H0. unfold _calculate_scores. rewrite H0.
  destruct (is_count (i_product_a ing) >? is_count (i_product_b ing)),
           (is_count (i_product_b ing) >? is_count (i_product_a ing)),
           (bs_count (b_product_a ben) >? bs_count (b_product_b ben)),
           (bs_count (b_product_b ben) >? bs_count (b_product_a ben)),
           (cheaper_option pr) as [[]|]; simpl; split; lia.
Qed.

(** C1, as the code has it: for two products whose extracted prices are
    699 and 599 the price dimension reports [difference] 100, names
    product B as the cheaper option and gives product B the point of the
    price dimension; its [percentage_difference] is 14.3, the difference
    relative to the larger price, 699, to one decimal place. *)
Theorem price_699_599_dimension (a b : product) :
  _extract_price (default (VInt 0) (price a)) = Ok 699%float ->
  _extract_price (default (VInt 0) (price b)) = Ok 599%float ->
  exists r, _compare_price repr_float a b = Ok r
    /\ difference r = 100%float
    /\ percentage_difference r = NFloat 14.3
    /\ cheaper_option r = Some product_b
    /\ forall ing ben pr0, cheaper_option pr0 = None ->
         product_b_score (_calculate_scores ing ben r)
           = product_b_score (_calculate_scores ing ben pr0) + 1
         /\ product_a_score (_calculate_scores ing ben r)
           = product_a_score (_calculate_scores ing ben pr0).
Proof.
  intros Ha Hb.
  destruct (compare_price_at a b _ _ Ha Hb) as (r & Hr & _ & _ & Hd & Hp & Hc).
  exists r. split; [exact Hr|].
  assert (Hc' : cheaper_option r = Some product_b) by (rewrite Hc; reflexivity).
  repeat split.
  - rewrite Hd. reflexivity.
  - rewrite Hp. vm_compute. reflexivity.
  - exact Hc'.
  - pose proof (calculate_scores_price_point ing ben r pr0 H) as Hs.
    rewrite Hc' in Hs. apply Hs.
  - pose proof (calculate_scores_price_point ing ben r pr0 H) as Hs.
    rewrite Hc' in Hs. apply Hs.
Qed.

(** C2, as the code has it: the price dimension is the absolute
    difference of the two extracted prices and the percentage difference
    relative to the larger of them, rounded to one decimal place: relative
    to B's price when A's is strictly lower, and to A's price otherwise;
    it is the [int] 0 when that larger price is not positive, so when both
    prices are 0. The side with the strictly lower price is the cheaper
    option and equal prices leave it empty. *)
Theorem compare_price_dimension (a b : product) (pa pb : float) :
  _extract_price (default (VInt 0) (price a)) = Ok pa ->
  _extract_price (default (VInt 0) (price b)) = Ok pb ->
  exists r, _compare_price repr_float a b = Ok r
    /\ difference r = abs (pa - pb)
    /\ (PrimFloat.ltb pa pb = true -> PrimFloat.ltb 0 pb = true ->
        percentage_difference r
          = NFloat (PyFloat.round1 (abs (pa - pb) / pb * 100)))
    /\ (PrimFloat.ltb pa pb = false -> PrimFloat.ltb 0 pa = true ->
        percentage_difference r
          = NFloat (PyFloat.round1 (abs (pa - pb) / pa * 100)))
    /\ (PrimFloat.ltb pa pb = true -> PrimFloat.ltb 0 pb = false ->
        percentage_difference r = NInt 0)
    /\ (PrimFloat.ltb pa pb = false -> PrimFloat.ltb 0 pa = false ->
        percentage_difference r = NInt 0)
    /\ (pa = 0%float -> pb = 0%float -> percentage_difference r = NInt 0)
    /\ (PrimFloat.ltb pa pb = true -> cheaper_option r = Some product_a)
    /\ (PrimFloat.ltb pb pa = true -> cheaper_option r = Some product_b)
    /\ (PrimFloat.eqb pa pb = true -> cheaper_option r = None).
Proof.
  intros Ha Hb.
  destruct (compare_price_at a b _ _ Ha Hb) as (r & Hr & _ & _ & Hd & Hp & Hc).
  exists r. split; [exact Hr|]. split; [exact Hd|].
  unfold PyFloat.max in Hp.
  split; [|split; [|split; [|split; [|split; [|split; [|split]]]]]].
  - intros Hlt Hpos. rewrite Hp, Hlt, Hpos. reflexivity.
  - intros Hlt Hpos. rewrite Hp, Hlt, Hpos. reflexivity.
  - intros Hlt Hpos. rewrite Hp, Hlt, Hpos. reflexivity.
  - intros Hlt Hpos. rewrite Hp, Hlt, Hpos. reflexivity.
  - intros -> ->. rewrite Hp. reflexivity.
  - intros Hlt. rewrite Hc, Hlt. reflexivity.
  - intros Hlt. rewrite Hc, Hlt, (float_ltb_asym _ _ Hlt). reflexivity.
  - intros Heq. destruct (float_eqb_not_ltb _ _ Heq) as [H1 H2].
    rewrite Hc, H1, H2. reflexivity.
Qed.

(** C3: each of the three dimensions gives one point to the side with the
    strictly larger ingredient count, the strictly larger benefit count
    and the strictly lower price, and none on a tie; the winner is the
    side with the strictly higher total, and equal totals give [tie]. *)
Theorem scores_by_dimension (a b : product) (pa pb : float) :
  _extract_price (default (VInt 0) (price a)) = Ok pa ->
  _extract_price (default (VInt 0) (price b)) = Ok pb ->
  let ia := Z.of_nat (length (default [] (ingredients a))) in
  let ib := Z.of_nat (length (default [] (ingredients b))) in
  let ba := Z.of_nat (length (default [] (benefits a))) in
  let bb := Z.of_nat (length (default [] (benefits b))) in
  exists r, compare_products lower repr_float a b = Ok r
    /\ product_a_score (c_scores r)
         = Z.b2z (ia >? ib) + Z.b2z (ba >? bb) + Z.b2z (PrimFloat.ltb pa pb)
    /\ product_b_score (c_scores r)
         = Z.b2z (ib >? ia) + Z.b2z (bb >? ba) + Z.b2z (PrimFloat.ltb pb pa)
    /\ (product_a_score (c_scores r) > product_b_score (c_scores r) ->
        winner (c_scores r) = winner_is product_a)
    /\ (product_b_score (c_scores r) > product_a_score (c_scores r) ->
        winner (c_scores r) = winner_is product_b)
    /\ (product_a_score (c_scores r) = product_b_score (c_scores r) ->
        winner (c_scores r) = tie).
Proof.
  intros Ha Hb ia ib ba bb.
  destruct (compare_price_at a b _ _ Ha Hb) as (pr & Hr & _ & _ & _ & _ & Hc).
  unfold compare_products. rewrite Hr. simpl.
  eexists. split; [reflexivity|]. simpl.
  unfold _calculate_scores. simpl. rewrite Hc. fold ia ib ba bb.
  assert (Hgi : (ia >? ib) = true -> (ib >? ia) = false) by lia.
  assert (Hgb : (ba >? bb) = true -> (bb >? ba) = false) by lia.
  pose proof (float_ltb_asym pa pb) as Hp.
  destruct (ia >? ib); [rewrite (Hgi eq_refl)|destruct (ib >? ia)];
  (destruct (ba >? bb); [rewrite (Hgb eq_refl)|destruct (bb >? ba)]);
  (destruct (PrimFloat.ltb pa pb); [rewrite (Hp eq_refl)|destruct (PrimFloat.ltb pb pa)]);
  simpl; repeat split; intros; try reflexivity; try lia.
Qed.

End ComparisonEngine.

(** ** The safety rules *)

(** C10: whatever the side-effects text and the ingredients, the safety
    block recommends a patch test: the three paths of
    [_should_recommend_patch_test] all return [True]. *)
Theorem patch_test_always_recommended (lower : pystr -> pystr) (p : safety.product) :
  safety.patch_test_recommended (safety.generate_safety lower p) = true
  /\ forall side_effects ingredients,
       safety._should_recommend_patch_test lower side_effects ingredients = true.
Proof.
  assert (H : forall s i, safety._should_recommend_patch_test lower s i = true).
  { intros s i. unfold safety._should_recommend_patch_test.
    destruct (Py.contains (lower s) (Py.str "sensitive")); [reflexivity|].
    match goal with |- (if ?c then _ else _) = _ => destruct c end; reflexivity. }
  split; [|exact H]. unfold safety.generate_safety. simpl. apply H.
Qed.

(** ** FAQ question selection *)

Section QuestionSelection.

Import FAQPageAgent.

Implicit Types (selected : list selected_question) (qs : gmap pystr (list pystr)).

Lemma fill_from_spec (m : Z) (c : pystr) (later : list pystr) selected :
  let out := fill_from m c later selected in
  (out = selected ++ map (fun q => Build_selected_question q c) later
   \/ (Z.of_nat (length out) >= m + 2
       /\ exists k, out = selected
                      ++ map (fun q => Build_selected_question q c) (take k later)))
  /\ Z.of_nat (length out) <= Z.max (Z.of_nat (length selected)) (m + 2).
Proof.
  revert selected. induction later as [|q later IH]; intros selected; simpl.
  - split; [left; now rewrite app_nil_r | lia].
  - destruct (Z.of_nat (length selected) >=? m + 2) eqn:Hbrk.
    + split; [|lia]. right. split; [lia|]. exists 0%nat. simpl. now rewrite app_nil_r.
    + specialize (IH (selected ++ [Build_selected_question q c])).
      simpl in IH. destruct IH as [IH Hlen].
      rewrite length_app in Hlen. simpl in Hlen.
      split; [|lia].
      destruct IH as [Hall | (Hge & k & Hk)].
      * left. rewrite Hall. now rewrite <- app_assoc.
      * right. split; [exact Hge|].
        exists (S k). rewrite Hk. simpl. now rewrite <- app_assoc.
Qed.

Lemma second_pass_done (m : Z) (cats : list pystr) qs selected :
  Z.of_nat (length selected) >= m -> second_pass m cats qs selected = selected.
Proof.
  intros H. destruct cats; simpl; [reflexivity|].
  destruct (Z.of_nat (length selected) >=? m) eqn:E; [reflexivity|lia].
Qed.

Lemma second_pass_spec (m : Z) (cats : list pystr) qs selected :
  exists backfill,
    second_pass m cats qs selected = selected ++ backfill
    /\ backfill `prefix_of` later_questions cats qs
    /\ Z.of_nat (length (selected ++ backfill))
         <= Z.max (Z.of_nat (length selected)) (m + 2).
Proof.
  revert selected. induction cats as [|c cats IH]; intros selected; simpl.
  - exists []. rewrite app_nil_r. split; [reflexivity|]. split; [apply prefix_nil|lia].
  - destruct (Z.of_nat (length selected) >=? m) eqn:Hbrk.
    { exists []. rewrite app_nil_r. split; [reflexivity|].
      split; [apply prefix_nil|lia]. }
    destruct (qs !! c) as [l|] eqn:Hl; simpl.
    + destruct (fill_from_spec m c (drop 1 l) selected) as [Hout Hlen].
      simpl in Hout, Hlen.
      destruct Hout as [Hall | (Hge & k & Hk)].
      * destruct (IH (fill_from m c (drop 1 l) selected)) as (bf & Hbf & Hpre & Hb).
        rewrite Hbf, Hall, <- app_assoc.
        eexists. split; [reflexivity|]. split.
        -- now apply prefix_app.
        -- rewrite Hall, <- app_assoc in Hb. rewrite Hall in Hlen.
           rewrite !length_app in *. lia.
      * rewrite second_pass_done by lia. rewrite Hk.
        eexists. split; [reflexivity|]. split.
        -- apply prefix_app_r.
           rewrite <- (take_drop k (drop 1 l)) at 2. rewrite map_app.
           now apply prefix_app_r.
        -- rewrite Hk in Hlen. exact Hlen.
    + destruct (IH selected) as (bf & Hbf & Hpre & Hb).
      exists bf. split; [exact Hbf|]. split; [|exact Hb]. exact Hpre.
Qed.

(** The second pass stops short of the later questions only once the
    minimum is reached. *)
Lemma second_pass_complete (m : Z) (cats : list pystr) qs selected :
  second_pass m cats qs selected = selected ++ later_questions cats qs
  \/ Z.of_nat (length (second_pass m cats qs selected)) >= m.
Proof.
  revert selected. induction cats as [|c cats IH]; intros selected; simpl.
  - left. now rewrite app_nil_r.
  - destruct (Z.of_nat (length selected) >=? m) eqn:Hbrk; [right; lia|].
    destruct (qs !! c) as [l|] eqn:Hl; simpl.
    + destruct (fill_from_spec m c (drop 1 l) selected) as [Hout _].
      simpl in Hout. destruct Hout as [Hall | (Hge & _)].
      * destruct (IH (fill_from m c (drop 1 l) selected)) as [Hrest|Hrest].
        -- left. rewrite Hrest, Hall. now rewrite <- app_assoc.
        -- right. exact Hrest.
      * right. rewrite second_pass_done by lia. lia.
    + apply IH.
Qed.

(** C9: when each of the five categories has a question, the selection
    starts with the first question of every category in the priority order
    informational, usage, safety, purchase, comparison; what follows is
    backfill, taken from the later questions of the categories (the first
    of each skipped) in the same order. The backfill goes on until the
    minimum is reached: the selection has at least [min_faqs] entries
    unless all the later questions are taken, and so whenever the
    categories hold that many questions; and it has at most
    [min_faqs + 2] entries (five when that is less). With five slots or
    fewer nothing is backfilled. *)
Theorem select_questions_diverse (min_faqs : Z) qs
    (q1 q2 q3 q4 q5 : pystr) (r1 r2 r3 r4 r5 : list pystr) :
  qs !! Py.str "informational" = Some (q1 :: r1) ->
  qs !! Py.str "usage" = Some (q2 :: r2) ->
  qs !! Py.str "safety" = Some (q3 :: r3) ->
  qs !! Py.str "purchase" = Some (q4 :: r4) ->
  qs !! Py.str "comparison" = Some (q5 :: r5) ->
  let later :=
    map (fun q => Build_selected_question q (Py.str "informational")) r1
    ++ map (fun q => Build_selected_question q (Py.str "usage")) r2
    ++ map (fun q => Build_selected_question q (Py.str "safety")) r3
    ++ map (fun q => Build_selected_question q (Py.str "purchase")) r4
    ++ map (fun q => Build_selected_question q (Py.str "comparison")) r5 in
  exists backfill,
    _select_questions min_faqs qs =
      [ Build_selected_question q1 (Py.str "informational");
        Build_selected_question q2 (Py.str "usage");
        Build_selected_question q3 (Py.str "safety");
        Build_selected_question q4 (Py.str "purchase");
        Build_selected_question q5 (Py.str "comparison") ] ++ backfill
    /\ backfill `prefix_of` later
    /\ Z.of_nat (length (_select_questions min_faqs qs)) <= Z.max 5 (min_faqs + 2)
    /\ (min_faqs <= 5 -> backfill = [])
    /\ (backfill = later
        \/ min_faqs <= Z.of_nat (length (_select_questions min_faqs qs)))
    /\ (min_faqs <= 5 + Z.of_nat (length r1 + length r2 + length r3
                                   + length r4 + length r5) ->
        min_faqs <= Z.of_nat (length (_select_questions min_faqs qs)))
    /\ (5 < min_faqs -> later <> [] -> backfill <> []).
Proof.
  intros H1 H2 H3 H4 H5 later. unfold _select_questions.
  assert (Hfirst : first_pass category_priority qs [] =
      [ Build_selected_question q1 (Py.str "informational");
        Build_selected_question q2 (Py.str "usage");
        Build_selected_question q3 (Py.str "safety");
        Build_selected_question q4 (Py.str "purchase");
        Build_selected_question q5 (Py.str "comparison") ]).
  { unfold category_priority. cbn [first_pass].
    rewrite H1. cbn [first_pass]. rewrite H2. cbn [first_pass].
    rewrite H3. cbn [first_pass]. rewrite H4. cbn [first_pass].
    rewrite H5. reflexivity. }
  assert (Hlater : later_questions category_priority qs = later).
  { unfold later_questions, category_priority. cbn [flat_map].
    rewrite H1, H2, H3, H4, H5. cbn [default from_option id drop].
    now rewrite app_nil_r. }
  assert (Hlen_later : length later
            = (length r1 + length r2 + length r3 + length r4 + length r5)%nat).
  { unfold later. rewrite !length_app, !length_map. lia. }
  rewrite Hfirst.
  match goal with |- context [second_pass _ _ _ ?s] =>
    destruct (second_pass_spec min_faqs category_priority qs s) as (bf & Hbf & Hpre & Hlen);
    pose proof (second_pass_complete min_faqs category_priority qs s) as Hall
  end.
  rewrite Hlater in Hpre, Hall. rewrite Hbf in Hall.
  assert (Hcases : bf = later
            \/ min_faqs <= Z.of_nat (length (second_pass min_faqs category_priority qs
                 [ Build_selected_question q1 (Py.str "informational");
                   Build_selected_question q2 (Py.str "usage");
                   Build_selected_question q3 (Py.str "safety");
                   Build_selected_question q4 (Py.str "purchase");
                   Build_selected_question q5 (Py.str "comparison") ]))).
  { destruct Hall as [Hall|Hge]; [left|right].
    - now apply app_inv_head in Hall.
    - rewrite Hbf. lia. }
  exists bf. split; [exact Hbf|]. split; [exact Hpre|].
  split; [|split; [|split; [|split]]].
  - rewrite Hbf. simpl in Hlen |- *. lia.
  - intros Hm. rewrite second_pass_done in Hbf by (simpl; lia).
    destruct bf as [|x bf]; [reflexivity|].
    apply (f_equal length) in Hbf. rewrite length_app in Hbf. simpl in Hbf. lia.
  - exact Hcases.
  - intros Htotal. destruct Hcases as [->|Hge]; [|exact Hge].
    rewrite Hbf, length_app, Hlen_later. simpl. lia.
  - intros Hmin Hne Hnil. subst bf.
    destruct Hcases as [Heq|Hge]; [now apply Hne|].
    rewrite Hbf in Hge. simpl in Hge. lia.
Qed.

End QuestionSelection.

(** ** Whitespace stripping *)

Section Strip.

Import Py.

Lemma lstrip_head_ok (s : pystr) : head_ok (Py.lstrip s).
Proof.
  induction s as [|a s IH]; simpl.
  - intros c r H. discriminate.
  - destruct (Py.isspace a) eqn:Ha; [exact IH|].
    intros c r H. injection H as <- _. exact Ha.
Qed.

Lemma lstrip_fix (x : pystr) : head_ok x -> Py.lstrip x = x.
Proof.
  destruct x as [|c r]; [reflexivity|]. intros H. simpl.
  now rewrite (H c r eq_refl).
Qed.

Lemma lstrip_blank_app (pre s : pystr) :
  blank pre -> Py.lstrip (pre ++ s) = Py.lstrip s.
Proof.
  induction 1 as [|c pre Hc _ IH]; simpl; [reflexivity|]. now rewrite Hc.
Qed.

Lemma lstrip_split (s : pystr) : exists pre, s = pre ++ Py.lstrip s /\ blank pre.
Proof.
  induction s as [|a s (pre & Hs & Hpre)]; simpl.
  - exists []. split; [reflexivity|constructor].
  - destruct (Py.isspace a) eqn:Ha.
    + exists (a :: pre). split; [simpl; now rewrite <- Hs|now constructor].
    + exists []. split; [reflexivity|constructor].
Qed.

Lemma head_ok_rev_lstrip (s : pystr) : head_ok (rev s) -> head_ok (rev (Py.lstrip s)).
Proof.
  intros H. destruct (lstrip_split s) as (pre & Hs & _).
  destruct (rev (Py.lstrip s)) as [|c r] eqn:Hr.
  - intros ? ? ?. discriminate.
  - intros c' r' Heq. injection Heq as <- <-.
    apply (H c (r ++ rev pre)). rewrite Hs at 1. rewrite rev_app_distr, Hr. reflexivity.
Qed.

Lemma strip_trimmed (s : pystr) : trimmed (Py.strip s).
Proof.
  unfold Py.strip, Py.rstrip. split.
  - apply head_ok_rev_lstrip. rewrite rev_involutive. apply lstrip_head_ok.
  - rewrite rev_involutive. apply lstrip_head_ok.
Qed.

Lemma strip_fix (x : pystr) : trimmed x -> Py.strip x = x.
Proof.
  intros [H1 H2]. unfold Py.strip, Py.rstrip.
  rewrite (lstrip_fix x H1), (lstrip_fix (rev x) H2). apply rev_involutive.
Qed.

(** [strip] is idempotent. *)
Lemma strip_strip (s : pystr) : Py.strip (Py.strip s) = Py.strip s.
Proof. apply strip_fix, strip_trimmed. Qed.

Lemma blank_rev (s : pystr) : blank s -> blank (rev s).
Proof. apply List.Forall_rev. Qed.

(** Whitespace around a trimmed, non-empty text is what [strip] removes. *)
Lemma strip_around (pre x post : pystr) :
  blank pre -> blank post -> trimmed x -> x <> [] ->
  Py.strip (pre ++ x ++ post) = x.
Proof.
  intros Hpre Hpost [H1 H2] Hx. unfold Py.strip, Py.rstrip.
  rewrite lstrip_blank_app by exact Hpre.
  rewrite (lstrip_fix (x ++ post)).
  - rewrite rev_app_distr, lstrip_blank_app by now apply blank_rev.
    rewrite (lstrip_fix _ H2). apply rev_involutive.
  - destruct x as [|c r]; [congruence|]. intros c' r' Heq.
    injection Heq as <- _. now apply (H1 c r).
Qed.

(** The first character of a text is whitespace or the first character of
    its stripped form. *)
Lemma strip_first (t : pystr) (c : N) (body : pystr) :
  Py.strip t = c :: body ->
  exists d rest, t = d :: rest /\ (Py.isspace d = true \/ d = c).
Proof.
  intros Hs. destruct (lstrip_split t) as (pre & Ht & Hpre).
  destruct pre as [|d pre].
  - simpl in Ht. unfold Py.strip, Py.rstrip in Hs. rewrite <- Ht in Hs.
    destruct (lstrip_split (rev t)) as (pre' & Hr & _).
    apply (f_equal (@rev N)) in Hr. rewrite rev_involutive, rev_app_distr, Hs in Hr.
    exists c, (body ++ rev pre'). split; [exact Hr|now right].
  - exists d, (pre ++ Py.lstrip t). split; [exact Ht|].
    left. now inversion Hpre.
Qed.

End Strip.

(** ** The response envelope *)

Section ResponseEnvelope.

Import Py Envelope.

Lemma startswith_app (p s : pystr) : Py.startswith (p ++ s) p = true.
Proof. induction p as [|a p IH]; simpl; [now destruct s|]. now rewrite N.eqb_refl. Qed.

Lemma endswith_app (s p : pystr) : Py.endswith (s ++ p) p = true.
Proof. unfold Py.endswith. rewrite rev_app_distr. apply startswith_app. Qed.

Lemma json_shaped_strip (t : pystr) :
  json_shaped t = true ->
  exists c body, Py.strip t = c :: body /\ c <> 96%N /\ last (c :: body) <> Some 96%N.
Proof.
  unfold json_shaped. destruct (Py.strip t) as [|c body]; [discriminate|].
  intros H. apply andb_true_iff in H as [Hc Hl].
  exists c, body. split; [reflexivity|]. split.
  - intros ->. discriminate.
  - intros Heq. rewrite Heq in Hl. discriminate.
Qed.

Lemma backquotes : Py.str "```" = [96; 96; 96]%N.
Proof. reflexivity. Qed.

Lemma json_fence : Py.str "```json" = [96; 96; 96; 106; 115; 111; 110]%N.
Proof. reflexivity. Qed.

Lemma endswith_backquotes_false (x : pystr) (a : N) :
  last x = Some a -> a <> 96%N -> Py.endswith x [96; 96; 96]%N = false.
Proof.
  intros Hl Ha. unfold Py.endswith.
  destruct x as [|x0 x' _] using rev_ind; [discriminate|].
  rewrite last_snoc in Hl. injection Hl as ->.
  rewrite rev_app_distr.
  change (Py.startswith (rev [a] ++ rev x') (rev [96; 96; 96]%N))
    with ((96 =? a)%N && Py.startswith (rev x') [96; 96]%N).
  now rewrite (proj2 (N.eqb_neq 96 a)) by congruence.
Qed.

Lemma startswith_backquote_false (x p : pystr) (d : N) (rest : pystr) :
  x = d :: rest -> d <> 96%N -> Py.startswith x (96%N :: p) = false.
Proof.
  intros -> Hd.
  change (Py.startswith (d :: rest) (96%N :: p))
    with ((96 =? d)%N && Py.startswith rest p).
  now rewrite (proj2 (N.eqb_neq 96 d)) by congruence.
Qed.

(** An unfenced JSON text goes through the fence stripping unchanged. *)
Lemma strip_code_fences_plain (t : pystr) :
  json_shaped t = true -> Py.strip (strip_code_fences t) = Py.strip t.
Proof.
  intros H. destruct (json_shaped_strip t H) as (c & body & Hs & Hc & Hl).
  unfold strip_code_fences. rewrite Hs, json_fence, backquotes.
  rewrite !(startswith_backquote_false _ _ c body eq_refl Hc).
  destruct (last (c :: body)) as [z|] eqn:Hz.
  - rewrite (endswith_backquotes_false _ z Hz) by congruence.
    rewrite <- Hs. apply strip_strip.
  - exfalso. destruct body using rev_ind; [discriminate|].
    rewrite app_comm_cons, last_snoc in Hz. discriminate.
Qed.

(** A fenced JSON text comes out of the fence stripping as the text. *)
Lemma strip_code_fences_fenced (before t after : pystr) :
  blank before -> blank after -> json_shaped t = true ->
  Py.strip (strip_code_fences (fenced before t after)) = Py.strip t.
Proof.
  intros Hb Ha H. destruct (json_shaped_strip t H) as (c & body & Hs & Hc & Hl).
  destruct (strip_first t c body Hs) as (d & rest & Ht & Hd).
  assert (Hd96 : d <> 96%N).
  { destruct Hd as [Hsp| ->]; [|exact Hc]. intros ->. discriminate. }
  unfold strip_code_fences, fenced. rewrite json_fence, backquotes.
  set (F := [96; 96; 96; 106; 115; 111; 110]%N). set (C := [96; 96; 96]%N).
  assert (Hstrip : Py.strip (before ++ F ++ t ++ C ++ after) = F ++ t ++ C).
  { replace (before ++ F ++ t ++ C ++ after) with (before ++ (F ++ t ++ C) ++ after)
      by (now rewrite <- !app_assoc).
    apply strip_around; [exact Hb|exact Ha| |].
    - split.
      + intros c0 r0 Heq. injection Heq as <- _. reflexivity.
      + intros c0 r0 Heq. rewrite !rev_app_distr in Heq.
        injection Heq as <- _. reflexivity.
    - discriminate. }
  rewrite Hstrip, startswith_app.
  change (drop 7 (F ++ t ++ C)) with (t ++ C).
  assert (Hsw : Py.startswith (t ++ C) C = false).
  { apply (startswith_backquote_false _ [96; 96]%N d (rest ++ C)); [|exact Hd96].
    now rewrite Ht. }
  rewrite Hsw.
  rewrite endswith_app.
  replace (length (t ++ C) - 3)%nat with (length t)
    by (rewrite length_app; simpl; lia).
  now rewrite take_app_length.
Qed.


End ResponseEnvelope.

(** ** Numeric extraction *)

Section NumericExtraction.

Import ProductParserAgent Re.

Lemma match_number_nondigit (c : N) (r : pystr) :
  Py.decimal c = None -> Re.match_number (c :: r) = None.
Proof. intros H. unfold Re.match_number. simpl. now rewrite H. Qed.

Lemma match_number_digit (c : N) (r : pystr) :
  is_Some (Py.decimal c) -> is_Some (Re.match_number (c :: r)).
Proof.
  intros [d Hd]. unfold Re.match_number. simpl. rewrite Hd.
  destruct (Re.take_digits r) as [ds rest].
  destruct rest as [|x rest']; [eauto|].
  destruct (x =? 46)%N; eauto.
Qed.

(** No digit, no match. *)
Lemma search_number_digitless (s : pystr) :
  digitless s -> Re.search_number s = None.
Proof.
  induction 1 as [|c s Hc _ IH]; [reflexivity|].
  cbn [Re.search_number]. now rewrite (match_number_nondigit c s Hc).
Qed.

(** The match starts at the first digit. *)
Lemma search_number_leftmost (pre : pystr) (c : N) (rest : pystr) :
  digitless pre -> is_Some (Py.decimal c) ->
  Re.search_number (pre ++ c :: rest) = Re.match_number (c :: rest).
Proof.
  intros Hpre Hc. induction Hpre as [|a pre Ha _ IH].
  - destruct (match_number_digit c rest Hc) as [m Hm].
    cbn [app Re.search_number]. now rewrite Hm.
  - cbn [app Re.search_number]. now rewrite (match_number_nondigit a _ Ha).
Qed.

Lemma sub_currency_digitless (s : pystr) : digitless s -> digitless (Re.sub_currency s).
Proof.
  unfold digitless, Re.sub_currency in *. intros H.
  induction H as [|c s Hc _ IH]; [constructor|].
  rewrite filter_cons. destruct (decide _); [constructor; assumption|assumption].
Qed.

Variable str_other : pyval -> pystr.

(** C7, as the code has it: both extractions return [float(value)] for a
    value that is already a number; on a text, the price extraction removes
    currency symbols, commas and whitespace and converts the first numeral
    (digits, optionally a point and digits) it then finds, while the
    concentration extraction looks for that numeral in the text as it is;
    both give 0.0 when there is no digit. *)
Theorem numeric_extraction :
  (forall z, _extract_price str_other (VInt z) = PyFloat.float_of_int z
             /\ _extract_concentration str_other (VInt z) = PyFloat.float_of_int z)
  /\ (forall f, _extract_price str_other (VFloat f) = Ok f
                /\ _extract_concentration str_other (VFloat f) = Ok f)
  /\ (forall s,
        _extract_price str_other (VStr s)
          = Ok (from_option Re.float_of_match 0%float
                  (Re.search_number (Re.sub_currency s)))
        /\ _extract_concentration str_other (VStr s)
          = Ok (from_option Re.float_of_match 0%float (Re.search_number s)))
  /\ (forall pre c rest,
        digitless pre -> is_Some (Py.decimal c) ->
        Re.search_number (pre ++ c :: rest) = Re.match_number (c :: rest)
        /\ is_Some (Re.match_number (c :: rest)))
  /\ (forall s, digitless s ->
        _extract_price str_other (VStr s) = Ok 0%float
        /\ _extract_concentration str_other (VStr s) = Ok 0%float)
  /\ _extract_price str_other (VStr (Py.str "₹1,299")) = Ok 1299%float
  /\ _extract_price str_other (VStr (Py.str "$29.99")) = Ok 29.99%float
  /\ _extract_price str_other (VStr (Py.str "15.5% Active")) = Ok 15.5%float
  /\ _extract_concentration str_other (VStr (Py.str "15.5% Active")) = Ok 15.5%float
  /\ _extract_concentration str_other (VStr (Py.str "$29.99")) = Ok 29.99%float
  /\ _extract_concentration str_other (VStr (Py.str "10% Vitamin C, 5% Niacinamide"))
       = Ok 10%float
  /\ _extract_price str_other (VStr (Py.str "")) = Ok 0%float
  /\ _extract_concentration str_other (VStr (Py.str "")) = Ok 0%float.
Proof.
  assert (Htext : forall s,
    _extract_price str_other (VStr s)
      = Ok (from_option Re.float_of_match 0%float (Re.search_number (Re.sub_currency s)))
    /\ _extract_concentration str_other (VStr s)
      = Ok (from_option Re.float_of_match 0%float (Re.search_number s))).
  { intros s. unfold _extract_price, _extract_concentration, str_of. split.
    - now destruct (Re.search_number (Re.sub_currency s)).
    - now destruct (Re.search_number s). }
  split; [intros z; split; reflexivity|].
  split; [intros f; split; reflexivity|].
  split; [exact Htext|].
  split.
  { intros pre c rest Hpre Hc. split.
    - now apply search_number_leftmost.
    - now apply match_number_digit. }
  split.
  { intros s Hs. destruct (Htext s) as [-> ->].
    rewrite (search_number_digitless _ Hs).
    now rewrite (search_number_digitless _ (sub_currency_digitless _ Hs)). }
  repeat split; vm_compute; reflexivity.
Qed.

End NumericExtraction.

(** ** The normalizer *)

Section Normalizer.

Import ProductParserAgent.

Variable lower : pystr -> pystr.
Variable str_other : pyval -> pystr.
Variable schema_message : raw_product -> pystr.

Lemma strip_nil : Py.strip [] = [].
Proof. reflexivity. Qed.

(** On a list of strings the comprehension of [_normalize_array] keeps the
    items that are not blank, stripped, in their order. *)
Lemma strip_items_strs (items : list pystr) :
  strip_items str_other (map VStr items)
    = Ok (map Py.strip (filter (fun s => Py.strip s <> []) items)).
Proof.
  induction items as [|s items IH]; [reflexivity|].
  cbn [map strip_items truthy str_of]. rewrite filter_cons.
  destruct (decide (Py.strip s <> [])) as [Hne|He].
  - rewrite (bool_decide_eq_false_2 (Py.strip s = [])) by exact Hne.
    rewrite (bool_decide_eq_false_2 (s = [])) by (intros ->; now apply Hne).
    cbn [negb andb]. rewrite IH. reflexivity.
  - assert (Hs : Py.strip s = []) by (destruct (decide (Py.strip s = [])); tauto).
    rewrite (bool_decide_eq_true_2 (Py.strip s = [])) by exact Hs.
    cbn [negb]. rewrite andb_false_r. exact IH.
Qed.

Lemma extract_price_str (s : pystr) :
  exists f, _extract_price str_other (VStr s) = Ok f.
Proof.
  unfold _extract_price, str_of. destruct (Re.search_number _); eauto.
Qed.

Lemma extract_concentration_str (s : pystr) :
  exists f, _extract_concentration str_other (VStr s) = Ok f.
Proof.
  unfold _extract_concentration, str_of. destruct (Re.search_number _); eauto.
Qed.

(** [_normalize] returns on every raw product, and only its [id] depends
    on the UUID drawn. *)
Lemma normalize_returns (uuid4 : pystr) (raw : raw_product) :
  exists c pr,
    _extract_concentration str_other (VStr (default [] (raw_concentration raw))) = Ok c
    /\ _extract_price str_other (VStr (default [] (raw_price raw))) = Ok pr
    /\ _normalize lower str_other uuid4 raw =
       Ok {| id := _generate_id lower uuid4 (default [] (product_name raw));
             name := Py.strip (default [] (product_name raw));
             concentration := c;
             skin_type := map Py.strip (filter (fun s => Py.strip s <> [])
                                          (default [] (raw_skin_type raw)));
             ingredients := map Py.strip (filter (fun s => Py.strip s <> [])
                                            (default [] (key_ingredients raw)));
             benefits := map Py.strip (filter (fun s => Py.strip s <> [])
                                         (default [] (raw_benefits raw)));
             usage := Py.strip (default [] (how_to_use raw));
             side_effects := Py.strip (default [] (raw_side_effects raw));
             price := pr |}.
Proof.
  destruct (extract_concentration_str (default [] (raw_concentration raw))) as [c Hc].
  destruct (extract_price_str (default [] (raw_price raw))) as [pr Hpr].
  exists c, pr. split; [exact Hc|]. split; [exact Hpr|].
  unfold _normalize, _normalize_array. rewrite Hc, Hpr, !strip_items_strs. reflexivity.
Qed.

(** C8, as the code has it: two runs of [parse] on the same valid raw
    product return records that agree on every field but [id], and whose
    [id]s differ exactly when the eight-character suffixes taken from the
    two UUIDs drawn differ. *)
Theorem normalize_twice (raw : raw_product) (uuid_1 uuid_2 : pystr) :
  satisfies_input_schema raw = true ->
  exists r1 r2,
    parse lower str_other schema_message uuid_1 raw = Ok r1
    /\ parse lower str_other schema_message uuid_2 raw = Ok r2
    /\ name r1 = name r2
    /\ concentration r1 = concentration r2
    /\ skin_type r1 = skin_type r2
    /\ ingredients r1 = ingredients r2
    /\ benefits r1 = benefits r2
    /\ usage r1 = usage r2
    /\ side_effects r1 = side_effects r2
    /\ price r1 = price r2
    /\ (id r1 <> id r2 <-> take 8 uuid_1 <> take 8 uuid_2).
Proof.
  intros Hvalid.
  destruct (normalize_returns uuid_1 raw) as (c1 & p1 & Hc1 & Hp1 & H1).
  destruct (normalize_returns uuid_2 raw) as (c2 & p2 & Hc2 & Hp2 & H2).
  assert (c1 = c2) as <- by congruence. assert (p1 = p2) as <- by congruence.
  eexists. eexists.
  unfold parse, _validate_input, _validate_output. rewrite Hvalid, H1, H2.
  split; [reflexivity|]. split; [reflexivity|].
  cbn [name concentration skin_type ingredients benefits usage side_effects price id].
  repeat (split; [reflexivity|]).
  unfold _generate_id. split.
  - intros Hne Heq. apply Hne. now rewrite Heq.
  - intros Hne Heq. apply Hne. apply app_inv_head in Heq. now apply app_inv_head in Heq.
Qed.

End Normalizer.

(** ** The stage sequencer *)

Section StageSequencer.

Import Orchestrator.

Context {Product Questions Blocks Page : Type}.
Variable env : collaborators Product Questions Blocks Page.
Variables (dir input_path : pystr).

(** Unfolds a run down to the calls of the agents. *)
Ltac unfold_run :=
  unfold run, try_except, _execute_stage, _stage_parse_product,
    _stage_generate_questions, _stage_prepare_content_blocks,
    _stage_load_templates, _stage_generate_faq, _stage_generate_product_page,
    _stage_generate_comparison, _write_outputs, write_output, _print_header,
    _print_stage, _print_success, _print_error, _print_summary, when_verbose,
    print, set_state, record_call, write_file, update, read, call, new,
    mbind, mret, act_bind, act_ret.

(** Runs the model to the state in which the handler leaves it. *)
Ltac run_through :=
  unfold_run; cbn -[Py.str];
  repeat (match goal with Heq : _ = _ |- _ => rewrite Heq; cbn -[Py.str] end);
  reflexivity.

(** Closes the case in which the stage of [H] is the first to raise. *)
Ltac failed_stage H :=
  injection H as <- <-;
  match goal with |- context [new ?v _] => destruct v end;
  eexists; (split; [run_through | cbn -[Py.str]; repeat split; reflexivity]).

(** C4, as the code has it: when stage 2 (question generation) raises,
    the stages 3 to 7 are not called, no output document is written and no
    page is stored, and the run returns a failure that carries the text of
    the exception and nothing else; stage 2 shows as the last stage
    announced on the console of a verbose run, and a quiet run prints the
    error text only. *)
Theorem stage_2_failure (is_verbose : bool) (p : Product) (e : exn) :
  parser_parse env input_path = Ok p ->
  question_generator_generate env (Some p) = Raise e ->
  exists o,
    run env input_path (new is_verbose dir) = (o, Ok (Failure (exn_msg e)))
    /\ called o = [1; 2]
    /\ files o = []
    /\ questions (state o) = None
    /\ faq_page (state o) = None
    /\ product_page (state o) = None
    /\ comparison_page (state o) = None
    /\ error_lines (console o) = [exn_msg e]
    /\ announced (console o) = (if is_verbose then [1; 2] else []).
Proof.
  intros H1 H2.
  destruct is_verbose; eexists;
    (split;
     [ unfold_run; cbn -[Py.str]; rewrite H1; cbn -[Py.str]; rewrite H2;
       cbn -[Py.str]; reflexivity
     | cbn -[Py.str]; repeat split; reflexivity ]).
Qed.

(** C5, as the code has it: whichever stage is the first to raise, its
    exception is caught by the one handler of [run], which prints one error
    line and returns the failure to the caller; the failure carries the
    text of the exception as it is (the name of the stage is not added);
    the later stages are not called and no output file is written. *)
Theorem stage_failure_surfaced (is_verbose : bool) (k : Z) (e : exn) :
  first_failure env input_path = Some (k, e) ->
  exists o,
    run env input_path (new is_verbose dir) = (o, Ok (Failure (exn_msg e)))
    /\ error_lines (console o) = [exn_msg e]
    /\ files o = []
    /\ called o = seqZ 1 k
    /\ announced (console o) = (if is_verbose then seqZ 1 k else []).
Proof.
  unfold first_failure. intros H.
  destruct (parser_parse env input_path) as [p|e1] eqn:H1; [|failed_stage H].
  destruct (question_generator_generate env (Some p)) as [q|e2] eqn:H2; [|failed_stage H].
  destruct (content_logic_get_all_blocks env (Some p)) as [b|e3] eqn:H3; [|failed_stage H].
  destruct (template_engine_list_templates env) as [t|e4] eqn:H4; [|failed_stage H].
  destruct (faq_generate env (Some p) (Some q)) as [f|e5] eqn:H5; [|failed_stage H].
  destruct (product_page_generate env (Some p)) as [pp|e6] eqn:H6; [|failed_stage H].
  destruct (comparison_generate env (Some p)) as [cp|e7] eqn:H7; [discriminate|failed_stage H].
Qed.

(** When no stage raises and the three files can be written, the run
    succeeds: all seven stages are called and the three documents are
    written. *)
Lemma run_completes (is_verbose : bool) :
  first_failure env input_path = None ->
  mkdir_error env = None -> (forall f, write_error env f = None) ->
  exists o a b c t,
    run env input_path (new is_verbose dir) = (o, Ok (Success a b c t))
    /\ called o = seqZ 1 7
    /\ map fst (files o) =
         [config.OUTPUT_FILES_faq; config.OUTPUT_FILES_product_page;
          config.OUTPUT_FILES_comparison_page]
    /\ error_lines (console o) = [].
Proof.
  unfold first_failure. intros H Hm Hw.
  destruct (parser_parse env input_path) as [p|e1] eqn:H1; [|discriminate].
  destruct (question_generator_generate env (Some p)) as [q|e2] eqn:H2; [|discriminate].
  destruct (content_logic_get_all_blocks env (Some p)) as [b|e3] eqn:H3; [|discriminate].
  destruct (template_engine_list_templates env) as [t|e4] eqn:H4; [|discriminate].
  destruct (faq_generate env (Some p) (Some q)) as [f|e5] eqn:H5; [|discriminate].
  destruct (product_page_generate env (Some p)) as [pp|e6] eqn:H6; [|discriminate].
  destruct (comparison_generate env (Some p)) as [cp|e7] eqn:H7; [|discriminate].
  destruct is_verbose; do 5 eexists;
    (split;
     [ unfold_run; cbn -[Py.str];
       repeat (match goal with Heq : _ = _ |- _ => rewrite Heq; cbn -[Py.str] end);
       rewrite ?Hw; cbn -[Py.str]; reflexivity
     | cbn -[Py.str]; repeat split; reflexivity ]).
Qed.

End StageSequencer.

(** ** The properties on the sample data *)

Section OnSamples.

Import Samples.

Lemma price_699_599_dimension_witness :
  comparison._extract_price (default (VInt 0) (comparison.price glowboost)) = Ok 699%float
  /\ comparison._extract_price (default (VInt 0) (comparison.price radiantglow)) = Ok 599%float
  /\ exists r, comparison._compare_price repr_left_out glowboost radiantglow = Ok r
       /\ comparison.difference r = 100%float
       /\ comparison.percentage_difference r = NFloat 14.3
       /\ comparison.cheaper_option r = Some comparison.product_b.
Proof.
  split; [reflexivity|]. split; [reflexivity|].
  destruct (price_699_599_dimension repr_left_out glowboost radiantglow eq_refl eq_refl)
    as (r & Hr & Hd & Hp & Hc & _).
  exists r. auto.
Defined.

(** C1 as stated fails: at prices 699 and 599 the reported percentage is
    14.3 (100 relative to 699), which is below 16.65 and so is not 16.7 to
    one decimal place. *)
Lemma price_699_599_percentage_counterexample :
  exists r, comparison._compare_price repr_left_out glowboost radiantglow = Ok r
    /\ comparison.percentage_difference r = NFloat 14.3
    /\ comparison.percentage_difference r <> NFloat 16.7
    /\ PrimFloat.ltb 14.3 16.65 = true.
Proof.
  eexists. split; [reflexivity|]. split; [vm_compute; reflexivity|].
  split; [|reflexivity].
  intros H.
  apply (f_equal (fun v => match v with NFloat f => PrimFloat.ltb f 16 | NInt _ => false end))
    in H.
  vm_compute in H. discriminate.
Qed.

Lemma compare_price_dimension_witness :
  comparison._extract_price (default (VInt 0) (comparison.price glowboost)) = Ok 699%float
  /\ comparison._extract_price (default (VInt 0) (comparison.price radiantglow)) = Ok 599%float
  /\ exists r, comparison._compare_price repr_left_out glowboost radiantglow = Ok r
       /\ comparison.difference r = abs (699 - 599)
       /\ comparison.percentage_difference r
          = NFloat (PyFloat.round1 (abs (699 - 599) / 699 * 100))
       /\ comparison.cheaper_option r = Some comparison.product_b.
Proof.
  split; [reflexivity|]. split; [reflexivity|].
  destruct (compare_price_dimension repr_left_out glowboost radiantglow 699 599
              eq_refl eq_refl) as (r & Hr & Hd & _ & Hp & _ & _ & _ & _ & Hb & _).
  exists r. split; [exact Hr|]. split; [exact Hd|].
  split; [apply Hp; reflexivity|]. apply Hb. reflexivity.
Defined.

(** C2 as stated fails on the rounding: at prices 699 and 599 the
    percentage relative to the larger price is 14.306..., and the price
    dimension holds 14.3. *)
Lemma percentage_not_exact_counterexample :
  exists r, comparison._compare_price repr_left_out glowboost radiantglow = Ok r
    /\ PrimFloat.ltb 14.306 (abs (699 - 599) / 699 * 100) = true
    /\ comparison.percentage_difference r = NFloat 14.3
    /\ comparison.percentage_difference r <> NFloat (abs (699 - 599) / 699 * 100).
Proof.
  eexists. split; [reflexivity|]. split; [reflexivity|].
  split; [vm_compute; reflexivity|].
  intros H.
  apply (f_equal (fun v => match v with
                           | NFloat f => PrimFloat.ltb 14.306 f
                           | NInt _ => false
                           end)) in H.
  vm_compute in H. discriminate.
Qed.

Lemma scores_by_dimension_witness :
  exists r, comparison.compare_products Py.ascii_lower repr_left_out glowboost radiantglow
              = Ok r
    /\ comparison.product_a_score (comparison.c_scores r) = 0
    /\ comparison.product_b_score (comparison.c_scores r) = 3.
Proof.
  destruct (scores_by_dimension Py.ascii_lower repr_left_out glowboost radiantglow 699 599
              eq_refl eq_refl) as (r & Hr & Ha & Hb & _).
  exists r. split; [exact Hr|]. split; [exact Ha|exact Hb].
Defined.

Lemma select_questions_diverse_witness :
  exists backfill,
    FAQPageAgent._select_questions 7 sample_questions =
      [ FAQPageAgent.Build_selected_question
          (Py.str "What is GlowBoost Vitamin C Serum?") (Py.str "informational");
        FAQPageAgent.Build_selected_question
          (Py.str "How do I apply the serum?") (Py.str "usage");
        FAQPageAgent.Build_selected_question
          (Py.str "Are there any side effects?") (Py.str "safety");
        FAQPageAgent.Build_selected_question
          (Py.str "How much does it cost?") (Py.str "purchase");
        FAQPageAgent.Build_selected_question
          (Py.str "How does it compare to other serums?") (Py.str "comparison") ]
      ++ backfill
    /\ backfill <> []
    /\ 7 <= Z.of_nat (length (FAQPageAgent._select_questions 7 sample_questions)) <= 9.
Proof.
  destruct (select_questions_diverse 7 sample_questions
              _ _ _ _ _ _ _ _ _ _ eq_refl eq_refl eq_refl eq_refl eq_refl)
    as (bf & Hsel & _ & Hmax & _ & _ & Hmin & Hfill).
  exists bf. split; [exact Hsel|]. split.
  - apply Hfill; [lia|discriminate].
  - split; [apply Hmin; simpl; lia|lia].
Defined.


(** C7 as stated fails for the concentration: its extraction does not
    remove the currency symbol and the comma, and reads 1.0 where the
    claim has 1299.0. *)
Lemma concentration_keeps_commas_counterexample :
  exists x,
    ProductParserAgent._extract_concentration str_left_out (VStr (Py.str "₹1,299")) = Ok x
    /\ x = 1%float /\ PrimFloat.eqb x 1299 = false.
Proof. exists 1%float. repeat split; vm_compute; reflexivity. Qed.

Lemma normalize_twice_witness :
  ProductParserAgent.satisfies_input_schema sample_data = true
  /\ exists r1 r2,
       ProductParserAgent.parse Py.ascii_lower str_left_out schema_message uuid_a sample_data
         = Ok r1
       /\ ProductParserAgent.parse Py.ascii_lower str_left_out schema_message uuid_c sample_data
         = Ok r2
       /\ ProductParserAgent.name r1 = ProductParserAgent.name r2
       /\ ProductParserAgent.price r1 = ProductParserAgent.price r2
       /\ ProductParserAgent.id r1 <> ProductParserAgent.id r2.
Proof.
  split; [reflexivity|].
  destruct (normalize_twice Py.ascii_lower str_left_out schema_message sample_data
              uuid_a uuid_c eq_refl)
    as (r1 & r2 & H1 & H2 & Hn & _ & _ & _ & _ & _ & _ & Hp & Hid).
  exists r1, r2. repeat (split; [assumption|]).
  apply Hid. vm_compute. discriminate.
Defined.

(** C8 as stated fails: two runs whose UUIDs differ but begin with the
    same eight characters return the same [id]. *)
Lemma same_suffix_same_id_counterexample :
  uuid_a <> uuid_b
  /\ exists r1 r2,
       ProductParserAgent.parse Py.ascii_lower str_left_out schema_message uuid_a sample_data
         = Ok r1
       /\ ProductParserAgent.parse Py.ascii_lower str_left_out schema_message uuid_b sample_data
         = Ok r2
       /\ ProductParserAgent.id r1 = ProductParserAgent.id r2
       /\ ProductParserAgent.id r1 = Py.str "glowboost-vitamin-c-serum-1b9d6bcd".
Proof.
  split; [vm_compute; discriminate|].
  eexists. eexists. split; [vm_compute; reflexivity|].
  split; [vm_compute; reflexivity|]. split; vm_compute; reflexivity.
Qed.

Lemma stage_2_failure_witness :
  Orchestrator.parser_parse (agents_failing_at 2 quota_error) input_path = Ok (VDict [])
  /\ Orchestrator.question_generator_generate (agents_failing_at 2 quota_error)
       (Some (VDict [])) = Raise quota_error
  /\ exists o,
       Orchestrator.run (agents_failing_at 2 quota_error) input_path
         (Orchestrator.new true outputs)
         = (o, Ok (Orchestrator.Failure (exn_msg quota_error)))
       /\ Orchestrator.called o = [1; 2]
       /\ Orchestrator.files o = [].
Proof.
  split; [reflexivity|]. split; [reflexivity|].
  destruct (stage_2_failure (agents_failing_at 2 quota_error) outputs input_path true
              (VDict []) quota_error eq_refl eq_refl) as (o & Hr & Hc & Hf & _).
  exists o. auto.
Defined.

(** C4 as stated fails in its last part: a quiet run in which stage 2
    raises and one in which stage 5 raises the same error return the same
    result and print the same console, so what the orchestrator reports
    does not tell stage 2 from stage 5. *)
Lemma failing_stage_not_reported_counterexample :
  exists o2 o5 r,
    Orchestrator.run (agents_failing_at 2 quota_error) input_path
      (Orchestrator.new false outputs) = (o2, r)
    /\ Orchestrator.run (agents_failing_at 5 quota_error) input_path
      (Orchestrator.new false outputs) = (o5, r)
    /\ Orchestrator.console o2 = Orchestrator.console o5
    /\ Orchestrator.called o2 = [1; 2]
    /\ Orchestrator.called o5 = [1; 2; 3; 4; 5].
Proof.
  do 3 eexists. split; [vm_compute; reflexivity|].
  split; [vm_compute; reflexivity|]. repeat split.
Qed.

Lemma stage_failure_surfaced_witness :
  Orchestrator.first_failure (agents_failing_at 5 decode_error) input_path
    = Some (5, decode_error)
  /\ exists o,
       Orchestrator.run (agents_failing_at 5 decode_error) input_path
         (Orchestrator.new true outputs)
         = (o, Ok (Orchestrator.Failure (exn_msg decode_error)))
       /\ Orchestrator.files o = []
       /\ Orchestrator.called o = [1; 2; 3; 4; 5].
Proof.
  split; [reflexivity|].
  destruct (stage_failure_surfaced (agents_failing_at 5 decode_error) outputs input_path
              true 5 decode_error eq_refl) as (o & Hr & _ & Hf & Hc & _).
  exists o. auto.
Defined.

(** C5 as stated fails in its annotation: when the FAQ stage raises, the
    failure returned and the line printed by a quiet run are the text of
    the exception, in which the stage is not named. *)
Lemma failure_not_annotated_counterexample :
  exists o,
    Orchestrator.run (agents_failing_at 5 decode_error) input_path
      (Orchestrator.new false outputs)
      = (o, Ok (Orchestrator.Failure (exn_msg decode_error)))
    /\ Orchestrator.console o = [Orchestrator.ErrorLine (exn_msg decode_error)]
    /\ Py.contains (exn_msg decode_error) (Py.str "FAQPageAgent") = false
    /\ Py.contains (exn_msg decode_error) (Py.str "5") = false.
Proof.
  eexists. split; [vm_compute; reflexivity|]. repeat split.
Qed.

End OnSamples.

(** * Further properties *)

#[local] Set Warnings "-clear-no-such-hyp".

(** ** Array normalization *)

Section ArrayNormalization.

Import ProductParserAgent.

Variable lower : pystr -> pystr.
Variable str_other : pyval -> pystr.
Variable schema_message : raw_product -> pystr.

Lemma strip_items_trimmed (items : list pyval) (out : list pystr) :
  strip_items str_other items = Ok out ->
  Forall (fun x => x <> [] /\ Py.strip x = x) out.
Proof.
  revert out. induction items as [|item items IH]; intros out.
  - intros [= <-]. constructor.
  - cbn [strip_items].
    destruct (truthy item && negb (bool_decide (Py.strip (str_of str_other item) = [])))
      eqn:Hkeep; [|apply IH].
    destruct item as [ |b|z|f|s|l|d]; try discriminate.
    destruct (strip_items str_other items) as [r|e]; [|discriminate].
    intros [= <-]. constructor; [|now apply IH].
    apply andb_true_iff in Hkeep as [_ Hne]. cbn [str_of] in Hne.
    apply negb_true_iff, bool_decide_eq_false in Hne.
    split; [exact Hne|apply strip_strip].
Qed.

Lemma normalize_array_clean (value : pyval) (out : list pystr) :
  _normalize_array str_other value = Ok out ->
  Forall (fun x => x <> [] /\ Py.strip x = x) out.
Proof.
  destruct value as [ |b|z|f|s|l|d]; cbn [_normalize_array];
    try (intros [= <-]; constructor).
  - intros [= <-]. apply Forall_forall. intros x Hx.
    apply list_elem_of_fmap in Hx as (y & -> & Hy).
    apply list_elem_of_filter in Hy as [Hne _].
    split; [exact Hne|apply strip_strip].
  - apply strip_items_trimmed.
Qed.

(** X1: whatever it is given, [_normalize_array] returns texts that are not
    empty and carry no whitespace at either end. *)
Theorem normalize_array_trimmed (value : pyval) (out : list pystr) :
  _normalize_array str_other value = Ok out ->
  Forall (fun x => x <> [] /\ Py.strip x = x) out.
Proof. exact (normalize_array_clean value out). Qed.

Lemma normalize_fixed (out : list pystr) :
  Forall (fun x => x <> [] /\ Py.strip x = x) out ->
  map Py.strip (filter (fun s => Py.strip s <> []) out) = out.
Proof.
  induction 1 as [|x out [Hne Hx] _ IH]; [reflexivity|].
  rewrite filter_cons. destruct (decide (Py.strip x <> [])) as [_|Hn].
  - cbn [map]. now rewrite Hx, IH.
  - rewrite Hx in Hn. contradiction.
Qed.

(** X2: normalizing a list that [_normalize_array] returned gives it back. *)
Theorem normalize_array_idempotent (value : pyval) (out : list pystr) :
  _normalize_array str_other value = Ok out ->
  _normalize_array str_other (VList (map VStr out)) = Ok out.
Proof.
  intros H. cbn [_normalize_array]. rewrite (strip_items_strs (fun x => x)).
  now rewrite (normalize_fixed out (normalize_array_clean value out H)).
Qed.

Lemma split_on_no_comma (x : pystr) : 44%N ∉ x -> Py.split_on 44 x = [x].
Proof.
  induction x as [|c x IH]; [reflexivity|]. intros Hc.
  cbn [Py.split_on]. destruct (N.eqb_spec c 44) as [->|_].
  - exfalso. apply Hc. left.
  - rewrite IH; [reflexivity|]. intros Hin. apply Hc. now right.
Qed.

Lemma split_on_app_comma (x rest : pystr) :
  44%N ∉ x -> Py.split_on 44 (x ++ 44%N :: rest) = x :: Py.split_on 44 rest.
Proof.
  induction x as [|c x IH]; intros Hc.
  - cbn [app Py.split_on]. now rewrite N.eqb_refl.
  - cbn [app Py.split_on]. destruct (N.eqb_spec c 44) as [->|_].
    + exfalso. apply Hc. left.
    + rewrite IH; [reflexivity|]. intros Hin. apply Hc. now right.
Qed.

Lemma split_on_join (x : pystr) (items : list pystr) :
  Forall (fun s => 44%N ∉ s) (x :: items) ->
  Py.split_on 44 (Py.join [44%N] (x :: items)) = x :: items.
Proof.
  revert x. induction items as [|y items IH]; intros x Hall.
  - cbn [Py.join]. apply split_on_no_comma. now inversion Hall.
  - inversion Hall as [|? ? Hx Hrest]; subst.
    change (Py.join [44%N] (x :: y :: items))
      with (x ++ [44%N] ++ Py.join [44%N] (y :: items)).
    cbn [app]. rewrite split_on_app_comma by exact Hx. now rewrite IH.
Qed.

(** X3: a comma-separated text and the list of its fields normalize alike:
    joining texts that hold no comma with commas and normalizing the
    result is normalizing the list. *)
Theorem normalize_array_comma_text (items : list pystr) :
  Forall (fun s => 44%N ∉ s) items ->
  _normalize_array str_other (VStr (Py.join [44%N] items))
    = _normalize_array str_other (VList (map VStr items)).
Proof.
  intros Hall. cbn [_normalize_array]. rewrite (strip_items_strs (fun x => x)).
  destruct items as [|x items]; [reflexivity|].
  now rewrite split_on_join.
Qed.

(** X4: an item of the list that is no text is left out when it is falsy or
    its [str] is blank, and makes the call raise [AttributeError]
    otherwise; the texts before it do not matter. *)
Theorem normalize_array_foreign_item (before : list pystr) (item : pyval)
    (rest : list pyval) :
  (forall s, item <> VStr s) ->
  _normalize_array str_other (VList (map VStr before ++ item :: rest)) =
    if truthy item && negb (bool_decide (Py.strip (str_of str_other item) = []))
    then Raise (no_attribute item "strip")
    else _normalize_array str_other (VList (map VStr before ++ rest)).
Proof.
  intros Hitem. cbn [_normalize_array].
  induction before as [|s before IH]; cbn [map app strip_items].
  - destruct (truthy item && _); [|reflexivity].
    destruct item; try reflexivity. now destruct (Hitem s).
  - destruct (truthy (VStr s) && _); [|exact IH].
    rewrite IH. now destruct (truthy item && _).
Qed.

(** X5: [parse] returns exactly on the raw products that hold the eight
    required keys; on any other it raises the [ValueError] of the input
    validation and nothing is normalized. *)
Theorem parse_returns_iff_valid (uuid4 : pystr) (raw : raw_product) :
  ((exists r, parse lower str_other schema_message uuid4 raw = Ok r)
   <-> satisfies_input_schema raw = true)
  /\ (satisfies_input_schema raw = false ->
      parse lower str_other schema_message uuid4 raw
        = Raise (Exn ValueError (Py.str "Invalid input data: " ++ schema_message raw))).
Proof.
  unfold parse, _validate_input.
  destruct (satisfies_input_schema raw) eqn:Hs.
  - split; [|discriminate]. split; [reflexivity|]. intros _.
    destruct (normalize_returns lower str_other uuid4 raw) as (c & pr & _ & _ & ->).
    eexists. reflexivity.
  - split; [|reflexivity]. split; [intros [r Hr]; discriminate|discriminate].
Qed.

End ArrayNormalization.

(** ** Product identifiers *)

Section ProductId.

Import ProductParserAgent.

Lemma startswith_nil (s : pystr) : Py.startswith s [] = true.
Proof. now destruct s. Qed.

Lemma startswith_spec (s p : pystr) :
  Py.startswith s p = true <-> exists r, s = p ++ r.
Proof.
  revert s. induction p as [|a p IH]; intros s.
  - split; [intros _; now exists s|intros _; now destruct s].
  - destruct s as [|b s]; cbn [Py.startswith].
    + split; [discriminate|intros [r Hr]; discriminate].
    + rewrite andb_true_iff, N.eqb_eq, IH. split.
      * intros [-> [r ->]]. now exists r.
      * intros [r [= -> ->]]. split; [reflexivity|now exists r].
Qed.

Lemma contains_spec (s p : pystr) :
  Py.contains s p = true <-> exists pre post, s = pre ++ p ++ post.
Proof.
  induction s as [|c s IH]; cbn [Py.contains]; rewrite orb_true_iff, startswith_spec.
  - split.
    + intros [[r Hr]|H]; [|discriminate]. exists [], r. exact Hr.
    + intros (pre & post & H). left. destruct pre as [|x pre]; [|discriminate].
      now exists post.
  - rewrite IH. split.
    + intros [[r Hr]|(pre & post & ->)]; [now exists [], r|].
      now exists (c :: pre), post.
    + intros (pre & post & H). destruct pre as [|x pre].
      * left. now exists post.
      * right. injection H as -> ->. now exists pre, post.
Qed.

(** The text [re.sub] leaves holds letters, digits and hyphens only, no
    two hyphens in a row, and no hyphen at the start when it continues a
    run. *)
Lemma sub_non_slug_shape (in_run : bool) (s : pystr) :
  Forall (fun c => slug_char c = true \/ c = 45%N) (sub_non_slug in_run s)
  /\ Py.contains (sub_non_slug in_run s) [45; 45]%N = false
  /\ (in_run = true -> Py.startswith (sub_non_slug in_run s) [45%N] = false).
Proof.
  revert in_run. induction s as [|c s IH]; intros in_run.
  - split; [constructor|split; [reflexivity|intros _; reflexivity]].
  - cbn [sub_non_slug]. destruct (slug_char c) eqn:Hc.
    + destruct (IH false) as (Hall & Hno & _).
      assert (Hne : (45 =? c)%N = false).
      { apply N.eqb_neq. intros <-. discriminate. }
      split; [|split].
      * constructor; [now left|exact Hall].
      * cbn [Py.contains Py.startswith]. now rewrite Hne, Hno.
      * intros _. cbn [Py.startswith]. now rewrite Hne.
    + destruct (IH true) as (Hall & Hno & Hhead). specialize (Hhead eq_refl).
      destruct in_run.
      * split; [exact Hall|split; [exact Hno|intros _; exact Hhead]].
      * split; [constructor; [now right|exact Hall]|split; [|discriminate]].
        cbn [Py.contains Py.startswith]. rewrite N.eqb_refl. cbn [andb].
        now rewrite Hhead, Hno.
Qed.

Lemma lstrip_char_split (ch : N) (s : pystr) :
  exists pre, s = pre ++ Py.lstrip_char ch s
    /\ Py.startswith (Py.lstrip_char ch s) [ch] = false.
Proof.
  induction s as [|c s (pre & Hs & Hh)]; cbn [Py.lstrip_char].
  - now exists [].
  - destruct (N.eqb_spec c ch) as [->|Hne].
    + exists (ch :: pre). split; [cbn; now rewrite <- Hs|exact Hh].
    + exists []. split; [reflexivity|]. cbn [Py.startswith].
      destruct (N.eqb_spec ch c) as [->|_]; [congruence|reflexivity].
Qed.

(** [s.strip('-')] is a piece of [s] that neither starts nor ends with a
    hyphen. *)
Lemma strip_char_split (ch : N) (s : pystr) :
  (exists pre post, s = pre ++ Py.strip_char ch s ++ post)
  /\ Py.startswith (Py.strip_char ch s) [ch] = false
  /\ Py.endswith (Py.strip_char ch s) [ch] = false.
Proof.
  unfold Py.strip_char, Py.endswith.
  destruct (lstrip_char_split ch s) as (pre & Hs & Hh).
  set (u := Py.lstrip_char ch s) in *.
  destruct (lstrip_char_split ch (rev u)) as (post & Hu & Ht).
  set (v := Py.lstrip_char ch (rev u)) in *.
  assert (Hu' : u = rev v ++ rev post).
  { rewrite <- (rev_involutive u), Hu. apply rev_app_distr. }
  split; [|split].
  - exists pre, (rev post). now rewrite Hs, Hu'.
  - destruct (rev v) as [|x w] eqn:Hv; [reflexivity|].
    rewrite Hu' in Hh. cbn [app Py.startswith] in Hh |- *.
    rewrite startswith_nil in Hh |- *.
    destruct (ch =? x)%N; [discriminate Hh|reflexivity].
  - rewrite rev_involutive. exact Ht.
Qed.

Variable lower : pystr -> pystr.

(** X6: the identifier is a slug, a hyphen and the first eight characters of
    the UUID; the slug holds only the characters [a]-[z], [0]-[9] and the
    hyphen, does not start or end with a hyphen and has no two hyphens in
    a row. *)
Theorem generate_id_slug (uuid4 name : pystr) :
  exists slug,
    _generate_id lower uuid4 name = slug ++ Py.str "-" ++ take 8 uuid4
    /\ Forall (fun c => slug_char c = true \/ c = 45%N) slug
    /\ Py.startswith slug (Py.str "-") = false
    /\ Py.endswith slug (Py.str "-") = false
    /\ Py.contains slug (Py.str "--") = false.
Proof.
  exists (Py.strip_char 45 (sub_non_slug false (lower name))).
  split; [reflexivity|].
  destruct (sub_non_slug_shape false (lower name)) as (Hall & Hno & _).
  destruct (strip_char_split 45 (sub_non_slug false (lower name)))
    as ((pre & post & Hs) & Hh & Ht).
  set (t := sub_non_slug false (lower name)) in *.
  set (slug := Py.strip_char 45 t) in *.
  split; [|split; [exact Hh|split; [exact Ht|]]].
  - rewrite Hs in Hall. apply Forall_app in Hall as [_ Hall].
    now apply Forall_app in Hall as [Hall _].
  - destruct (Py.contains slug (Py.str "--")) eqn:Hc; [|reflexivity].
    apply contains_spec in Hc as (a & b & Hab).
    assert (Py.contains t [45; 45]%N = true) as Hbad; [|congruence].
    apply contains_spec. exists (pre ++ a), (b ++ post).
    rewrite Hs, Hab. change (Py.str "--") with [45; 45]%N.
    now rewrite <- !app_assoc.
Qed.

End ProductId.

(** ** The first numeral of a text *)

Section FirstNumeral.

Import Re.

Lemma take_digits_run (ds : pystr) (vs : list N) (rest : pystr) :
  digits_of ds vs -> no_digit_ahead rest -> take_digits (ds ++ rest) = (vs, rest).
Proof.
  intros Hds Hrest. induction Hds as [|c v ds vs Hc _ IH].
  - destruct rest as [|c r]; [reflexivity|]. cbn [app take_digits].
    unfold no_digit_ahead in Hrest. now rewrite Hrest.
  - cbn [app take_digits]. now rewrite Hc, IH.
Qed.

Lemma digits_of_head (ds : pystr) (vs : list N) :
  digits_of ds vs -> ds <> [] ->
  exists c ds' v vs', ds = c :: ds' /\ vs = v :: vs' /\ Py.decimal c = Some v.
Proof.
  intros H Hne. destruct H as [|c v ds' vs' Hc _]; [congruence|].
  now exists c, ds', v, vs'.
Qed.

Lemma search_number_run (pre ds : pystr) (vs : list N) (rest : pystr) :
  digitless pre -> digits_of ds vs -> ds <> [] -> no_digit_ahead rest ->
  search_number (pre ++ ds ++ rest) =
    Some (vs, match rest with
              | c :: r => if (c =? 46)%N then fst (take_digits r) else []
              | [] => []
              end).
Proof.
  intros Hpre Hds Hne Hrest.
  destruct (digits_of_head ds vs Hds Hne) as (c & ds' & v & vs' & -> & -> & Hc).
  cbn [app]. rewrite search_number_leftmost by (eauto using mk_is_Some).
  unfold match_number.
  change (c :: ds' ++ rest) with ((c :: ds') ++ rest).
  rewrite (take_digits_run _ _ rest Hds Hrest).
  destruct rest as [|x r]; [reflexivity|]. now destruct (x =? 46)%N.
Qed.

Variable str_other : pyval -> pystr.

(** X7: the extraction reads the first numeral of the text and nothing after
    it: after a text without digits, a run of digits followed by a point
    and a second run gives the decimal number they write, and a run of
    digits followed by anything else gives the integer; what comes after
    the numeral plays no part. *)
Theorem extraction_reads_first_numeral (pre ds : pystr) (vs : list N) :
  digitless pre -> digits_of ds vs -> ds <> [] ->
  (forall fs ws tail,
     digits_of fs ws -> no_digit_ahead tail ->
     ProductParserAgent._extract_concentration str_other
       (VStr (pre ++ ds ++ 46%N :: fs ++ tail))
       = Ok (float_of_match (vs, ws)))
  /\ (forall c tail,
       Py.decimal c = None -> c <> 46%N ->
       ProductParserAgent._extract_concentration str_other (VStr (pre ++ ds ++ c :: tail))
         = Ok (float_of_match (vs, [])))
  /\ ProductParserAgent._extract_concentration str_other (VStr (pre ++ ds))
       = Ok (float_of_match (vs, [])).
Proof.
  intros Hpre Hds Hne.
  unfold ProductParserAgent._extract_concentration, ProductParserAgent.str_of.
  split; [|split].
  - intros fs ws tail Hfs Htail.
    rewrite (search_number_run pre ds vs (46%N :: fs ++ tail) Hpre Hds Hne eq_refl).
    rewrite N.eqb_refl, (take_digits_run fs ws tail Hfs Htail). reflexivity.
  - intros c tail Hc H46.
    rewrite (search_number_run pre ds vs (c :: tail) Hpre Hds Hne Hc).
    now rewrite (proj2 (N.eqb_neq c 46) H46).
  - rewrite <- (app_nil_r ds) at 1.
    now rewrite (search_number_run pre ds vs [] Hpre Hds Hne I).
Qed.

Lemma sub_currency_drops (a b : pystr) (c : N) :
  currency_or_space c = true -> sub_currency (a ++ c :: b) = sub_currency (a ++ b).
Proof.
  intros Hc. unfold sub_currency. rewrite !filter_app, filter_cons.
  destruct (decide (currency_or_space c = false)); [congruence|reflexivity].
Qed.

(** X8: the price extraction does not see a currency symbol, a comma or a
    whitespace character, wherever it stands in the text (a decimal comma
    is lost like a thousands separator); the extraction of the comparison
    engine reads every text as the parser's does. *)
Theorem price_ignores_separators (a b : pystr) (c : N) :
  currency_or_space c = true ->
  ProductParserAgent._extract_price str_other (VStr (a ++ c :: b))
    = ProductParserAgent._extract_price str_other (VStr (a ++ b))
  /\ comparison._extract_price (VStr (a ++ c :: b))
    = comparison._extract_price (VStr (a ++ b))
  /\ forall s, comparison._extract_price (VStr s)
               = ProductParserAgent._extract_price str_other (VStr s).
Proof.
  intros Hc.
  unfold ProductParserAgent._extract_price, comparison._extract_price,
    ProductParserAgent.str_of.
  rewrite (sub_currency_drops a b c Hc). repeat split.
Qed.

End FirstNumeral.

(** ** The comparison engine: sets, symmetry and errors *)

Section ComparisonSymmetry.

Import comparison.

Variable lower : pystr -> pystr.
Variable repr_float : float -> pystr.

Lemma float_ltb_irrefl (p : float) : PrimFloat.ltb p p = false.
Proof.
  destruct (PrimFloat.ltb p p) eqn:H; [|reflexivity].
  now rewrite (float_ltb_asym p p H) in H.
Qed.

Lemma lowered_nil (items : list pystr) : lowered lower items = ∅ <-> items = [].
Proof.
  unfold lowered. split; [|now intros ->].
  destruct items as [|x items]; [reflexivity|]. simpl. intros H.
  exfalso. apply (not_elem_of_empty (C := gset pystr) (lower x)).
  rewrite <- H. set_solver.
Qed.

(** A comparison returns exactly when both prices are extracted. *)
Lemma compare_products_inv (a b : product) (r : comparison) :
  compare_products lower repr_float a b = Ok r ->
  exists pa pb,
    _extract_price (default (VInt 0) (price a)) = Ok pa
    /\ _extract_price (default (VInt 0) (price b)) = Ok pb
    /\ cheaper_option (d_price (c_dimensions r)) =
         (if PrimFloat.ltb pa pb then Some product_a
          else if PrimFloat.ltb pb pa then Some product_b
          else None)
    /\ c_scores r = _calculate_scores (_compare_ingredients lower a b)
                      (_compare_benefits lower a b) (d_price (c_dimensions r))
    /\ d_ingredients (c_dimensions r) = _compare_ingredients lower a b
    /\ d_benefits (c_dimensions r) = _compare_benefits lower a b
    /\ d_skin_type (c_dimensions r) = _compare_skin_types lower a b.
Proof.
  unfold compare_products, _compare_price.
  destruct (_extract_price (default (VInt 0) (price a))) as [pa|e]; [|discriminate].
  destruct (_extract_price (default (VInt 0) (price b))) as [pb|e]; [|discriminate].
  simpl. intros H. injection H as <-. exists pa, pb. simpl. repeat split.
Qed.

Lemma compare_products_at (a b : product) (pa pb : float) :
  _extract_price (default (VInt 0) (price a)) = Ok pa ->
  _extract_price (default (VInt 0) (price b)) = Ok pb ->
  exists r, compare_products lower repr_float a b = Ok r.
Proof.
  intros Ha Hb. unfold compare_products, _compare_price. rewrite Ha, Hb. simpl. eauto.
Qed.

(** X9: the three sets of the ingredient and of the benefit dimension split
    the lower-cased entries of the two products: they are pairwise
    disjoint, the common set with the unique set of a side is that side's
    set, and without a common entry a side's unique set is empty only if
    that product lists nothing. *)
Theorem compared_sets_partition (a b : product) :
  let i := _compare_ingredients lower a b in
  let n := _compare_benefits lower a b in
  (common_ingredients i ## i_unique_to_a i
   /\ common_ingredients i ## i_unique_to_b i
   /\ i_unique_to_a i ## i_unique_to_b i
   /\ common_ingredients i ∪ i_unique_to_a i = lowered lower (default [] (ingredients a))
   /\ common_ingredients i ∪ i_unique_to_b i = lowered lower (default [] (ingredients b))
   /\ (common_ingredients i = ∅ ->
       (i_unique_to_a i = ∅ <-> default [] (ingredients a) = [])
       /\ (i_unique_to_b i = ∅ <-> default [] (ingredients b) = [])))
  /\ (common_benefits n ## b_unique_to_a n
      /\ common_benefits n ## b_unique_to_b n
      /\ b_unique_to_a n ## b_unique_to_b n
      /\ common_benefits n ∪ b_unique_to_a n = lowered lower (default [] (benefits a))
      /\ common_benefits n ∪ b_unique_to_b n = lowered lower (default [] (benefits b))
      /\ (common_benefits n = ∅ ->
          (b_unique_to_a n = ∅ <-> default [] (benefits a) = [])
          /\ (b_unique_to_b n = ∅ <-> default [] (benefits b) = []))).
Proof.
  assert (Hsets : forall X Y : gset pystr,
    X ∩ Y ## X ∖ Y /\ X ∩ Y ## Y ∖ X /\ X ∖ Y ## Y ∖ X
    /\ X ∩ Y ∪ X ∖ Y = X /\ X ∩ Y ∪ Y ∖ X = Y
    /\ (X ∩ Y = ∅ -> (X ∖ Y = ∅ <-> X = ∅) /\ (Y ∖ X = ∅ <-> Y = ∅))).
  { intros X Y.
    split; [set_solver|]. split; [set_solver|]. split; [set_solver|].
    split; [apply set_eq; intros x; destruct (decide (x ∈ Y)); set_solver|].
    split; [apply set_eq; intros x; destruct (decide (x ∈ X)); set_solver|].
    intros H0. split; split; set_solver. }
  simpl. split.
  - destruct (Hsets (lowered lower (default [] (ingredients a)))
                    (lowered lower (default [] (ingredients b))))
      as (H1 & H2 & H3 & H4 & H5 & H6).
    repeat (split; [assumption|]). intros H0. destruct (H6 H0) as [Ha Hb].
    rewrite Ha, Hb, !lowered_nil. split; reflexivity.
  - destruct (Hsets (lowered lower (default [] (benefits a)))
                    (lowered lower (default [] (benefits b))))
      as (H1 & H2 & H3 & H4 & H5 & H6).
    repeat (split; [assumption|]). intros H0. destruct (H6 H0) as [Ha Hb].
    rewrite Ha, Hb, !lowered_nil. split; reflexivity.
Qed.

(** X10: comparing the two products the other way round exchanges the sides:
    the two scores, the winner, the cheaper option and the two unique sets
    of each dimension change places, and the common sets are the same. *)
Theorem compare_products_swap (a b : product) (r : comparison) :
  compare_products lower repr_float a b = Ok r ->
  exists r', compare_products lower repr_float b a = Ok r'
    /\ product_a_score (c_scores r') = product_b_score (c_scores r)
    /\ product_b_score (c_scores r') = product_a_score (c_scores r)
    /\ winner (c_scores r') =
         match winner (c_scores r) with
         | winner_is product_a => winner_is product_b
         | winner_is product_b => winner_is product_a
         | tie => tie
         end
    /\ cheaper_option (d_price (c_dimensions r')) =
         match cheaper_option (d_price (c_dimensions r)) with
         | Some product_a => Some product_b
         | Some product_b => Some product_a
         | None => None
         end
    /\ common_ingredients (d_ingredients (c_dimensions r'))
         = common_ingredients (d_ingredients (c_dimensions r))
    /\ i_unique_to_a (d_ingredients (c_dimensions r'))
         = i_unique_to_b (d_ingredients (c_dimensions r))
    /\ i_unique_to_b (d_ingredients (c_dimensions r'))
         = i_unique_to_a (d_ingredients (c_dimensions r))
    /\ common_benefits (d_benefits (c_dimensions r'))
         = common_benefits (d_benefits (c_dimensions r))
    /\ b_unique_to_a (d_benefits (c_dimensions r'))
         = b_unique_to_b (d_benefits (c_dimensions r))
    /\ b_unique_to_b (d_benefits (c_dimensions r'))
         = b_unique_to_a (d_benefits (c_dimensions r))
    /\ common_skin_types (d_skin_type (c_dimensions r'))
         = common_skin_types (d_skin_type (c_dimensions r)).
Proof.
  intros H.
  destruct (compare_products_inv a b r H) as (pa & pb & Ha & Hb & Hc & Hs & Hi & Hn & Hk).
  destruct (compare_products_at b a pb pa Hb Ha) as (r' & Hr').
  destruct (compare_products_inv b a r' Hr')
    as (pb' & pa' & Hb' & Ha' & Hc' & Hs' & Hi' & Hn' & Hk').
  rewrite Hb in Hb'. injection Hb' as <-. rewrite Ha in Ha'. injection Ha' as <-.
  exists r'. split; [exact Hr'|].
  assert (Hcheap : cheaper_option (d_price (c_dimensions r')) =
    match cheaper_option (d_price (c_dimensions r)) with
    | Some product_a => Some product_b
    | Some product_b => Some product_a
    | None => None
    end).
  { rewrite Hc, Hc'. pose proof (float_ltb_asym pa pb) as Hp.
    destruct (PrimFloat.ltb pa pb); [now rewrite (Hp eq_refl)|].
    now destruct (PrimFloat.ltb pb pa). }
  rewrite Hs, Hs', Hi, Hi', Hn, Hn', Hk, Hk'.
  unfold _calculate_scores. rewrite Hcheap.
  cbn [i_product_a i_product_b b_product_a b_product_b is_count bs_count
       _compare_ingredients _compare_benefits _compare_skin_types
       common_ingredients i_unique_to_a i_unique_to_b
       common_benefits b_unique_to_a b_unique_to_b common_skin_types].
  set (ia := Z.of_nat (length (default [] (ingredients a)))).
  set (ib := Z.of_nat (length (default [] (ingredients b)))).
  set (ba := Z.of_nat (length (default [] (benefits a)))).
  set (bb := Z.of_nat (length (default [] (benefits b)))).
  assert (Hgi : (ia >? ib) = true -> (ib >? ia) = false) by lia.
  assert (Hgb : (ba >? bb) = true -> (bb >? ba) = false) by lia.
  repeat split; try (apply set_eq; intros x; set_solver);
    (destruct (ia >? ib); [rewrite (Hgi eq_refl)|destruct (ib >? ia)]);
    (destruct (ba >? bb); [rewrite (Hgb eq_refl)|destruct (bb >? ba)]);
    destruct (cheaper_option (d_price (c_dimensions r))) as [[]|]; reflexivity.
Qed.

(** X11: a product compared with itself is a tie at 0 to 0: no side is
    cheaper, nothing is unique to a side and the common sets are the
    product's own. *)
Theorem compare_products_self (a : product) (r : comparison) :
  compare_products lower repr_float a a = Ok r ->
  product_a_score (c_scores r) = 0
  /\ product_b_score (c_scores r) = 0
  /\ winner (c_scores r) = tie
  /\ cheaper_option (d_price (c_dimensions r)) = None
  /\ i_unique_to_a (d_ingredients (c_dimensions r)) = ∅
  /\ i_unique_to_b (d_ingredients (c_dimensions r)) = ∅
  /\ common_ingredients (d_ingredients (c_dimensions r))
       = lowered lower (default [] (ingredients a))
  /\ b_unique_to_a (d_benefits (c_dimensions r)) = ∅
  /\ b_unique_to_b (d_benefits (c_dimensions r)) = ∅
  /\ common_benefits (d_benefits (c_dimensions r))
       = lowered lower (default [] (benefits a)).
Proof.
  intros H.
  destruct (compare_products_inv a a r H) as (pa & pb & Ha & Hb & Hc & Hs & Hi & Hn & _).
  rewrite Ha in Hb. injection Hb as <-.
  rewrite float_ltb_irrefl in Hc.
  rewrite Hs, Hi, Hn. unfold _calculate_scores. rewrite Hc.
  cbn [i_product_a i_product_b b_product_a b_product_b is_count bs_count
       _compare_ingredients _compare_benefits
       common_ingredients i_unique_to_a i_unique_to_b
       common_benefits b_unique_to_a b_unique_to_b].
  rewrite !Z.gtb_ltb, !Z.ltb_irrefl.
  repeat split; try reflexivity; apply set_eq; intros x; set_solver.
Qed.

(** X12: the one error of a comparison: it raises exactly when a price is an
    [int] beyond the range of [float], with the [OverflowError] of the
    conversion (of product A's price first); on every other pair of
    products it returns. *)
Theorem compare_products_overflow_only (a b : product) :
  let too_large (p : product) :=
    exists z, price p = Some (VInt z) /\ is_infinity (PyFloat.of_Z z) = true in
  let overflow := Exn OverflowError (Py.str "int too large to convert to float") in
  (too_large a \/ too_large b ->
   compare_products lower repr_float a b = Raise overflow)
  /\ (~ too_large a -> ~ too_large b ->
      exists r, compare_products lower repr_float a b = Ok r).
Proof.
  intros too_large overflow.
  assert (Hex : forall p,
    (too_large p /\ _extract_price (default (VInt 0) (price p)) = Raise overflow)
    \/ (~ too_large p /\ exists f, _extract_price (default (VInt 0) (price p)) = Ok f)).
  { intros p. unfold too_large.
    destruct (price p) as [v|] eqn:Hp; simpl.
    - destruct v as [ |c|z|f|s|l|d]; simpl.
      + right. split; [intros (z0 & Hz & _); discriminate | eauto].
      + right. split; [intros (z0 & Hz & _); discriminate | eauto].
      + unfold PyFloat.float_of_int.
        destruct (is_infinity (PyFloat.of_Z z)) eqn:Hz.
        * left. split; [eauto|reflexivity].
        * right. split; [|eauto].
          intros (z0 & Hz0 & Hi). injection Hz0 as <-. congruence.
      + right. split; [intros (z0 & Hz & _); discriminate | eauto].
      + right. split; [intros (z0 & Hz & _); discriminate|].
        destruct (Re.search_number (Re.sub_currency s)); eauto.
      + right. split; [intros (z0 & Hz & _); discriminate | eauto].
      + right. split; [intros (z0 & Hz & _); discriminate | eauto].
    - right. split; [intros (z0 & Hz & _); discriminate|].
      exists 0%float. reflexivity. }
  unfold compare_products, _compare_price.
  destruct (Hex a) as [[Ta Ea]|[Ta [pa Ea]]], (Hex b) as [[Tb Eb]|[Tb [pb Eb]]];
    rewrite Ea, Eb; simpl; split; try tauto; eauto.
Qed.

End ComparisonSymmetry.

(** ** The safety block: warnings, precautions and parsed effects *)

Section SafetyBlock.

Import safety.

Variable lower : pystr -> pystr.

Lemma flat_map_filter {A B} (p : A -> bool) (g : A -> B) (l : list A) :
  flat_map (fun x => if p x then [g x] else []) l
  = map g (filter (fun x => p x = true) l).
Proof.
  induction l as [|x l IH]; [reflexivity|].
  cbn [flat_map]. rewrite filter_cons, IH.
  destruct (p x); [|reflexivity].
  destruct (decide (true = true)); [reflexivity|congruence].
Qed.

(** X13: the details of the side effects are empty only for an empty text
    and never more than eight. For a text that is not empty they are one
    detail for every known effect whose keyword the lower-cased text
    contains, in the order of the keywords, all with the same likelihood:
    [possible] if the text says [mild] and [common] if not; and when the
    text names no known effect, they are the text itself as the one
    detail, [as described]. *)
Theorem side_effect_details (text : pystr) :
  let details := _parse_side_effects lower text in
  let named :=
    filter (fun kn : pystr * pystr => Py.contains (lower text) (fst kn) = true)
           effect_keywords in
  let rating :=
    if Py.contains (lower text) (Py.str "mild")
    then Py.str "possible" else Py.str "common" in
  (details = [] <-> text = [])
  /\ (length details <= 8)%nat
  /\ (text <> [] -> named <> [] ->
      details = map (fun kn => {| effect_name := snd kn; likelihood := rating |}) named)
  /\ (text <> [] -> named = [] ->
      details = [ {| effect_name := text; likelihood := Py.str "as described" |} ])
  /\ (forall keyword name,
        text <> [] -> In (keyword, name) effect_keywords ->
        Py.contains (lower text) keyword = true ->
        In {| effect_name := name; likelihood := rating |} details).
Proof.
  intros details named rating.
  assert (Hnamed : (length named <= 8)%nat).
  { unfold named. etransitivity; [apply length_filter|]. reflexivity. }
  unfold details, _parse_side_effects. destruct text as [|c text].
  { split; [tauto|]. split; [simpl; lia|]. repeat split; intros; congruence. }
  set (s := c :: text) in *.
  rewrite (flat_map_filter (fun kn => Py.contains (lower s) (fst kn))
             (fun kn => {| effect_name := snd kn; likelihood := rating |})).
  fold named.
  destruct named as [|kn0 named'] eqn:Hn.
  - cbn [map]. split; [split; discriminate|]. split; [simpl; lia|].
    split; [congruence|]. split; [reflexivity|].
    intros keyword name _ Hin Hc. exfalso.
    assert (Hmem : (keyword, name) ∈ filter
              (fun kn : pystr * pystr => Py.contains (lower s) (fst kn) = true)
              effect_keywords).
    { apply list_elem_of_filter. split; [exact Hc|now apply list_elem_of_In]. }
    fold named in Hmem. rewrite Hn in Hmem. inversion Hmem.
  - cbn [map]. split; [split; discriminate|].
    split; [rewrite <- (length_map (fun kn => {| effect_name := snd kn; likelihood := rating |}))
              in Hnamed; exact Hnamed|].
    split; [reflexivity|]. split; [congruence|].
    intros keyword name _ Hin Hc.
    apply (in_map (fun kn => {| effect_name := snd kn; likelihood := rating |})
             (kn0 :: named') (keyword, name)).
    rewrite <- Hn. apply list_elem_of_In, list_elem_of_filter.
    split; [exact Hc|now apply list_elem_of_In].
Qed.

(** X14: the warnings are never empty and at most five; the general warning
    stands only alone, when no rule on the ingredients applies. The
    precautions always end with the four general ones, after at most the
    one on sensitive skin. *)
Theorem safety_warnings_and_precautions (p : product) :
  let block := generate_safety lower p in
  let general := Py.str "Discontinue use if irritation occurs." in
  warnings block <> []
  /\ (length (warnings block) <= 5)%nat
  /\ (In general (warnings block) -> warnings block = [general])
  /\ exists sensitive,
       precautions block = sensitive ++
         [Py.str "For external use only.";
          Py.str "Avoid contact with eyes.";
          Py.str "Keep out of reach of children.";
          Py.str "Store in a cool, dry place away from direct sunlight."]
       /\ (sensitive = []
           \/ sensitive =
                [Py.str "Those with sensitive skin should perform a patch test first."]).
Proof.
  unfold generate_safety.
  cbn [warnings precautions].
  set (ingredients := default [] (safety.ingredients p)).
  set (concentration := default (NInt 0) (safety.concentration p)).
  split; [|split; [|split]].
  - unfold _generate_warnings.
    destruct (existsb (fun ing => Py.contains (lower ing) (Py.str "vitamin c")) ingredients),
      (num_gt concentration 15), (any_in _ (lower (Py.join (Py.str " ") ingredients))),
      (existsb (fun ing => Py.contains (lower ing) (Py.str "retinol")
                           || Py.contains (lower ing) (Py.str "retinoid")) ingredients);
      discriminate.
  - unfold _generate_warnings.
    destruct (existsb (fun ing => Py.contains (lower ing) (Py.str "vitamin c")) ingredients),
      (num_gt concentration 15), (any_in _ (lower (Py.join (Py.str " ") ingredients))),
      (existsb (fun ing => Py.contains (lower ing) (Py.str "retinol")
                           || Py.contains (lower ing) (Py.str "retinoid")) ingredients);
      cbn [app length]; lia.
  - unfold _generate_warnings.
    destruct (existsb (fun ing => Py.contains (lower ing) (Py.str "vitamin c")) ingredients),
      (num_gt concentration 15), (any_in _ (lower (Py.join (Py.str " ") ingredients))),
      (existsb (fun ing => Py.contains (lower ing) (Py.str "retinol")
                           || Py.contains (lower ing) (Py.str "retinoid")) ingredients);
      intros H;
      first [ exfalso; cbn [app In] in H;
              repeat (destruct H as [H|H];
                      [ apply (f_equal (hd 0%N)) in H; vm_compute in H; discriminate | ]);
              exact H
            | reflexivity ].
  - unfold _generate_precautions.
    destruct (Py.contains _ _); eexists; (split; [reflexivity|]); [right|left]; reflexivity.
Qed.

(** X15: the rating and the advice read the side-effects text separately: a
    text that says [severe] is rated [high] and advises a consultation,
    while a text that says [serious] and none of the five terms of the
    advice is rated [high] without advising one. *)
Theorem severity_and_consultation (p : product) (text : pystr) :
  side_effects p = Some text -> text <> [] ->
  let block := generate_safety lower p in
  (Py.contains (lower text) (Py.str "severe") = true ->
   severity (sb_side_effects block) = Py.str "high"
   /\ consultation_advised block = true)
  /\ (Py.contains (lower text) (Py.str "serious") = true ->
      any_in [Py.str "severe"; Py.str "allergic"; Py.str "reaction";
              Py.str "medical"; Py.str "condition"] (lower text) = false ->
      severity (sb_side_effects block) = Py.str "high"
      /\ consultation_advised block = false).
Proof.
  intros Hp Hne. unfold generate_safety. rewrite Hp.
  cbn [severity sb_side_effects consultation_advised default from_option id].
  unfold _assess_severity, _should_consult_dermatologist.
  destruct text as [|c text]; [congruence|]. split.
  - intros Hs. unfold any_in. cbn [existsb]. rewrite Hs. split; reflexivity.
  - intros Hs Hnone. rewrite Hnone. split; [|reflexivity].
    unfold any_in. cbn [existsb]. rewrite Hs.
    now destruct (Py.contains (lower (c :: text)) (Py.str "severe")).
Qed.

End SafetyBlock.

(** ** The selection of FAQ questions on any set of questions *)

Section SelectionInGeneral.

Import FAQPageAgent.

Implicit Types (selected : list selected_question) (qs : gmap pystr (list pystr)).

Lemma first_pass_spec (cats : list pystr) qs selected :
  first_pass cats qs selected = selected ++ first_questions cats qs.
Proof.
  revert selected. induction cats as [|c cats IH]; intros selected; simpl.
  - now rewrite app_nil_r.
  - destruct (qs !! c) as [[|q l]|]; simpl; rewrite IH; [reflexivity| |reflexivity].
    now rewrite <- app_assoc.
Qed.

Lemma first_questions_length (cats : list pystr) qs :
  (length (first_questions cats qs) <= length cats)%nat.
Proof.
  induction cats as [|c cats IH]; simpl; [lia|].
  rewrite length_app. destruct (qs !! c) as [[|q l]|]; simpl; lia.
Qed.

Lemma first_questions_sound (cats : list pystr) qs (e : selected_question) :
  In e (first_questions cats qs) ->
  In (category e) cats /\ exists l, qs !! category e = Some l /\ head l = Some (question e).
Proof.
  unfold first_questions. intros H. apply in_flat_map in H as (c & Hc & He).
  destruct (qs !! c) as [[|q l]|] eqn:Hq; try destruct He as [<-|[]]; try destruct He.
  simpl. split; [exact Hc|]. exists (q :: l). now split.
Qed.

Lemma later_questions_sound (cats : list pystr) qs (e : selected_question) :
  In e (later_questions cats qs) ->
  In (category e) cats /\ exists l, qs !! category e = Some l /\ In (question e) (drop 1 l).
Proof.
  unfold later_questions. intros H. apply in_flat_map in H as (c & Hc & He).
  apply in_map_iff in He as (q & <- & Hq). simpl. split; [exact Hc|].
  destruct (qs !! c) as [l|] eqn:Hl; simpl in Hq.
  - exists l. now split.
  - destruct Hq.
Qed.

Lemma prefix_In {A} (l1 l2 : list A) (x : A) : l1 `prefix_of` l2 -> In x l1 -> In x l2.
Proof. intros [k ->] H. apply in_or_app. now left. Qed.

(** The number of questions the set holds under the categories. *)
Lemma selection_of_all_length (cats : list pystr) qs :
  length (first_questions cats qs ++ later_questions cats qs)
  = list_sum (map (fun c => length (default [] (qs !! c))) cats).
Proof.
  rewrite length_app. unfold first_questions, later_questions.
  induction cats as [|c cats IH]; [reflexivity|].
  cbn [flat_map map list_sum]. rewrite !length_app, length_map.
  unfold list_sum in *.
  destruct (qs !! c) as [[|q l]|];
    cbn [default from_option id drop length fold_right]; rewrite ?drop_0; lia.
Qed.

Lemma select_questions_split (min_faqs : Z) qs :
  exists backfill,
    _select_questions min_faqs qs = first_questions category_priority qs ++ backfill
    /\ backfill `prefix_of` later_questions category_priority qs
    /\ Z.of_nat (length (_select_questions min_faqs qs)) <= Z.max 5 (min_faqs + 2)
    /\ (backfill = later_questions category_priority qs
        \/ Z.of_nat (length (_select_questions min_faqs qs)) >= min_faqs).
Proof.
  unfold _select_questions. rewrite first_pass_spec. cbn [app].
  set (firsts := first_questions category_priority qs).
  destruct (second_pass_spec min_faqs category_priority qs firsts)
    as (bf & Hbf & Hpre & Hlen).
  pose proof (first_questions_length category_priority qs) as Hfl.
  change (length category_priority) with 5%nat in Hfl. fold firsts in Hfl.
  exists bf. split; [exact Hbf|]. split; [exact Hpre|]. split.
  - rewrite Hbf. lia.
  - destruct (second_pass_complete min_faqs category_priority qs firsts) as [Hall|Hge];
      [left|right; exact Hge].
    rewrite Hbf in Hall. now apply app_inv_head in Hall.
Qed.

(** X16: on any set of questions the selection is the first question of every
    category that has one, in the priority order, followed by a backfill
    that is a prefix of the later questions of the categories in that
    order. It has at most [min_faqs + 2] entries (five when that is less);
    it is shorter than [min_faqs] only when every question of the five
    categories is selected; and every entry is a question the set holds
    under the entry's category, one of the five. *)
Theorem select_questions_structure (min_faqs : Z) qs :
  exists backfill,
    _select_questions min_faqs qs = first_questions category_priority qs ++ backfill
    /\ backfill `prefix_of` later_questions category_priority qs
    /\ Z.of_nat (length (_select_questions min_faqs qs)) <= Z.max 5 (min_faqs + 2)
    /\ (Z.of_nat (length (_select_questions min_faqs qs)) < min_faqs ->
        backfill = later_questions category_priority qs)
    /\ Forall (fun e =>
         In (category e) category_priority
         /\ exists l, qs !! category e = Some l /\ In (question e) l)
         (_select_questions min_faqs qs).
Proof.
  destruct (select_questions_split min_faqs qs) as (bf & Hbf & Hpre & Hlen & Hall).
  exists bf. split; [exact Hbf|]. split; [exact Hpre|]. split; [exact Hlen|]. split.
  - intros Hshort. destruct Hall as [Hall|Hge]; [exact Hall|lia].
  - rewrite Hbf. apply List.Forall_forall. intros e He.
    apply in_app_or in He as [He|He].
    + destruct (first_questions_sound _ _ _ He) as (Hc & l & Hl & Hh).
      split; [exact Hc|]. exists l. split; [exact Hl|].
      destruct l as [|q l]; [discriminate|]. injection Hh as ->. now left.
    + destruct (later_questions_sound _ _ _ (prefix_In _ _ _ Hpre He)) as (Hc & l & Hl & Hd).
      split; [exact Hc|]. exists l. split; [exact Hl|].
      destruct l as [|q l]; [destruct Hd|]. now right.
Qed.

(** X17: when the five categories together hold at least [min_faqs]
    questions, however they are spread over the categories, the selection
    has at least [min_faqs] entries and at most [min_faqs + 2] (five when
    that is less). *)
Theorem select_questions_reaches_minimum (min_faqs : Z) qs :
  min_faqs <= Z.of_nat
    (list_sum (map (fun c => length (default [] (qs !! c))) category_priority)) ->
  min_faqs <= Z.of_nat (length (_select_questions min_faqs qs)) <= Z.max 5 (min_faqs + 2).
Proof.
  intros Htotal.
  destruct (select_questions_split min_faqs qs) as (bf & Hbf & _ & Hlen & Hall).
  split; [|exact Hlen].
  destruct Hall as [->|Hge]; [|lia].
  rewrite Hbf, selection_of_all_length. exact Htotal.
Qed.

End SelectionInGeneral.

(** ** The outcome of a run and the files it leaves *)

Section RunOutcome.

Import Orchestrator.

Context {Product Questions Blocks Page : Type}.
Variable env : collaborators Product Questions Blocks Page.
Variables (dir input_path : pystr).

(** Runs the model, with the outcome of every call known, to its end. *)
Ltac run_to_end :=
  unfold run, try_except, _execute_stage, _stage_parse_product,
    _stage_generate_questions, _stage_prepare_content_blocks,
    _stage_load_templates, _stage_generate_faq, _stage_generate_product_page,
    _stage_generate_comparison, _write_outputs, write_output, _print_header,
    _print_stage, _print_success, _print_error, _print_summary, when_verbose,
    print, set_state, record_call, write_file, update, read, call, new,
    output_path, mbind, mret, act_bind, act_ret;
  cbn -[Py.str];
  repeat (match goal with Heq : _ = _ |- _ => rewrite Heq; cbn -[Py.str] end).

(** Splits on the outcome of the seven agents, of [mkdir] and of the three
    writes, up to the first that raises. *)
Ltac by_first_error tac :=
  unfold run_error, first_failure, write_failure;
  destruct (parser_parse env input_path) as [p|e1] eqn:H1; [|tac];
  destruct (question_generator_generate env (Some p)) as [q|e2] eqn:H2; [|tac];
  destruct (content_logic_get_all_blocks env (Some p)) as [b|e3] eqn:H3; [|tac];
  destruct (template_engine_list_templates env) as [t|e4] eqn:H4; [|tac];
  destruct (faq_generate env (Some p) (Some q)) as [f|e5] eqn:H5; [|tac];
  destruct (product_page_generate env (Some p)) as [pp|e6] eqn:H6; [|tac];
  destruct (comparison_generate env (Some p)) as [cp|e7] eqn:H7; [|tac];
  destruct (mkdir_error env) as [e8|] eqn:H8; [tac|];
  destruct (write_error env config.OUTPUT_FILES_faq) as [e9|] eqn:H9; [tac|];
  destruct (write_error env config.OUTPUT_FILES_product_page) as [e10|] eqn:H10; [tac|];
  destruct (write_error env config.OUTPUT_FILES_comparison_page) as [e11|] eqn:H11;
    tac.

Lemma run_end (is_verbose : bool) :
  let end_of_run := run env input_path (new is_verbose dir) in
  snd end_of_run =
    Ok (match run_error env input_path with
        | Some e => Failure (exn_msg e)
        | None =>
          Success (path_str env dir config.OUTPUT_FILES_faq)
                  (path_str env dir config.OUTPUT_FILES_product_page)
                  (path_str env dir config.OUTPUT_FILES_comparison_page)
                  (elapsed_seconds env)
        end)
  /\ error_lines (console (fst end_of_run)) =
       match run_error env input_path with
       | Some e => [exn_msg e]
       | None => []
       end
  /\ (is_verbose = false ->
      console (fst end_of_run) = map ErrorLine (error_lines (console (fst end_of_run)))).
Proof.
  by_first_error ltac:(destruct is_verbose; run_to_end;
                       (split; [reflexivity|]); (split; [reflexivity|]);
                       intros Hq; (discriminate Hq || reflexivity)).
Qed.

(** X18: a run never raises: whatever the agents and the file system do, it
    returns a result; the result is the failure with the text of the first
    exception of a stage, or else of writing the outputs, and the success
    with the paths of the three output files, as the path library renders
    them under the output directory, and the elapsed time when there is
    none.
    The console holds one error line on a failure and none on a success,
    and a quiet run prints nothing else. *)
Theorem run_outcome (is_verbose : bool) :
  let end_of_run := run env input_path (new is_verbose dir) in
  snd end_of_run =
    Ok (match run_error env input_path with
        | Some e => Failure (exn_msg e)
        | None =>
          Success (path_str env dir config.OUTPUT_FILES_faq)
                  (path_str env dir config.OUTPUT_FILES_product_page)
                  (path_str env dir config.OUTPUT_FILES_comparison_page)
                  (elapsed_seconds env)
        end)
  /\ error_lines (console (fst end_of_run)) =
       match run_error env input_path with
       | Some e => [exn_msg e]
       | None => []
       end
  /\ (is_verbose = false ->
      console (fst end_of_run) = map ErrorLine (error_lines (console (fst end_of_run)))).
Proof. exact (run_end is_verbose). Qed.


End RunOutcome.

(** ** The question generator *)

Lemma fill_categories_lookup (cats : list pystr) (d : list (pystr * pyval))
    (acc : gmap pystr pyval) (k : pystr) :
  QuestionGeneratorAgent.fill_categories cats d acc !! k =
    if bool_decide (k ∈ cats) then Some (dict_get k d (VList [])) else acc !! k.
Proof.
  revert acc. induction cats as [|c cats IH]; intros acc; cbn [QuestionGeneratorAgent.fill_categories].
  - rewrite bool_decide_eq_false_2 by set_solver. reflexivity.
  - rewrite IH. destruct (decide (k ∈ cats)) as [Hin|Hin].
    + rewrite !bool_decide_eq_true_2 by set_solver. reflexivity.
    + rewrite (bool_decide_eq_false_2 (k ∈ cats)) by exact Hin.
      destruct (decide (k = c)) as [->|Hne].
      * rewrite lookup_insert_eq, bool_decide_eq_true_2 by set_solver. reflexivity.
      * rewrite lookup_insert_ne by congruence.
        rewrite bool_decide_eq_false_2 by set_solver. reflexivity.
Qed.

Section ParsedQuestions.

Import QuestionGeneratorAgent.

Variable json_loads : pystr -> pyval + pystr.

Lemma parse_response_inv (response : pystr) (questions : gmap pystr pyval) :
  _parse_response json_loads response = Ok questions ->
  exists d,
    json_loads (Py.strip (Envelope.strip_code_fences response)) = inl (VDict d)
    /\ questions = fill_categories config.QUESTION_CATEGORIES d ∅.
Proof.
  unfold _parse_response.
  destruct (json_loads _) as [[ | | | | | |d]|e]; try discriminate.
  intros H. injection H as <-. now exists d.
Qed.

(** X20: the parsed questions have the five categories as their keys and no
    other: a category the response leaves out stands with the empty list,
    a category it has stands with its value as it is, whatever that is,
    and any other key of the response is dropped. *)
Theorem parsed_questions_categories (response : pystr) (questions : gmap pystr pyval) :
  _parse_response json_loads response = Ok questions ->
  exists d,
    json_loads (Py.strip (Envelope.strip_code_fences response)) = inl (VDict d)
    /\ forall k,
         questions !! k =
           if bool_decide (k ∈ config.QUESTION_CATEGORIES)
           then Some (dict_get k d (VList [])) else None.
Proof.
  intros H. destruct (parse_response_inv response questions H) as (d & Hd & ->).
  exists d. split; [exact Hd|]. intros k. now rewrite fill_categories_lookup.
Qed.

Lemma validate_questions_total (questions : list (pystr * pyval)) :
  _validate_questions questions = Ok tt <->
  exists total, sum_len (values questions) = Ok total
                /\ config.TOTAL_MIN_QUESTIONS <= total.
Proof.
  unfold _validate_questions.
  destruct (sum_len (values questions)) as [total|e]; simpl.
  - destruct (total <? config.TOTAL_MIN_QUESTIONS) eqn:Hlt; split.
    + discriminate.
    + intros (t & Ht & Hle). injection Ht as <-. lia.
    + intros _. exists total. split; [reflexivity|lia].
    + reflexivity.
  - split; [discriminate|]. intros (t & Ht & _). discriminate.
Qed.

(** The entries of parsed questions: the five categories in their order,
    each with the value of the response or the empty list. *)
Lemma entries_filled (cats0 cats : list pystr) (d : list (pystr * pyval))
    (acc : gmap pystr pyval) :
  Forall (fun c => c ∈ cats0) cats ->
  omap (fun c => pair c <$> fill_categories cats0 d acc !! c) cats
  = map (fun c => (c, dict_get c d (VList []))) cats.
Proof.
  induction 1 as [|c cats Hc _ IH]; [reflexivity|].
  cbn [omap list_omap map]. rewrite IH, fill_categories_lookup.
  rewrite bool_decide_eq_true_2 by exact Hc. reflexivity.
Qed.

Lemma entries_parsed (d : list (pystr * pyval)) :
  entries (fill_categories config.QUESTION_CATEGORIES d ∅)
  = map (fun c => (c, dict_get c d (VList []))) config.QUESTION_CATEGORIES.
Proof.
  unfold entries. apply entries_filled.
  apply List.Forall_forall. intros c Hc. now apply list_elem_of_In.
Qed.

(** A sum of lengths is defined only when every value has a length. *)
Lemma sum_len_sized (vs : list pyval) (total : Z) :
  sum_len vs = Ok total ->
  0 <= total /\ Forall (fun v => exists n, py_len v = Ok n /\ 0 <= n) vs.
Proof.
  revert total. induction vs as [|v vs IH]; intros total; cbn [sum_len].
  - intros [= <-]. split; [lia|constructor].
  - destruct (py_len v) as [n|e] eqn:Hn; [|discriminate]. cbn [mbind result_bind].
    destruct (sum_len vs) as [t|e]; [|discriminate]. cbn [mbind result_bind].
    intros [= <-]. destruct (IH t eq_refl) as [Ht Hall].
    assert (0 <= n).
    { destruct v; try discriminate; injection Hn as <-; lia. }
    split; [lia|]. constructor; [|exact Hall]. exists n. now split.
Qed.

End ParsedQuestions.

Section QuestionGeneration.

Import QuestionGeneratorAgent.

Context {Product : Type}.
Variable _build_prompt : Product -> result pystr.
Variable generate_content : pystr -> result pystr.
Variable json_loads : pystr -> pyval + pystr.

(** X21: what [generate] returns has passed the one check there is: its
    entries are the five categories in their order, every value has a
    length (it is a list, a text or an object), and the lengths add up to
    at least [TOTAL_MIN_QUESTIONS]; so counting them again (as stage 2
    does for its message) returns that total and cannot raise. *)
Theorem generated_questions_total (product : Product) (questions : gmap pystr pyval) :
  generate _build_prompt generate_content json_loads product = Ok questions ->
  (exists total, get_total_count (entries questions) = Ok total
                 /\ config.TOTAL_MIN_QUESTIONS <= total)
  /\ (forall k, is_Some (questions !! k) <-> k ∈ config.QUESTION_CATEGORIES)
  /\ map fst (entries questions) = config.QUESTION_CATEGORIES
  /\ (forall i entry, entries questions !! i = Some entry ->
        questions !! fst entry = Some (snd entry))
  /\ forall k v, questions !! k = Some v -> exists n, py_len v = Ok n /\ 0 <= n.
Proof.
  unfold generate. intros H.
  destruct (_build_prompt product) as [prompt|e]; [|discriminate].
  cbn [mbind result_bind] in H.
  destruct (_call_llm generate_content prompt) as [response|e]; [|discriminate].
  cbn [mbind result_bind] in H.
  destruct (_parse_response json_loads response) as [qs|e] eqn:Hp; [|discriminate].
  cbn [mbind result_bind] in H.
  destruct (_validate_questions (entries qs)) as [[]|e] eqn:Hv; [|discriminate].
  injection H as <-.
  destruct (parse_response_inv json_loads response qs Hp) as (d & _ & ->).
  apply validate_questions_total in Hv as (total & Ht & Hle).
  assert (Hkeys : forall k,
    is_Some (fill_categories config.QUESTION_CATEGORIES d ∅ !! k)
    <-> k ∈ config.QUESTION_CATEGORIES).
  { intros k. rewrite fill_categories_lookup.
    destruct (decide (k ∈ config.QUESTION_CATEGORIES)) as [Hin|Hin].
    + rewrite bool_decide_eq_true_2 by exact Hin.
      split; [intros _; exact Hin|intros _; eexists; reflexivity].
    + rewrite bool_decide_eq_false_2 by exact Hin. rewrite lookup_empty.
      split; [intros [x Hx]; discriminate|tauto]. }
  split; [|split; [|split; [|split]]].
  - exists total. split; [exact Ht|exact Hle].
  - exact Hkeys.
  - rewrite entries_parsed, map_map. cbn [fst]. apply map_id.
  - intros i [c v] Hk. rewrite entries_parsed in Hk.
    apply list_lookup_fmap_Some in Hk as (c' & [= -> ->] & Hc').
    cbn [fst snd]. rewrite fill_categories_lookup.
    rewrite bool_decide_eq_true_2; [reflexivity|].
    now apply list_elem_of_lookup_2 in Hc'.
  - intros k v Hk.
    assert (Hin : k ∈ config.QUESTION_CATEGORIES) by (apply Hkeys; eauto).
    rewrite fill_categories_lookup, bool_decide_eq_true_2 in Hk by exact Hin.
    injection Hk as <-.
    destruct (sum_len_sized _ _ Ht) as [_ Hall].
    unfold values in Hall. rewrite entries_parsed, map_map in Hall. cbn [snd] in Hall.
    rewrite List.Forall_forall in Hall. apply Hall.
    apply in_map_iff. exists k. split; [reflexivity|]. now apply list_elem_of_In.
Qed.

(** The three ways in which [generate] fails after the prompt is built. *)
Lemma generate_failures (product : Product) (prompt : pystr) :
  _build_prompt product = Ok prompt ->
  (forall e, generate_content prompt = Raise e ->
     generate _build_prompt generate_content json_loads product
       = Raise (Exn RuntimeError (Py.str "LLM call failed: " ++ exn_msg e)))
  /\ (forall response message,
        generate_content prompt = Ok response ->
        json_loads (Py.strip (Envelope.strip_code_fences response)) = inr message ->
        generate _build_prompt generate_content json_loads product
          = Raise (Exn ValueError
                     (Py.str "Failed to parse LLM response as JSON: " ++ message)))
  /\ (forall response questions total,
        generate_content prompt = Ok response ->
        _parse_response json_loads response = Ok questions ->
        sum_len (values (entries questions)) = Ok total ->
        total < config.TOTAL_MIN_QUESTIONS ->
        generate _build_prompt generate_content json_loads product
          = Raise (Exn ValueError
                     (Py.str "Insufficient questions generated: "
                      ++ str_of_nat (Z.to_nat total)
                      ++ Py.str " (minimum: 15)"))).
Proof.
  intros Hb. unfold generate, _call_llm. rewrite Hb. simpl. split; [|split].
  - intros e He. now rewrite He.
  - intros response message Hr Hm. rewrite Hr. simpl.
    unfold _parse_response. now rewrite Hm.
  - intros response questions total Hr Hp Hs Hlt. rewrite Hr. simpl. rewrite Hp. simpl.
    unfold _validate_questions. rewrite Hs. simpl.
    rewrite (proj2 (Z.ltb_lt _ _) Hlt). reflexivity.
Qed.

End QuestionGeneration.

Section QuestionStage.

Import Orchestrator.

Context {Product Blocks Page : Type}.
Variable env : collaborators Product (gmap pystr pyval) Blocks Page.
Variables (dir input_path : pystr).
Variable _build_prompt : Product -> result pystr.
Variable generate_content : pystr -> result pystr.
Variable json_loads : pystr -> pyval + pystr.

Lemma run_fails_at_questions (is_verbose : bool) (p : Product)
    (kind : exn_class) (message : pystr) :
  parser_parse env input_path = Ok p ->
  question_generator_generate env (Some p) = Raise (Exn kind message) ->
  snd (run env input_path (new is_verbose dir)) = Ok (Failure message).
Proof.
  intros H1 H2. pose proof (run_end env dir input_path is_verbose) as Hr.
  cbv zeta in Hr. apply proj1 in Hr. rewrite Hr.
  unfold run_error, first_failure. rewrite H1, H2. reflexivity.
Qed.

(** X22: what the caller of a run sees of the three failures of the question
    generator, once the product is parsed and the prompt built: an
    exception of the model call comes back as [LLM call failed: ...] with
    its text, an answer that cannot be decoded as [Failed to parse LLM
    response as JSON: ...] with the decoder's message, and fewer than
    [TOTAL_MIN_QUESTIONS] questions as [Insufficient questions generated:
    n (minimum: 15)] with their number. *)
Theorem question_failures_end_the_run (is_verbose : bool) (p : Product) (prompt : pystr) :
  parser_parse env input_path = Ok p ->
  question_generator_generate env (Some p)
    = QuestionGeneratorAgent.generate _build_prompt generate_content json_loads p ->
  _build_prompt p = Ok prompt ->
  let outcome := snd (run env input_path (new is_verbose dir)) in
  (forall e, generate_content prompt = Raise e ->
     outcome = Ok (Failure (Py.str "LLM call failed: " ++ exn_msg e)))
  /\ (forall response message,
        generate_content prompt = Ok response ->
        json_loads (Py.strip (Envelope.strip_code_fences response)) = inr message ->
        outcome = Ok (Failure (Py.str "Failed to parse LLM response as JSON: "
                               ++ message)))
  /\ (forall response questions total,
        generate_content prompt = Ok response ->
        QuestionGeneratorAgent._parse_response json_loads response = Ok questions ->
        sum_len (QuestionGeneratorAgent.values
                   (QuestionGeneratorAgent.entries questions)) = Ok total ->
        total < config.TOTAL_MIN_QUESTIONS ->
        outcome = Ok (Failure (Py.str "Insufficient questions generated: "
                               ++ str_of_nat (Z.to_nat total)
                               ++ Py.str " (minimum: 15)"))).
Proof.
  intros H1 H2 Hb outcome. unfold outcome.
  destruct (generate_failures _build_prompt generate_content json_loads p prompt Hb)
    as (Hllm & Hjson & Hfew).
  split; [|split].
  - intros e He. rewrite (Hllm e He) in H2.
    exact (run_fails_at_questions is_verbose p _ _ H1 H2).
  - intros response message Hr Hm. rewrite (Hjson response message Hr Hm) in H2.
    exact (run_fails_at_questions is_verbose p _ _ H1 H2).
  - intros response questions total Hr Hp Hs Hlt.
    rewrite (Hfew response questions total Hr Hp Hs Hlt) in H2.
    exact (run_fails_at_questions is_verbose p _ _ H1 H2).
Qed.

End QuestionStage.

(** ** The response envelope of the other two agents *)

Section OtherParsers.

Import Py Envelope.

Variable json_loads : pystr -> pyval + pystr.

(** A fenced block without the [json] tag comes out as the text too. *)
Lemma strip_code_fences_untagged (before t after : pystr) :
  blank before -> blank after -> json_shaped t = true -> head t <> Some 106%N ->
  Py.strip (strip_code_fences (before ++ Py.str "```" ++ t ++ Py.str "```" ++ after))
  = Py.strip t.
Proof.
  intros Hb Ha H Hj. destruct (json_shaped_strip t H) as (c & body & Hs & Hc & Hl).
  destruct (strip_first t c body Hs) as (d & rest & Ht & Hd).
  assert (Hd96 : d <> 96%N).
  { destruct Hd as [Hsp| ->]; [|exact Hc]. intros ->. discriminate. }
  assert (Hd106 : d <> 106%N).
  { intros ->. apply Hj. now rewrite Ht. }
  unfold strip_code_fences. rewrite json_fence, backquotes.
  set (C := [96; 96; 96]%N).
  assert (Hstrip : Py.strip (before ++ C ++ t ++ C ++ after) = C ++ t ++ C).
  { replace (before ++ C ++ t ++ C ++ after) with (before ++ (C ++ t ++ C) ++ after)
      by (now rewrite <- !app_assoc).
    apply strip_around; [exact Hb|exact Ha| |].
    - split.
      + intros c0 r0 Heq. injection Heq as <- _. reflexivity.
      + intros c0 r0 Heq. rewrite !rev_app_distr in Heq.
        injection Heq as <- _. reflexivity.
    - discriminate. }
  rewrite Hstrip.
  assert (Htag : Py.startswith (C ++ t ++ C) [96; 96; 96; 106; 115; 111; 110]%N = false).
  { rewrite Ht.
    change (Py.startswith (C ++ (d :: rest) ++ C) [96; 96; 96; 106; 115; 111; 110]%N)
      with ((96 =? 96)%N && ((96 =? 96)%N && ((96 =? 96)%N
            && ((106 =? d)%N && Py.startswith (rest ++ C) [115; 111; 110]%N)))).
    now rewrite (proj2 (N.eqb_neq 106 d)) by congruence. }
  rewrite Htag, startswith_app.
  change (drop 3 (C ++ t ++ C)) with (t ++ C).
  rewrite endswith_app.
  replace (length (t ++ C) - 3)%nat with (length t)
    by (rewrite length_app; simpl; lia).
  now rewrite take_app_length.
Qed.

(** X23: the parsers of the comparison and of the product page unwrap a fenced
    JSON text like the other two, with or without the [json] tag (which
    the other two accept left out as well); on a text that cannot be
    decoded the comparison raises its [ValueError], while the product page
    raises nothing and goes on with its minimal content. *)
Theorem every_parser_unwraps_fences (before t after : pystr) :
  blank before -> blank after -> json_shaped t = true ->
  (ComparisonAgent._parse_response json_loads (fenced before t after)
     = ComparisonAgent._parse_response json_loads t
   /\ ProductPageAgent._parse_response json_loads (fenced before t after)
     = ProductPageAgent._parse_response json_loads t)
  /\ (head t <> Some 106%N ->
      let bare := before ++ Py.str "```" ++ t ++ Py.str "```" ++ after in
      QuestionGeneratorAgent._parse_response json_loads bare
        = QuestionGeneratorAgent._parse_response json_loads t
      /\ FAQPageAgent._parse_response json_loads bare
        = FAQPageAgent._parse_response json_loads t
      /\ ComparisonAgent._parse_response json_loads bare
        = ComparisonAgent._parse_response json_loads t
      /\ ProductPageAgent._parse_response json_loads bare
        = ProductPageAgent._parse_response json_loads t)
  /\ forall response message,
       json_loads (Py.strip (strip_code_fences response)) = inr message ->
       ComparisonAgent._parse_response json_loads response
         = Raise (Exn ValueError (Py.str "Failed to parse LLM response: " ++ message))
       /\ ProductPageAgent._parse_response json_loads response
         = ProductPageAgent.minimal_content.
Proof.
  intros Hb Ha H.
  unfold ComparisonAgent._parse_response, ProductPageAgent._parse_response,
    QuestionGeneratorAgent._parse_response, FAQPageAgent._parse_response.
  split; [|split].
  - rewrite (strip_code_fences_fenced before t after Hb Ha H).
    rewrite (strip_code_fences_plain t H). split; reflexivity.
  - intros Hj. cbv zeta.
    rewrite (strip_code_fences_untagged before t after Hb Ha H Hj).
    rewrite (strip_code_fences_plain t H). repeat split.
  - intros response message Hm. rewrite Hm. split; reflexivity.
Qed.

End OtherParsers.

(** ** The product page *)

Section ProductPage.

Import ProductPageAgent.

Variable _build_prompt : product -> result pystr.
Variable generate_content : pystr -> result pystr.
Variable json_loads : pystr -> pyval + pystr.
Variable repr_float : float -> pystr.
Variable now_isoformat : pystr.

(** X24: when the model's answer cannot be decoded, the product page is built
    all the same, from the product alone: the headline and the three
    descriptions are empty texts (the headline is not the product name,
    which stands in only for a decoded answer without a headline) and the
    tips and precautions are empty lists. *)
Theorem product_page_without_content (p : product) (prompt response message : pystr) :
  _build_prompt p = Ok prompt ->
  generate_content prompt = Ok response ->
  json_loads (Py.strip (Envelope.strip_code_fences response)) = inr message ->
  exists page,
    generate _build_prompt generate_content json_loads repr_float now_isoformat p
      = Ok page
    /\ headline page = VStr []
    /\ description page = VStr []
    /\ ingredients_description page = VStr []
    /\ benefits_description page = VStr []
    /\ usage_tips page = VList []
    /\ safety_precautions page = VList []
    /\ product_name page = default [] (name p)
    /\ ingredients_list page = default [] (ingredients p)
    /\ benefits_list page = default [] (benefits p)
    /\ usage_instructions page = default [] (usage p)
    /\ safety_side_effects page = default [] (side_effects p).
Proof.
  intros Hb Hg Hm.
  unfold generate, _generate_enhanced_content, _call_llm, _parse_response.
  rewrite Hb. cbn [mbind result_bind]. rewrite Hg. cbn [mbind result_bind mret result_ret].
  rewrite Hm. unfold minimal_content, content_get.
  eexists. split; [vm_compute; reflexivity|]. 
  repeat split.
Qed.

End ProductPage.

(** ** The template engine *)

Section Templates.

Import TemplateEngineAgent.

Variable read_template : pystr -> option (result pyval).

(** X25: whatever the templates directory holds, an engine that is constructed
    lists the three templates [faq], [product], [comparison], in this
    order, and each name stands for the decoded file when the file exists
    and for the default when it does not. *)
Theorem templates_listed (templates : list (pystr * pyval)) :
  _load_templates read_template = Ok templates ->
  list_templates templates = [Py.str "faq"; Py.str "product"; Py.str "comparison"]
  /\ get_template templates (Py.str "faq")
       = Some (loaded_or_default read_template "faq" "faq_template.json")
  /\ get_template templates (Py.str "product")
       = Some (loaded_or_default read_template "product" "product_template.json")
  /\ get_template templates (Py.str "comparison")
       = Some (loaded_or_default read_template "comparison" "comparison_template.json").
Proof.
  unfold _load_templates, template_files, loaded_or_default. cbn [load app].
  destruct (read_template (Py.str "faq_template.json")) as [[t1|e1]|];
    cbn [mbind result_bind]; try discriminate;
    (destruct (read_template (Py.str "product_template.json")) as [[t2|e2]|];
     cbn [mbind result_bind load app]; try discriminate);
    (destruct (read_template (Py.str "comparison_template.json")) as [[t3|e3]|];
     cbn [mbind result_bind load app]; try discriminate);
    intros H; injection H as <-; repeat split.
Qed.

Lemma check_fields_required (k : pystr) (fd rest data : list (pystr * pyval)) :
  dict_get (Py.str "required") fd (VBool true) = VBool true ->
  has_key (Py.str "default") fd = false ->
  check_fields ((k, VDict fd) :: rest) data =
    if has_key k data then check_fields rest data
    else Raise (Exn ValueError (Py.str "Missing required field: " ++ k)).
Proof.
  intros Hr Hd. cbn [check_fields]. rewrite Hr, Hd. cbn [truthy negb andb].
  now destruct (has_key k data).
Qed.

Lemma check_fields_default (k : pystr) (fd rest data : list (pystr * pyval)) :
  has_key (Py.str "default") fd = true ->
  check_fields ((k, VDict fd) :: rest) data = check_fields rest data.
Proof.
  intros Hd. cbn [check_fields]. rewrite Hd. cbn [negb].
  now destruct (truthy _ && negb _).
Qed.

Lemma first_missing_cons (name : string) (names : list string)
    (data : list (pystr * pyval)) :
  first_missing (name :: names) data =
    if has_key (Py.str name) data then first_missing names data
    else Raise (Exn ValueError (Py.str "Missing required field: " ++ Py.str name)).
Proof.
  unfold first_missing. rewrite filter_cons.
  destruct (has_key (Py.str name) data); [|reflexivity].
  destruct (decide (true = false)); [discriminate|reflexivity].
Qed.

(** Decides a validation against default fields by the keys of the data. *)
Ltac by_missing_field :=
  unfold entry, field_def, text;
  rewrite check_fields_default by reflexivity;
  rewrite !check_fields_required by reflexivity;
  rewrite !first_missing_cons; reflexivity.

(** X26: with no template file in the directory, a page is valid for a
    template when it has every field of the default template but
    [page_type], which has a default: the first field missing, in the order
    of the template, is named by the [ValueError]; and a name other than
    the three raises [Template not found]. *)
Theorem default_templates_validation (data : list (pystr * pyval)) :
  (forall filename, read_template filename = None) ->
  exists templates,
    _load_templates read_template = Ok templates
    /\ validate_template_data templates (Py.str "faq") data
         = first_missing ["product_name"; "generated_at"; "faqs"] data
    /\ validate_template_data templates (Py.str "product") data
         = first_missing ["product_name"; "ingredients"; "benefits"; "usage";
                          "side_effects"; "price"] data
    /\ validate_template_data templates (Py.str "comparison") data
         = first_missing ["product_a"; "product_b"; "comparison"] data
    /\ forall name,
         name <> Py.str "faq" -> name <> Py.str "product" ->
         name <> Py.str "comparison" ->
         validate_template_data templates name data
           = Raise (Exn ValueError (Py.str "Template not found: " ++ name)).
Proof.
  intros Hnone. unfold _load_templates, template_files. cbn [load].
  rewrite !Hnone. cbn [load app]. eexists. split; [reflexivity|].
  split; [|split; [|split]].
  - change (check_fields faq_fields data = first_missing ["product_name"; "generated_at"; "faqs"] data).
    unfold faq_fields. by_missing_field.
  - change (check_fields product_fields data
            = first_missing ["product_name"; "ingredients"; "benefits"; "usage";
                             "side_effects"; "price"] data).
    unfold product_fields. by_missing_field.
  - change (check_fields comparison_fields data
            = first_missing ["product_a"; "product_b"; "comparison"] data).
    unfold comparison_fields. by_missing_field.
  - intros name Hf Hp Hc. unfold validate_template_data, get_template.
    cbn [dict_lookup].
    rewrite !bool_decide_eq_false_2 by congruence. reflexivity.
Qed.

End Templates.

(** X27: the page that [ProductPageAgent.generate] builds is not valid for the
    default product template: the template asks for the fields
    [side_effects] and [price], which the page holds inside [safety] and
    [pricing] and not under these names; the validation of any such page
    raises on [side_effects], the first of the two. *)
Theorem product_page_misses_template_field (page : ProductPageAgent.product_page) :
  (templates ← TemplateEngineAgent._load_templates (fun _ => None);
   TemplateEngineAgent.validate_template_data templates (Py.str "product")
     (ProductPageAgent.as_dict page))
  = Raise (Exn ValueError (Py.str "Missing required field: side_effects")).
Proof. vm_compute. reflexivity. Qed.

(** ** The further properties on the sample data *)

Section OnFurtherSamples.

Import Samples Scenarios.

Lemma normalize_array_trimmed_witness :
  ProductParserAgent._normalize_array str_left_out (VStr (Py.str " Oily , Combination ,"))
    = Ok [Py.str "Oily"; Py.str "Combination"]
  /\ Forall (fun x => x <> [] /\ Py.strip x = x) [Py.str "Oily"; Py.str "Combination"].
Proof.
  split; [reflexivity|].
  exact (normalize_array_trimmed str_left_out
           (VStr (Py.str " Oily , Combination ,")) _ eq_refl).
Defined.

Lemma normalize_array_idempotent_witness :
  ProductParserAgent._normalize_array str_left_out (VStr (Py.str " Oily , Combination ,"))
    = Ok [Py.str "Oily"; Py.str "Combination"]
  /\ ProductParserAgent._normalize_array str_left_out
       (VList [VStr (Py.str "Oily"); VStr (Py.str "Combination")])
     = Ok [Py.str "Oily"; Py.str "Combination"].
Proof.
  split; [reflexivity|].
  exact (normalize_array_idempotent str_left_out
           (VStr (Py.str " Oily , Combination ,")) _ eq_refl).
Defined.

Lemma normalize_array_comma_text_witness :
  Forall (fun s => 44%N ∉ s) [Py.str " Oily "; Py.str "Combination"]
  /\ ProductParserAgent._normalize_array str_left_out (VStr (Py.str " Oily ,Combination"))
     = ProductParserAgent._normalize_array str_left_out
         (VList [VStr (Py.str " Oily "); VStr (Py.str "Combination")]).
Proof.
  assert (H : Forall (fun s => 44%N ∉ s) [Py.str " Oily "; Py.str "Combination"]).
  { refine (bool_decide_unpack _ _). vm_compute. exact I. }
  split; [exact H|].
  exact (normalize_array_comma_text str_left_out _ H).
Defined.

Lemma normalize_array_foreign_item_witness :
  (forall s, VInt 5 <> VStr s)
  /\ ProductParserAgent._normalize_array str_of_int (VList [VStr (Py.str "Oily"); VInt 5])
     = Raise (no_attribute (VInt 5) "strip").
Proof.
  assert (H : forall s, VInt 5 <> VStr s) by (intros s; discriminate).
  split; [exact H|].
  exact (normalize_array_foreign_item str_of_int [Py.str "Oily"] (VInt 5) [] H).
Defined.

Lemma extraction_reads_first_numeral_witness :
  Re.digitless (Py.str "about ") /\ Re.digits_of (Py.str "15") [1; 5]%N
  /\ ProductParserAgent._extract_concentration str_left_out
       (VStr (Py.str "about 15.5% Active, 20 at most"))
     = Ok (Re.float_of_match ([1; 5]%N, [5]%N)).
Proof.
  assert (Hp : Re.digitless (Py.str "about ")) by (repeat constructor).
  assert (Hd : Re.digits_of (Py.str "15") [1; 5]%N) by (repeat constructor).
  assert (Hf : Re.digits_of (Py.str "5") [5]%N) by (repeat constructor).
  split; [exact Hp|]. split; [exact Hd|].
  refine (proj1 (extraction_reads_first_numeral str_left_out (Py.str "about ")
                   (Py.str "15") [1; 5]%N Hp Hd _)
            (Py.str "5") [5]%N (Py.str "% Active, 20 at most") Hf eq_refl).
  discriminate.
Defined.

Lemma price_ignores_separators_witness :
  Re.currency_or_space 44 = true
  /\ ProductParserAgent._extract_price str_left_out (VStr (Py.str "1,299"))
     = ProductParserAgent._extract_price str_left_out (VStr (Py.str "1299")).
Proof.
  split; [reflexivity|].
  exact (proj1 (price_ignores_separators str_left_out (Py.str "1") (Py.str "299") 44
                  eq_refl)).
Defined.

Lemma compare_products_swap_witness :
  exists r r',
    comparison.compare_products Py.ascii_lower repr_left_out glowboost radiantglow = Ok r
    /\ comparison.compare_products Py.ascii_lower repr_left_out radiantglow glowboost = Ok r'
    /\ comparison.product_a_score (comparison.c_scores r')
       = comparison.product_b_score (comparison.c_scores r)
    /\ comparison.winner (comparison.c_scores r) = comparison.winner_is comparison.product_b
    /\ comparison.winner (comparison.c_scores r') = comparison.winner_is comparison.product_a.
Proof.
  eexists.
  destruct (compare_products_swap Py.ascii_lower repr_left_out glowboost radiantglow
              _ eq_refl) as (r' & Hr' & Ha & _ & Hw & _).
  exists r'. split; [reflexivity|]. split; [exact Hr'|]. split; [exact Ha|].
  split; [reflexivity|]. rewrite Hw. reflexivity.
Defined.

Lemma compare_products_self_witness :
  exists r,
    comparison.compare_products Py.ascii_lower repr_left_out glowboost glowboost = Ok r
    /\ comparison.winner (comparison.c_scores r) = comparison.tie
    /\ comparison.product_a_score (comparison.c_scores r) = 0.
Proof.
  eexists. split; [reflexivity|].
  destruct (compare_products_self Py.ascii_lower repr_left_out glowboost _ eq_refl)
    as (Ha & _ & Hw & _).
  split; [exact Hw|exact Ha].
Defined.

Lemma severity_and_consultation_witness :
  safety.side_effects severe_product = Some (Py.str "Severe redness in rare cases")
  /\ safety.severity (safety.sb_side_effects
                        (safety.generate_safety Py.ascii_lower severe_product))
     = Py.str "high"
  /\ safety.consultation_advised (safety.generate_safety Py.ascii_lower severe_product)
     = true.
Proof.
  split; [reflexivity|].
  refine (proj1 (severity_and_consultation Py.ascii_lower severe_product
                   (Py.str "Severe redness in rare cases") eq_refl _) eq_refl).
  discriminate.
Defined.

Lemma select_questions_reaches_minimum_witness :
  config.MIN_FAQ_ITEMS <= Z.of_nat
    (list_sum (map (fun c => length (default [] (sample_questions !! c)))
                   FAQPageAgent.category_priority))
  /\ config.MIN_FAQ_ITEMS
     <= Z.of_nat (length (FAQPageAgent._select_questions config.MIN_FAQ_ITEMS
                            sample_questions)).
Proof.
  assert (H : config.MIN_FAQ_ITEMS <= Z.of_nat
    (list_sum (map (fun c => length (default [] (sample_questions !! c)))
                   FAQPageAgent.category_priority))) by (vm_compute; discriminate).
  split; [exact H|].
  exact (proj1 (select_questions_reaches_minimum config.MIN_FAQ_ITEMS sample_questions H)).
Defined.


Lemma parsed_questions_categories_witness :
  exists questions d,
    QuestionGeneratorAgent._parse_response json_loads_questions questions_text
      = Ok questions
    /\ json_loads_questions (Py.strip (Envelope.strip_code_fences questions_text))
       = inl (VDict d)
    /\ questions !! Py.str "usage" = Some (VList [])
    /\ questions !! Py.str "other" = None.
Proof.
  eexists.
  destruct (parsed_questions_categories json_loads_questions questions_text _ eq_refl)
    as (d & Hd & Hk).
  exists d. split; [reflexivity|]. split; [exact Hd|].
  vm_compute in Hd. injection Hd as <-.
  split; [rewrite Hk|rewrite Hk]; reflexivity.
Defined.

Lemma generated_questions_total_witness :
  exists questions total,
    QuestionGeneratorAgent.generate (Product := pyval) prompt_left_out
      (model_answers questions_text) json_loads_questions (VDict []) = Ok questions
    /\ QuestionGeneratorAgent.get_total_count (QuestionGeneratorAgent.entries questions)
       = Ok total
    /\ config.TOTAL_MIN_QUESTIONS <= total
    /\ questions !! Py.str "usage" = Some (VList []).
Proof.
  eexists.
  destruct (generated_questions_total (Product := pyval) prompt_left_out
              (model_answers questions_text) json_loads_questions (VDict []) _ eq_refl)
    as ((total & Ht & Hle) & _).
  exists total. split; [reflexivity|]. split; [exact Ht|]. split; [exact Hle|].
  reflexivity.
Defined.

Lemma question_failures_end_the_run_witness :
  Orchestrator.parser_parse
    (agents_with_generator (model_fails quota_exceeded) json_loads_questions) input_path
    = Ok (VDict [])
  /\ snd (Orchestrator.run
            (agents_with_generator (model_fails quota_exceeded) json_loads_questions)
            input_path (Orchestrator.new false outputs))
     = Ok (Orchestrator.Failure (Py.str "LLM call failed: " ++ Py.str "429 quota exceeded")).
Proof.
  split; [reflexivity|].
  exact (proj1 (question_failures_end_the_run
                  (agents_with_generator (model_fails quota_exceeded) json_loads_questions)
                  outputs input_path prompt_left_out (model_fails quota_exceeded)
                  json_loads_questions false (VDict []) [] eq_refl eq_refl eq_refl)
           quota_exceeded eq_refl).
Defined.

Lemma every_parser_unwraps_fences_witness :
  Py.blank [10%N] /\ Envelope.json_shaped (Py.str "{}") = true
  /\ ComparisonAgent._parse_response json_loads_empty_object
       (Envelope.fenced [10%N] (Py.str "{}") [10%N])
     = ComparisonAgent._parse_response json_loads_empty_object (Py.str "{}")
  /\ ProductPageAgent._parse_response json_loads_empty_object
       ([10%N] ++ Py.str "```" ++ Py.str "{}" ++ Py.str "```" ++ [10%N])
     = ProductPageAgent._parse_response json_loads_empty_object (Py.str "{}").
Proof.
  assert (Hb : Py.blank [10%N]) by (repeat constructor).
  split; [exact Hb|]. split; [reflexivity|].
  destruct (every_parser_unwraps_fences json_loads_empty_object [10%N] (Py.str "{}") [10%N]
              Hb Hb eq_refl) as ((Hc & _) & Hbare & _).
  split; [exact Hc|].
  refine (proj2 (proj2 (proj2 (Hbare _)))). discriminate.
Defined.

Lemma product_page_without_content_witness :
  json_loads_empty_object
    (Py.strip (Envelope.strip_code_fences (Py.str "I cannot help with that.")))
    = inr (Py.str "Expecting value: line 1 column 1 (char 0)")
  /\ exists page,
       ProductPageAgent.generate prompt_left_out
         (model_answers (Py.str "I cannot help with that.")) json_loads_empty_object
         repr_left_out (Py.str "2025-01-01T00:00:00+00:00") sample_product = Ok page
       /\ ProductPageAgent.headline page = VStr []
       /\ ProductPageAgent.product_name page = Py.str "GlowBoost Vitamin C Serum".
Proof.
  split; [reflexivity|].
  destruct (product_page_without_content prompt_left_out
              (model_answers (Py.str "I cannot help with that.")) json_loads_empty_object
              repr_left_out (Py.str "2025-01-01T00:00:00+00:00") sample_product
              [] (Py.str "I cannot help with that.")
              (Py.str "Expecting value: line 1 column 1 (char 0)")
              eq_refl eq_refl eq_refl)
    as (page & Hp & Hh & _ & _ & _ & _ & _ & Hn & _).
  exists page. split; [exact Hp|]. split; [exact Hh|exact Hn].
Defined.

Lemma templates_listed_witness :
  exists templates,
    TemplateEngineAgent._load_templates (fun _ => None) = Ok templates
    /\ TemplateEngineAgent.list_templates templates
       = [Py.str "faq"; Py.str "product"; Py.str "comparison"].
Proof.
  eexists. split; [reflexivity|].
  exact (proj1 (templates_listed (fun _ => None) _ eq_refl)).
Defined.

Lemma default_templates_validation_witness :
  exists templates,
    TemplateEngineAgent._load_templates (fun _ => None) = Ok templates
    /\ TemplateEngineAgent.validate_template_data templates (Py.str "faq")
         [ (Py.str "product_name", VStr (Py.str "GlowBoost Vitamin C Serum"));
           (Py.str "generated_at", VStr (Py.str "2025-01-01T00:00:00+00:00")) ]
       = Raise (Exn ValueError (Py.str "Missing required field: faqs")).
Proof.
  destruct (default_templates_validation (fun _ => None)
              [ (Py.str "product_name", VStr (Py.str "GlowBoost Vitamin C Serum"));
                (Py.str "generated_at", VStr (Py.str "2025-01-01T00:00:00+00:00")) ]
              (fun _ => eq_refl))
    as (templates & Ht & Hfaq & _).
  exists templates. split; [exact Ht|]. rewrite Hfaq. reflexivity.
Defined.

End OnFurtherSamples.
